(** * JusticeFormsOCR: the OCR evaluation pipeline, embedded in Rocq

    A shallow embedding of the backend's processing core
    ([app/processing], [app/services/ocr_pipeline.py],
    [app/services/scan_simulator.py], [app/services/synthetic_generator.py],
    [app/routers/tests.py]) together with the properties its design
    document states about it.

    Conventions of the embedding:
    - Python [str] is [string] (one byte per character; [lower], [strip]
      and [isspace] are the ASCII ones);
    - Python [int] is [Z]; Python [float] is an exact rational [Q];
    - a raised exception is the [Raise] constructor of [result];
    - the external models (OCR back ends, layout back ends, blob store) are
      fields of records of functions, so every definition stays executable;
    - the Firestore collections are finite maps and lists in a [World]. *)

From Stdlib Require Import ZArith QArith Qround String Ascii List Lia Permutation.
From stdpp Require Import base option list strings pretty gmap.

Local Open Scope string_scope.
Local Open Scope Z_scope.

(** ** Python primitives *)

Module Py.

(** An exception object: its class name and [str(e)]. *)
Record PyExc := mkExc { exc_type : string; exc_str : string }.

(** The outcome of a call that may raise. *)
Inductive result (A : Type) : Type :=
| Ok (a : A)
| Raise (e : PyExc).
Arguments Ok {A} a.
Arguments Raise {A} e.

Definition bind {A B} (m : result A) (k : A -> result B) : result B :=
  match m with
  | Ok a => k a
  | Raise e => Raise e
  end.

(** [for x in xs: acc.append(f(x))] where [f] may raise: the first
    exception leaves the loop. *)
Fixpoint mapM {A B} (f : A -> result B) (xs : list A) : result (list B) :=
  match xs with
  | [] => Ok []
  | x :: xs' =>
      bind (f x) (fun y => bind (mapM f xs') (fun ys => Ok (y :: ys)))
  end.

(** [sep.join(parts)] *)
Fixpoint join (sep : string) (parts : list string) : string :=
  match parts with
  | [] => ""
  | [p] => p
  | p :: ps => p ++ sep ++ join sep ps
  end.

Definition lower_ascii (c : ascii) : ascii :=
  let n := nat_of_ascii c in
  if ((65 <=? n) && (n <=? 90))%nat then ascii_of_nat (n + 32) else c.

(** [s.lower()] *)
Fixpoint lower (s : string) : string :=
  match s with
  | EmptyString => EmptyString
  | String c s' => String (lower_ascii c) (lower s')
  end.

(** [c.isspace()] on the ASCII range: TAB, LF, VT, FF, CR, FS, GS, RS, US
    and the space. *)
Definition isspace (c : ascii) : bool :=
  let n := nat_of_ascii c in
  (((9 <=? n) && (n <=? 13)) || ((28 <=? n) && (n <=? 32)))%nat.

Fixpoint lstrip (s : string) : string :=
  match s with
  | EmptyString => EmptyString
  | String c s' => if isspace c then lstrip s' else s
  end.

(** Drops trailing white space: a character is kept when it is not white
    space or when something is kept after it. *)
Fixpoint rstrip (s : string) : string :=
  match s with
  | EmptyString => EmptyString
  | String c s' =>
      match rstrip s' with
      | EmptyString => if isspace c then EmptyString else String c EmptyString
      | r => String c r
      end
  end.

(** [s.strip()] *)
Definition strip (s : string) : string := rstrip (lstrip s).

(** [s.split(sep)] for a one-character separator: always at least one
    piece, empty pieces are kept. *)
Fixpoint split_on (sep : ascii) (s : string) : list string :=
  match s with
  | EmptyString => [EmptyString]
  | String c s' =>
      if Ascii.eqb c sep then EmptyString :: split_on sep s'
      else match split_on sep s' with
           | [] => [String c EmptyString]
           | p :: ps => String c p :: ps
           end
  end.

Definition LF : ascii := ascii_of_nat 10.

Fixpoint is_prefix (p s : string) : bool :=
  match p, s with
  | EmptyString, _ => true
  | String a p', String b s' => Ascii.eqb a b && is_prefix p' s'
  | String _ _, EmptyString => false
  end.

(** [sub in s] *)
Fixpoint contains (sub s : string) : bool :=
  is_prefix sub s ||
  match s with
  | EmptyString => false
  | String _ s' => contains sub s'
  end.

(** Truthiness of a string and of a list. *)
Definition truthy_str (s : string) : bool :=
  match s with EmptyString => false | _ => true end.

Definition truthy_list {A} (l : list A) : bool :=
  match l with [] => false | _ => true end.

(** [int(x)] on a float: truncation towards zero. *)
Definition int_of_float (x : Q) : Z :=
  if Qle_bool 0 x then Qfloor x else Qceiling x.

(** [round(x, 4)]: the nearest multiple of 1/10000, ties to even. *)
Definition round_half_even (x : Q) : Z :=
  let f := Qfloor x in
  let d := (x - inject_Z f)%Q in
  match Qcompare d (1 # 2) with
  | Lt => f
  | Gt => f + 1
  | Eq => if Z.even f then f else f + 1
  end.

Definition round4 (x : Q) : Q :=
  (inject_Z (round_half_even (x * 10000)) / 10000)%Q.

(** [d.get(k)] on a dict kept as the list of its items. *)
Fixpoint dict_get {V} (d : list (string * V)) (k : string) : option V :=
  match d with
  | [] => None
  | (k', v) :: d' => if String.eqb k k' then Some v else dict_get d' k
  end.

(** [a > b] on floats *)
Definition gt (a b : Q) : bool := negb (Qle_bool a b).

(** [sum(xs)] over floats *)
Definition sum (xs : list Q) : Q := fold_left Qplus xs 0%Q.

(** [len(xs)] as a float operand *)
Definition len {A} (xs : list A) : Q := inject_Z (Z.of_nat (length xs)).

End Py.

Import Py.

#[global] Instance result_ret : MRet result := @Ok.
#[global] Instance result_bind : MBind result := fun _ _ k m => Py.bind m k.

(** Python's [list.sort(key=...)] and [sorted]: a stable sort.  Insertion
    from the right keeps elements with equal keys in their original order;
    [reverse=True] is the same with the order on keys flipped (CPython keeps
    the original order of equal elements there as well). *)

Module Sort.

Section Sort.
Context {A K : Type} (le : K -> K -> bool) (key : A -> K).

Fixpoint insert_by (x : A) (l : list A) : list A :=
  match l with
  | [] => [x]
  | y :: ys => if le (key x) (key y) then x :: y :: ys else y :: insert_by x ys
  end.

Definition sort_by (l : list A) : list A := foldr insert_by [] l.

End Sort.

Definition sort_by_reverse {A K} (le : K -> K -> bool) (key : A -> K) :=
  sort_by (fun a b => le b a) key.

(** Order on the tuples [(y1, x1)] used as sort keys. *)
Definition pair_le (a b : Z * Z) : bool :=
  (a.1 <? b.1) || ((a.1 =? b.1) && (a.2 <=? b.2)).

End Sort.

(** ** Pillow images

    An image is its mode, its size and its pixels.  Only what the adapters
    use is modelled: [size], [crop], [convert]. *)

Module PIL.

Record Image := mkImage {
  mode : string;
  width : Z;
  height : Z;
  getpixel : Z -> Z -> Z * Z * Z;
}.

Definition size (im : Image) : Z * Z := (width im, height im).

(** [im.crop((left, upper, right, lower))] for a box with [left <= right]
    and [upper <= lower]; for another box Pillow raises [ValueError]. *)
Definition crop (im : Image) (box : Z * Z * Z * Z) : Image :=
  let '(x_left, y_upper, x_right, y_lower) := box in
  {| mode := mode im;
     width := x_right - x_left;
     height := y_lower - y_upper;
     getpixel := fun x y => getpixel im (x + x_left) (y + y_upper) |}.

(** [im.convert(m)] from a mode the library converts to [m]: the size is
    kept.  For a mode without conversion Pillow raises [ValueError];
    [PILFilters.convert] is the operation with that check. *)
Definition convert (m : string) (im : Image) : Image :=
  {| mode := m; width := width im; height := height im;
     getpixel := getpixel im |}.

(** [if image.mode != 'RGB': image = image.convert('RGB')] *)
Definition ensure_rgb (im : Image) : Image :=
  if String.eqb (mode im) "RGB" then im else convert "RGB" im.

(** The luma transform of [convert('L')]. *)
Definition luma (p : Z * Z * Z) : Z :=
  let '(r, g, b) := p in
  Z.shiftr (r * 19595 + g * 38470 + b * 7471 + 32768) 16.

End PIL.

(** ** Layout detection ([app/processing/layout]) *)

Module Layout.

Record BBox := mkBBox { x1 : Z; y1 : Z; x2 : Z; y2 : Z }.

(** [base.Region] *)
Record Region := mkRegion {
  id : Z;
  type : string;
  confidence : Q;
  bbox : BBox;
}.

Definition set_id (r : Region) (i : Z) : Region :=
  {| id := i; type := type r; confidence := confidence r; bbox := bbox r |}.

(** [for i, region in enumerate(regions): region.id = i + 1] *)
Fixpoint reassign_ids_from (i : Z) (regions : list Region) : list Region :=
  match regions with
  | [] => []
  | r :: rs => set_id r (i + 1) :: reassign_ids_from (i + 1) rs
  end.

Definition reassign_ids (regions : list Region) : list Region :=
  reassign_ids_from 0 regions.

(** The dicts stored as [layout_results]: the keys of
    [LayoutDetectorBase.to_dict], and the [method] key of the full-text mode. *)
Record LayoutDict := mkLayoutDict {
  library : option string;
  num_regions : option Z;
  regions : list Region;
  method : option string;
}.

Definition to_dict (name : string) (rs : list Region) : LayoutDict :=
  {| library := Some name; num_regions := Some (Z.of_nat (length rs));
     regions := rs; method := None |}.

End Layout.

(** *** [doclayout_yolo.py] *)

Module DocLayoutYOLO.

(** One box of a YOLO result: [box.xyxy[0]], [box.conf[0]], [box.cls[0]]. *)
Record Box := mkBox { xyxy : Q * Q * Q * Q; conf : Q; cls : Q }.

Record Result := mkResult { boxes : list Box; names : gmap Z string }.

Record Backend := mkBackend {
  _load_model : result unit;
  predict : PIL.Image -> result (list Result);
}.

Definition name : string := "doclayout_yolo".

Definition region_of_box (result : Result) (i : nat) (box : Box) : Layout.Region :=
  let '(x1, y1, x2, y2) := xyxy box in
  let confidence := conf box in
  let class_id := int_of_float (cls box) in
  let class_name :=
    default ("class_" ++ pretty class_id) (names result !! class_id) in
  {| Layout.id := Z.of_nat i + 1;
     Layout.type := class_name;
     Layout.confidence := confidence;
     Layout.bbox := {| Layout.x1 := int_of_float x1; Layout.y1 := int_of_float y1;
                       Layout.x2 := int_of_float x2; Layout.y2 := int_of_float y2 |} |}.

(** The two nested loops that fill [regions]. *)
Definition collect (results : list Result) : list Layout.Region :=
  concat (List.map (fun result => imap (region_of_box result) (boxes result)) results).

Definition detect (B : Backend) (image : PIL.Image) : result (list Layout.Region) :=
  _ ← _load_model B;
  results ← predict B image;
  let regions := collect results in
  let regions := Sort.sort_by_reverse Qle_bool Layout.confidence regions in
  mret (Layout.reassign_ids regions).

End DocLayoutYOLO.

(** *** [doctr_layout.py] *)

Module DocTR.

(** A detection row [xmin, ymin, xmax, ymax, confidence], normalised. *)
Definition Det : Type := Q * Q * Q * Q * Q.

(** A page of the predictor's output: a dict with a ["words"] entry, or the
    array of rows itself. *)
Inductive Page :=
| PageDict (words : list Det)
| PageArray (rows : list Det).

Record Backend := mkBackend {
  _load_model : result unit;
  model : PIL.Image -> result (list Page);
}.

Definition name : string := "doctr".

Definition region_of_det (img_width img_height : Z) (i : nat) (det : Det)
  : Layout.Region :=
  let '(xmin, ymin, xmax, ymax, confidence) := det in
  let x1 := int_of_float (xmin * inject_Z img_width) in
  let y1 := int_of_float (ymin * inject_Z img_height) in
  let x2 := int_of_float (xmax * inject_Z img_width) in
  let y2 := int_of_float (ymax * inject_Z img_height) in
  {| Layout.id := Z.of_nat i + 1;
     Layout.type := "text";
     Layout.confidence := confidence;
     Layout.bbox := {| Layout.x1 := x1; Layout.y1 := y1;
                       Layout.x2 := x2; Layout.y2 := y2 |} |}.

Definition collect (image : PIL.Image) (result : list Page) : list Layout.Region :=
  let img_height := PIL.height image in
  let img_width := PIL.width image in
  match result with
  | [] => []
  | page_result :: _ =>
      let words :=
        match page_result with
        | PageDict words => words
        | PageArray rows => rows
        end in
      imap (region_of_det img_width img_height) words
  end.

Definition sort_key (r : Layout.Region) : Z * Z :=
  (Layout.y1 (Layout.bbox r), Layout.x1 (Layout.bbox r)).

Definition detect (B : Backend) (image : PIL.Image) : result (list Layout.Region) :=
  _ ← _load_model B;
  result ← model B image;
  let regions := collect image result in
  let regions := Sort.sort_by Sort.pair_le sort_key regions in
  mret (Layout.reassign_ids regions).

End DocTR.

(** *** [surya_layout.py] *)

Module SuryaLayout.

Record BBoxObj := mkBBoxObj {
  bbox : Q * Q * Q * Q;
  confidence : option Q;
  label : option string;
}.

Record PageResult := mkPageResult { bboxes : list BBoxObj }.

Record Backend := mkBackend {
  _load_model : result unit;
  predictor : PIL.Image -> result (list PageResult);
}.

Definition name : string := "surya".

Definition region_of_bbox (i : nat) (bbox_obj : BBoxObj) : Layout.Region :=
  let '(b0, b1, b2, b3) := bbox bbox_obj in
  let confidence := default (1 # 2)%Q (confidence bbox_obj) in
  let label := default "text" (label bbox_obj) in
  {| Layout.id := Z.of_nat i + 1;
     Layout.type := label;
     Layout.confidence := confidence;
     Layout.bbox := {| Layout.x1 := int_of_float b0; Layout.y1 := int_of_float b1;
                       Layout.x2 := int_of_float b2; Layout.y2 := int_of_float b3 |} |}.

Definition collect (results : list PageResult) : list Layout.Region :=
  match results with
  | [] => []
  | page_result :: _ => imap region_of_bbox (bboxes page_result)
  end.

Definition detect (B : Backend) (image : PIL.Image) : result (list Layout.Region) :=
  _ ← _load_model B;
  results ← predictor B image;
  let regions := collect results in
  let regions := Sort.sort_by Sort.pair_le DocTR.sort_key regions in
  mret (Layout.reassign_ids regions).

End SuryaLayout.

(** *** The registry ([layout/__init__.py]) *)

Module LayoutRegistry.

Inductive Detector := DocLayoutYOLODetector | DocTRLayoutDetector | SuryaLayoutDetector.

Record Backends := mkBackends {
  yolo : DocLayoutYOLO.Backend;
  doctr : DocTR.Backend;
  surya : SuryaLayout.Backend;
}.

Definition get_layout_detector (name : string) : result Detector :=
  if String.eqb name "doclayout_yolo" then Ok DocLayoutYOLODetector
  else if String.eqb name "doctr" then Ok DocTRLayoutDetector
  else if String.eqb name "surya" then Ok SuryaLayoutDetector
  else Raise (mkExc "ValueError"
         ("Unknown layout detector: " ++ name
          ++ ". Available: ['doclayout_yolo', 'doctr', 'surya']")).

Definition name (d : Detector) : string :=
  match d with
  | DocLayoutYOLODetector => DocLayoutYOLO.name
  | DocTRLayoutDetector => DocTR.name
  | SuryaLayoutDetector => SuryaLayout.name
  end.

Definition detect (B : Backends) (d : Detector) (image : PIL.Image)
  : result (list Layout.Region) :=
  match d with
  | DocLayoutYOLODetector => DocLayoutYOLO.detect (yolo B) image
  | DocTRLayoutDetector => DocTR.detect (doctr B) image
  | SuryaLayoutDetector => SuryaLayout.detect (surya B) image
  end.

End LayoutRegistry.

(** ** OCR engines ([app/processing/ocr]) *)

Module OCR.

(** [base.TextLine] *)
Record TextLine := mkTextLine {
  text : string;
  confidence : Q;
  bbox_in_region : Layout.BBox;
}.

(** [base.OCRResult] *)
Record OCRResult := mkOCRResult {
  region_id : Z;
  full_text : string;
  lines : list TextLine;
}.

(** [OCREngineBase.extract_from_region], given the adapter's
    [_process_cropped_image]. *)
Definition extract_from_region
    (_process_cropped_image : PIL.Image -> Z -> result OCRResult)
    (image : PIL.Image) (region : Layout.Region) : result OCRResult :=
  let bbox := Layout.bbox region in
  let cropped :=
    PIL.crop image (Layout.x1 bbox, Layout.y1 bbox, Layout.x2 bbox, Layout.y2 bbox) in
  _process_cropped_image cropped (Layout.id region).

(** The [extract_text] loop every adapter repeats:
    [for region in regions: results.append(self.extract_from_region(image, region))]. *)
Definition extract_text_loop
    (_process_cropped_image : PIL.Image -> Z -> result OCRResult)
    (image : PIL.Image) (regions : list Layout.Region) : result (list OCRResult) :=
  mapM (extract_from_region _process_cropped_image image) regions.

(** [OCREngineBase.to_dict], with the two keys the full-text mode adds. *)
Record OCRDict := mkOCRDict {
  library : string;
  num_regions : Z;
  regions : list OCRResult;
  dict_full_text : option string;
  text_regions : option (list (string * Q));
}.

Definition to_dict (name : string) (results : list OCRResult) : OCRDict :=
  {| library := name; num_regions := Z.of_nat (length results);
     regions := results; dict_full_text := None; text_regions := None |}.

(** [min(xs)] and [max(xs)] raise [ValueError] on an empty list. *)
Definition py_min (xs : list Q) : result Q :=
  match xs with
  | [] => Raise (mkExc "ValueError" "min() arg is an empty sequence")
  | x :: xs' => Ok (fold_left (fun m y => if Qle_bool m y then m else y) xs' x)
  end.

Definition py_max (xs : list Q) : result Q :=
  match xs with
  | [] => Raise (mkExc "ValueError" "max() arg is an empty sequence")
  | x :: xs' => Ok (fold_left (fun m y => if Qle_bool y m then m else y) xs' x)
  end.

End OCR.

(** *** [easyocr_engine.py] *)

Module EasyOCR.

(** A detection [(bbox_points, text, confidence)]. *)
Record Detection := mkDetection {
  bbox_points : list (Q * Q);
  det_text : string;
  det_confidence : Q;
}.

Record Backend := mkBackend {
  _load_model : result unit;
  readtext : PIL.Image -> result (list Detection);
}.

Definition name : string := "easyocr".

Definition line_of_detection (detection : Detection) : result OCR.TextLine :=
  let x_coords := List.map fst (bbox_points detection) in
  let y_coords := List.map snd (bbox_points detection) in
  xmin ← OCR.py_min x_coords;
  ymin ← OCR.py_min y_coords;
  xmax ← OCR.py_max x_coords;
  ymax ← OCR.py_max y_coords;
  mret {| OCR.text := det_text detection;
          OCR.confidence := round4 (det_confidence detection);
          OCR.bbox_in_region :=
            {| Layout.x1 := int_of_float xmin; Layout.y1 := int_of_float ymin;
               Layout.x2 := int_of_float xmax; Layout.y2 := int_of_float ymax |} |}.

(** The loop over detections: [lines] and [full_text_parts] grow together. *)
Fixpoint loop (ocr_result : list Detection)
    (lines : list OCR.TextLine) (full_text_parts : list string)
  : result (list OCR.TextLine * list string) :=
  match ocr_result with
  | [] => Ok (lines, full_text_parts)
  | detection :: rest =>
      line ← line_of_detection detection;
      loop rest (lines ++ [line]) (full_text_parts ++ [det_text detection])
  end.

Definition _process_cropped_image (B : Backend) (image : PIL.Image) (region_id : Z)
  : result OCR.OCRResult :=
  _ ← _load_model B;
  ocr_result ← readtext B image;
  '(lines, full_text_parts) ← loop ocr_result [] [];
  let full_text := join " " full_text_parts in
  mret {| OCR.region_id := region_id; OCR.full_text := full_text; OCR.lines := lines |}.

Definition extract_text (B : Backend) := OCR.extract_text_loop (_process_cropped_image B).

End EasyOCR.

(** *** [surya_ocr.py] *)

Module SuryaOCR.

Record SuryaLine := mkSuryaLine {
  line_text : string;
  line_confidence : option Q;
  line_bbox : option (Q * Q * Q * Q);
}.

Record PageResult := mkPageResult { text_lines : list SuryaLine }.

Record Backend := mkBackend {
  _load_model : result unit;
  predictor : PIL.Image -> Z * Z * Z * Z -> result (list PageResult);
}.

Definition name : string := "surya".

Definition line_of (width height : Z) (text_line : SuryaLine) : OCR.TextLine :=
  let text := line_text text_line in
  let confidence := default (1 # 2)%Q (line_confidence text_line) in
  let '(b0, b1, b2, b3) :=
    default (0%Q, 0%Q, inject_Z width, inject_Z height) (line_bbox text_line) in
  {| OCR.text := text;
     OCR.confidence := round4 confidence;
     OCR.bbox_in_region :=
       {| Layout.x1 := int_of_float b0; Layout.y1 := int_of_float b1;
          Layout.x2 := int_of_float b2; Layout.y2 := int_of_float b3 |} |}.

Fixpoint loop (width height : Z) (text_lines : list SuryaLine)
    (lines : list OCR.TextLine) (full_text_parts : list string)
  : list OCR.TextLine * list string :=
  match text_lines with
  | [] => (lines, full_text_parts)
  | text_line :: rest =>
      loop width height rest
        (lines ++ [line_of width height text_line])
        (full_text_parts ++ [line_text text_line])
  end.

Definition _process_cropped_image (B : Backend) (image : PIL.Image) (region_id : Z)
  : result OCR.OCRResult :=
  _ ← _load_model B;
  let '(width, height) := PIL.size image in
  results ← predictor B image (0, 0, width, height);
  let '(lines, full_text_parts) :=
    match results with
    | [] => ([], [])
    | page_result :: _ => loop width height (text_lines page_result) [] []
    end in
  let full_text := join " " full_text_parts in
  mret {| OCR.region_id := region_id; OCR.full_text := full_text; OCR.lines := lines |}.

Definition extract_text (B : Backend) := OCR.extract_text_loop (_process_cropped_image B).

End SuryaOCR.

(** *** [paddleocr_engine.py] *)

Module PaddleOCR.

(** A result object of PaddleOCR 3.x; each attribute may be missing. *)
Record Res := mkRes {
  rec_texts : option (list string);
  rec_scores : option (list Q);
  rec_boxes : option (list (Q * Q * Q * Q));
}.

Record Backend := mkBackend {
  _load_model : result unit;
  predict : PIL.Image -> result (list Res);
}.

Definition name : string := "paddleocr".

Definition line_of (scores : list Q) (boxes : option (list (Q * Q * Q * Q)))
    (i : nat) (text : string) : OCR.TextLine :=
  let confidence := default 0%Q (scores !! i) in
  let bbox :=
    match boxes with
    | Some bs =>
        match bs !! i with
        | Some (b0, b1, b2, b3) =>
            {| Layout.x1 := int_of_float b0; Layout.y1 := int_of_float b1;
               Layout.x2 := int_of_float b2; Layout.y2 := int_of_float b3 |}
        | None => {| Layout.x1 := 0; Layout.y1 := 0; Layout.x2 := 0; Layout.y2 := 0 |}
        end
    | None => {| Layout.x1 := 0; Layout.y1 := 0; Layout.x2 := 0; Layout.y2 := 0 |}
    end in
  {| OCR.text := text; OCR.confidence := round4 confidence;
     OCR.bbox_in_region := bbox |}.

(** The inner loop [for i, text in enumerate(texts)]. *)
Fixpoint inner (scores : list Q) (boxes : option (list (Q * Q * Q * Q)))
    (i : nat) (texts : list string)
    (lines : list OCR.TextLine) (full_text_parts : list string)
  : list OCR.TextLine * list string :=
  match texts with
  | [] => (lines, full_text_parts)
  | text :: rest =>
      if negb (truthy_str text) then inner scores boxes (S i) rest lines full_text_parts
      else inner scores boxes (S i) rest
             (lines ++ [line_of scores boxes i text]) (full_text_parts ++ [text])
  end.

(** The outer loop [for res in results]. *)
Fixpoint loop (results : list Res)
    (lines : list OCR.TextLine) (full_text_parts : list string)
  : list OCR.TextLine * list string :=
  match results with
  | [] => (lines, full_text_parts)
  | res :: rest =>
      let texts := default [] (rec_texts res) in
      let scores := default [] (rec_scores res) in
      let boxes := rec_boxes res in
      let '(lines, full_text_parts) := inner scores boxes 0 texts lines full_text_parts in
      loop rest lines full_text_parts
  end.

Definition _process_cropped_image (B : Backend) (image : PIL.Image) (region_id : Z)
  : result OCR.OCRResult :=
  _ ← _load_model B;
  results ← predict B image;
  let '(lines, full_text_parts) := loop results [] [] in
  let full_text := join " " full_text_parts in
  mret {| OCR.region_id := region_id; OCR.full_text := full_text; OCR.lines := lines |}.

Definition extract_text (B : Backend) := OCR.extract_text_loop (_process_cropped_image B).

End PaddleOCR.

(** *** [tesseract_engine.py] *)

Module Tesseract.

(** Row [i] of the dict of columns [image_to_data] returns. *)
Record Word := mkWord {
  w_text : string;
  w_conf : Q;
  w_line_num : Z;
  w_left : Z;
  w_top : Z;
  w_width : Z;
  w_height : Z;
}.

(** An entry of [line_groups]. *)
Record Group := mkGroup {
  words : list string;
  confs : list Z;
  gx1 : Z;
  gy1 : Z;
  gx2 : Z;
  gy2 : Z;
}.

Record Backend := mkBackend {
  image_to_data : PIL.Image -> result (list Word);
}.

Definition name : string := "tesseract".

(** One iteration of [for i in range(n_boxes)]. *)
Definition add_word (line_groups : gmap Z Group) (w : Word) : gmap Z Group :=
  let text := strip (w_text w) in
  let conf := int_of_float (w_conf w) in
  if negb (truthy_str text) || (conf <? 0) then line_groups
  else
    let line_num := w_line_num w in
    let group :=
      match line_groups !! line_num with
      | Some g => g
      | None => {| words := []; confs := [];
                   gx1 := w_left w; gy1 := w_top w;
                   gx2 := w_left w + w_width w; gy2 := w_top w + w_height w |}
      end in
    <[line_num :=
        {| words := words group ++ [text];
           confs := confs group ++ [conf];
           gx1 := Z.min (gx1 group) (w_left w);
           gy1 := Z.min (gy1 group) (w_top w);
           gx2 := Z.max (gx2 group) (w_left w + w_width w);
           gy2 := Z.max (gy2 group) (w_top w + w_height w) |}]> line_groups.

Definition group_words (data : list Word) : gmap Z Group :=
  fold_left add_word data ∅.

Definition sorted_keys (line_groups : gmap Z Group) : list Z :=
  Sort.sort_by Z.leb (fun k => k) (fst <$> map_to_list line_groups).

Definition line_of_group (group : Group) : OCR.TextLine :=
  let line_text := join " " (words group) in
  let avg_conf :=
    (inject_Z (fold_left Z.add (confs group) 0%Z) / Py.len (confs group) / 100)%Q in
  {| OCR.text := line_text;
     OCR.confidence := round4 avg_conf;
     OCR.bbox_in_region :=
       {| Layout.x1 := gx1 group; Layout.y1 := gy1 group;
          Layout.x2 := gx2 group; Layout.y2 := gy2 group |} |}.

(** [for line_num in sorted(line_groups.keys())]; a key of the dict always
    has its group. *)
Fixpoint loop (line_groups : gmap Z Group) (keys : list Z)
    (lines : list OCR.TextLine) (full_text_parts : list string)
  : list OCR.TextLine * list string :=
  match keys with
  | [] => (lines, full_text_parts)
  | line_num :: rest =>
      match line_groups !! line_num with
      | Some group =>
          let line := line_of_group group in
          loop line_groups rest (lines ++ [line]) (full_text_parts ++ [OCR.text line])
      | None => loop line_groups rest lines full_text_parts
      end
  end.

Definition _process_cropped_image (B : Backend) (image : PIL.Image) (region_id : Z)
  : result OCR.OCRResult :=
  let image := PIL.ensure_rgb image in
  data ← image_to_data B image;
  let line_groups := group_words data in
  let '(lines, full_text_parts) := loop line_groups (sorted_keys line_groups) [] [] in
  let full_text := join " " full_text_parts in
  mret {| OCR.region_id := region_id; OCR.full_text := full_text; OCR.lines := lines |}.

Definition extract_text (B : Backend) := OCR.extract_text_loop (_process_cropped_image B).

End Tesseract.

(** *** [trocr_engine.py] *)

Module TrOCR.

Record Backend := mkBackend {
  _load_model : result unit;
  (** processor, [model.generate] and [batch_decode(...)[0]] on one line image *)
  recognize : PIL.Image -> result string;
}.

Definition name : string := "trocr".

(** [h_proj]: per row, the number of pixels darker than the threshold 200. *)
Definition h_proj (image : PIL.Image) : list Z :=
  List.map
    (fun y =>
       Z.of_nat (length (List.filter
         (fun x => PIL.luma (PIL.getpixel image (Z.of_nat x) (Z.of_nat y)) <? 200)
         (seq 0 (Z.to_nat (PIL.width image))))))
    (seq 0 (Z.to_nat (PIL.height image))).

(** State of the scan over the rows: [(in_line, lines, start)]. *)
Definition scan_step (min_gap : Z) (st : bool * list (Z * Z) * Z) (yp : Z * Z)
  : bool * list (Z * Z) * Z :=
  let '(in_line, lines, start) := st in
  let '(y, p) := yp in
  if (0 <? p) && negb in_line then (true, lines, y)
  else if (p =? 0) && in_line then
    (false, if min_gap <? y - start then (lines ++ [(start, y)])%list else lines, start)
  else st.

Definition _split_into_lines (image : PIL.Image) (min_gap : Z) : list (Z * Z) :=
  let h_proj := h_proj image in
  let n := Z.of_nat (length h_proj) in
  let ys := List.map Z.of_nat (seq 0 (length h_proj)) in
  let '(in_line, lines, start) :=
    fold_left (scan_step min_gap) (combine ys h_proj) (false, [], 0) in
  let lines :=
    if in_line then (if min_gap <? n - start then (lines ++ [(start, n)])%list else lines)
    else lines in
  if negb (truthy_list lines) then [(0, PIL.height image)] else lines.

Fixpoint loop (B : Backend) (image : PIL.Image) (line_regions : list (Z * Z))
    (lines : list OCR.TextLine) (full_text_parts : list string)
  : result (list OCR.TextLine * list string) :=
  match line_regions with
  | [] => Ok (lines, full_text_parts)
  | (y_start, y_end) :: rest =>
      let line_img := PIL.crop image (0, y_start, PIL.width image, y_end) in
      if PIL.height line_img <? 5 then loop B image rest lines full_text_parts
      else
        decoded ← recognize B line_img;
        let text := strip decoded in
        if negb (truthy_str text) then loop B image rest lines full_text_parts
        else
          loop B image rest
            (lines ++ [ {| OCR.text := text;
                           OCR.confidence := (9 # 10)%Q;
                           OCR.bbox_in_region :=
                             {| Layout.x1 := 0; Layout.y1 := y_start;
                                Layout.x2 := PIL.width image; Layout.y2 := y_end |} |} ])
            (full_text_parts ++ [text])
  end.

Definition _process_cropped_image (B : Backend) (image : PIL.Image) (region_id : Z)
  : result OCR.OCRResult :=
  _ ← _load_model B;
  let image := PIL.ensure_rgb image in
  let line_regions := _split_into_lines image 5 in
  '(lines, full_text_parts) ← loop B image line_regions [] [];
  let full_text := join " " full_text_parts in
  mret {| OCR.region_id := region_id; OCR.full_text := full_text; OCR.lines := lines |}.

Definition extract_text (B : Backend) := OCR.extract_text_loop (_process_cropped_image B).

End TrOCR.

(** *** [got_ocr_engine.py] *)

Module GotOCR.

Record Backend := mkBackend {
  _load_model : result unit;
  (** processor, [model.generate] and [processor.decode] on the image *)
  generate : PIL.Image -> result string;
}.

Definition name : string := "got_ocr".

Fixpoint loop (image : PIL.Image) (text_lines : list string) (lines : list OCR.TextLine)
  : list OCR.TextLine :=
  match text_lines with
  | [] => lines
  | line_text :: rest =>
      let line_text := strip line_text in
      if negb (truthy_str line_text) then loop image rest lines
      else
        loop image rest
          (lines ++ [ {| OCR.text := line_text;
                         OCR.confidence := (95 # 100)%Q;
                         OCR.bbox_in_region :=
                           {| Layout.x1 := 0; Layout.y1 := 0;
                              Layout.x2 := PIL.width image;
                              Layout.y2 := PIL.height image |} |} ])
  end.

Definition _process_cropped_image (B : Backend) (image : PIL.Image) (region_id : Z)
  : result OCR.OCRResult :=
  _ ← _load_model B;
  let image := PIL.ensure_rgb image in
  decoded ← generate B image;
  let full_text := strip decoded in
  let lines :=
    if truthy_str full_text then loop image (split_on LF full_text) [] else [] in
  mret {| OCR.region_id := region_id; OCR.full_text := full_text; OCR.lines := lines |}.

Definition extract_text (B : Backend) := OCR.extract_text_loop (_process_cropped_image B).

End GotOCR.

(** *** [mineru_engine.py] *)

Module MinerU.

Record Block := mkBlock {
  content : option string;
  block_type : option string;
  block_bbox : option (list Q);
}.

Record Backend := mkBackend {
  _load_model : result unit;
  two_step_extract : PIL.Image -> result (list Block);
}.

Definition name : string := "mineru".

Definition block_box (img_w img_h : Z) (bbox : option (list Q)) : Layout.BBox :=
  match bbox with
  | Some [b0; b1; b2; b3] =>
      {| Layout.x1 := int_of_float (b0 * inject_Z img_w);
         Layout.y1 := int_of_float (b1 * inject_Z img_h);
         Layout.x2 := int_of_float (b2 * inject_Z img_w);
         Layout.y2 := int_of_float (b3 * inject_Z img_h) |}
  | _ => {| Layout.x1 := 0; Layout.y1 := 0; Layout.x2 := img_w; Layout.y2 := img_h |}
  end.

(** The loop over the lines of one block. *)
Fixpoint inner (box : Layout.BBox) (text_lines : list string)
    (lines : list OCR.TextLine) (full_text_parts : list string)
  : list OCR.TextLine * list string :=
  match text_lines with
  | [] => (lines, full_text_parts)
  | line_text :: rest =>
      let line_text := strip line_text in
      if negb (truthy_str line_text) then inner box rest lines full_text_parts
      else
        inner box rest
          (lines ++ [ {| OCR.text := line_text; OCR.confidence := (9 # 10)%Q;
                         OCR.bbox_in_region := box |} ])
          (full_text_parts ++ [line_text])
  end.

(** The loop over the blocks. *)
Fixpoint loop (img_w img_h : Z) (blocks : list Block)
    (lines : list OCR.TextLine) (full_text_parts : list string)
  : list OCR.TextLine * list string :=
  match blocks with
  | [] => (lines, full_text_parts)
  | block :: rest =>
      let content := default "" (content block) in
      if negb (truthy_str content) then loop img_w img_h rest lines full_text_parts
      else
        let box := block_box img_w img_h (block_bbox block) in
        let text_lines := split_on LF (strip content) in
        let '(lines, full_text_parts) := inner box text_lines lines full_text_parts in
        loop img_w img_h rest lines full_text_parts
  end.

Definition _process_cropped_image (B : Backend) (image : PIL.Image) (region_id : Z)
  : result OCR.OCRResult :=
  _ ← _load_model B;
  let image := PIL.ensure_rgb image in
  match two_step_extract B image with
  | Raise e =>
      (* except Exception: return an empty result for this region *)
      Ok {| OCR.region_id := region_id; OCR.full_text := ""; OCR.lines := [] |}
  | Ok blocks =>
      let '(img_w, img_h) := PIL.size image in
      let '(lines, full_text_parts) := loop img_w img_h blocks [] [] in
      let full_text := join " " full_text_parts in
      mret {| OCR.region_id := region_id; OCR.full_text := full_text; OCR.lines := lines |}
  end.

Definition extract_text (B : Backend) := OCR.extract_text_loop (_process_cropped_image B).

End MinerU.

(** *** The registry ([ocr/__init__.py]) *)

Module OCRRegistry.

Inductive Engine :=
| EasyOCREngine | SuryaOCREngine | PaddleOCREngine | TesseractEngine
| TrOCREngine | GotOCREngine | MinerUEngine.

Record Backends := mkBackends {
  easyocr : EasyOCR.Backend;
  surya : SuryaOCR.Backend;
  paddleocr : PaddleOCR.Backend;
  tesseract : Tesseract.Backend;
  trocr : TrOCR.Backend;
  got_ocr : GotOCR.Backend;
  mineru : MinerU.Backend;
}.

Definition get_ocr_engine (name : string) : result Engine :=
  if String.eqb name "easyocr" then Ok EasyOCREngine
  else if String.eqb name "surya" then Ok SuryaOCREngine
  else if String.eqb name "paddleocr" then Ok PaddleOCREngine
  else if String.eqb name "tesseract" then Ok TesseractEngine
  else if String.eqb name "trocr" then Ok TrOCREngine
  else if String.eqb name "got_ocr" then Ok GotOCREngine
  else if String.eqb name "mineru" then Ok MinerUEngine
  else Raise (mkExc "ValueError"
         ("Unknown OCR engine: " ++ name
          ++ ". Available: ['easyocr', 'surya', 'paddleocr', 'tesseract', 'trocr', 'got_ocr', 'mineru']")).

Definition name (e : Engine) : string :=
  match e with
  | EasyOCREngine => EasyOCR.name
  | SuryaOCREngine => SuryaOCR.name
  | PaddleOCREngine => PaddleOCR.name
  | TesseractEngine => Tesseract.name
  | TrOCREngine => TrOCR.name
  | GotOCREngine => GotOCR.name
  | MinerUEngine => MinerU.name
  end.

Definition _process_cropped_image (B : Backends) (e : Engine)
  : PIL.Image -> Z -> result OCR.OCRResult :=
  match e with
  | EasyOCREngine => EasyOCR._process_cropped_image (easyocr B)
  | SuryaOCREngine => SuryaOCR._process_cropped_image (surya B)
  | PaddleOCREngine => PaddleOCR._process_cropped_image (paddleocr B)
  | TesseractEngine => Tesseract._process_cropped_image (tesseract B)
  | TrOCREngine => TrOCR._process_cropped_image (trocr B)
  | GotOCREngine => GotOCR._process_cropped_image (got_ocr B)
  | MinerUEngine => MinerU._process_cropped_image (mineru B)
  end.

Definition extract_text (B : Backends) (e : Engine)
  : PIL.Image -> list Layout.Region -> result (list OCR.OCRResult) :=
  match e with
  | EasyOCREngine => EasyOCR.extract_text (easyocr B)
  | SuryaOCREngine => SuryaOCR.extract_text (surya B)
  | PaddleOCREngine => PaddleOCR.extract_text (paddleocr B)
  | TesseractEngine => Tesseract.extract_text (tesseract B)
  | TrOCREngine => TrOCR.extract_text (trocr B)
  | GotOCREngine => GotOCR.extract_text (got_ocr B)
  | MinerUEngine => MinerU.extract_text (mineru B)
  end.

End OCRRegistry.

(** ** [difflib.SequenceMatcher(None, a, b).ratio()]

    The Ratcliff/Obershelp matcher of the Python standard library, as
    CPython implements it: no junk predicate, the automatic junk heuristic
    for a second sequence of 200 elements or more, the longest matching
    block found first (earliest in [a], then earliest in [b]) and the pieces
    to its left and to its right matched recursively. *)

Module Difflib.

(** [bpopular]: with [autojunk], an element of [b] occurring more than
    [n // 100 + 1] times when [n >= 200]. *)
Definition popular (b : list ascii) (c : ascii) : bool :=
  let n := length b in
  ((200 <=? n) && (n / 100 + 1 <? count_occ ascii_dec b c))%nat.

(** One row of [find_longest_match]: [newj2len] for the element [ai], from
    the previous row [j2len]; position [j] holds the length of the match
    ending at [a[i]], [b[j]]. *)
Definition step_row (b : list ascii) (blo bhi : nat) (ai : ascii) (j2len : list nat)
  : list nat :=
  List.map
    (fun jbp : nat * (ascii * nat) =>
       let '(j, (bj, p)) := jbp in
       if ((blo <=? j) && (j <? bhi))%nat && Ascii.eqb bj ai && negb (popular b bj)
       then S p else 0%nat)
    (combine (seq 0 (length b)) (combine b (0%nat :: j2len))).

(** [if k > bestsize: besti, bestj, bestsize = i-k+1, j-k+1, k] *)
Definition upd_best (i : nat) (best : nat * nat * nat) (jk : nat * nat)
  : nat * nat * nat :=
  let '(j, k) := jk in
  let '(besti, bestj, bestsize) := best in
  if (bestsize <? k)%nat then (i + 1 - k, j + 1 - k, k)%nat else best.

Definition scan (a b : list ascii) (alo ahi blo bhi : nat) : nat * nat * nat :=
  snd (fold_left
         (fun (st : list nat * (nat * nat * nat)) (i : nat) =>
            let row := step_row b blo bhi (nth i a Ascii.zero) (fst st) in
            (row, fold_left (upd_best i) (combine (seq 0 (length b)) row) (snd st)))
         (seq alo (ahi - alo))
         (repeat 0%nat (length b), (alo, blo, 0%nat))).

(** The two loops that extend a match over elements the row scan skipped
    (popular elements); the loops over junk never run, [bjunk] being empty. *)
Fixpoint extend_left (fuel : nat) (a b : list ascii) (alo blo : nat)
    (best : nat * nat * nat) : nat * nat * nat :=
  let '(besti, bestj, bestsize) := best in
  match fuel with
  | O => best
  | S fuel' =>
      if ((alo <? besti) && (blo <? bestj))%nat
         && Ascii.eqb (nth (besti - 1) a Ascii.zero) (nth (bestj - 1) b Ascii.zero)
      then extend_left fuel' a b alo blo (besti - 1, bestj - 1, S bestsize)%nat
      else best
  end.

Fixpoint extend_right (fuel : nat) (a b : list ascii) (ahi bhi : nat)
    (best : nat * nat * nat) : nat * nat * nat :=
  let '(besti, bestj, bestsize) := best in
  match fuel with
  | O => best
  | S fuel' =>
      if ((besti + bestsize <? ahi) && (bestj + bestsize <? bhi))%nat
         && Ascii.eqb (nth (besti + bestsize) a Ascii.zero)
                      (nth (bestj + bestsize) b Ascii.zero)
      then extend_right fuel' a b ahi bhi (besti, bestj, S bestsize)
      else best
  end.

Definition find_longest_match (a b : list ascii) (alo ahi blo bhi : nat)
  : nat * nat * nat :=
  let best := scan a b alo ahi blo bhi in
  let best := extend_left (length a) a b alo blo best in
  extend_right (length a) a b ahi bhi best.

(** The sum of the sizes of [get_matching_blocks()]; every level of the
    recursion consumes at least one element of [a]. *)
Fixpoint matches (fuel : nat) (a b : list ascii) (alo ahi blo bhi : nat) : nat :=
  match fuel with
  | O => 0%nat
  | S fuel' =>
      let '(i, j, k) := find_longest_match a b alo ahi blo bhi in
      if (k =? 0)%nat then 0%nat
      else
        (k
         + (if (alo <? i) && (blo <? j) then matches fuel' a b alo i blo j else 0)
         + (if (i + k <? ahi) && (j + k <? bhi)
            then matches fuel' a b (i + k) ahi (j + k) bhi else 0))%nat
  end.

(** [_calculate_ratio(matches, len(a) + len(b))] *)
Definition ratio (a b : string) : Q :=
  let la := list_ascii_of_string a in
  let lb := list_ascii_of_string b in
  let m := matches (S (length la)) la lb 0 (length la) 0 (length lb) in
  let total := (length la + length lb)%nat in
  if (total =? 0)%nat then 1%Q
  else (2 * inject_Z (Z.of_nat m) / inject_Z (Z.of_nat total))%Q.

End Difflib.

(** ** Data models ([app/models]) *)

Module Models.

Inductive VerificationStatus := UNVERIFIED | VERIFIED | CORRECTED.

(** [result.ExtractedField] *)
Record ExtractedField := mkExtractedField {
  field_name : string;
  expected_value : string;
  extracted_value : string;
  confidence : Q;
  match_score : Q;
  is_important : bool;
  verification_status : VerificationStatus;
  corrected_value : option string;
}.

(** [batch.SyntheticDocument]; the dict [field_values] in insertion order. *)
Record SyntheticDocument := mkSyntheticDocument {
  id : string;
  storage_path : string;
  field_values : list (string * string);
  is_skewed : bool;
}.

(** [batch.BatchInDB], the fields the pipeline reads. *)
Record BatchInDB := mkBatchInDB {
  batch_id : string;
  batch_type : string;
  documents : list SyntheticDocument;
}.

Inductive TestStatus := PENDING | RUNNING | COMPLETED | FAILED.

(** A document of the [test_runs] collection, the fields
    [update_test_run_status] writes. *)
Record TestRun := mkTestRun {
  status : TestStatus;
  processed_documents : Z;
  error_message : option string;
  completed : bool;
}.

(** What one document's processing returns. *)
Record DocResults := mkDocResults {
  layout_results : Layout.LayoutDict;
  ocr_results : OCR.OCRDict;
  extracted_fields : list ExtractedField;
  overall_accuracy : Q;
}.

(** A document of the [results] collection. *)
Record ResultInDB := mkResultInDB {
  test_run_id : string;
  document_id : string;
  result_batch_id : string;
  stored : DocResults;
}.

End Models.

(** ** The persistence collaborator ([app/services/firestore.py]) *)

Module Firestore.

(** The collections the pipeline touches. *)
Record World := mkWorld {
  test_runs : gmap string Models.TestRun;
  batches : gmap string Models.BatchInDB;
  results : list Models.ResultInDB;
}.

Definition get_batch_by_id (w : World) (batch_id : string) : option Models.BatchInDB :=
  batches w !! batch_id.

Definition update_test_run_status (run_id : string) (status : Models.TestStatus)
    (processed_documents : option Z) (error_message : option string)
    (w : World) : bool * World :=
  match test_runs w !! run_id with
  | None => (false, w)
  | Some doc =>
      let doc' :=
        {| Models.status := status;
           Models.processed_documents :=
             default (Models.processed_documents doc) processed_documents;
           Models.error_message :=
             match error_message with
             | Some m => Some m
             | None => Models.error_message doc
             end;
           Models.completed :=
             match status with
             | Models.COMPLETED | Models.FAILED => true
             | _ => Models.completed doc
             end |} in
      (true, {| test_runs := <[run_id := doc']> (test_runs w);
                batches := batches w; results := results w |})
  end.

Definition create_result (test_run_id document_id batch_id : string)
    (r : Models.DocResults) (w : World) : World :=
  {| test_runs := test_runs w; batches := batches w;
     results := results w ++
       [ {| Models.test_run_id := test_run_id; Models.document_id := document_id;
            Models.result_batch_id := batch_id; Models.stored := r |} ] |}.

End Firestore.

(** ** The pipeline ([app/services/ocr_pipeline.py]) *)

Module Pipeline.

(** *** Field matching *)

(** The loop variables [best_match], [best_score], [best_confidence]. *)
Record Best := mkBest {
  best_match : string;
  best_score : Q;
  best_confidence : Q;
}.

(** [SequenceMatcher(None, expected_value.lower(), text.lower()).ratio()] *)
Definition similarity (expected_value text : string) : Q :=
  Difflib.ratio (lower expected_value) (lower text).

(** Body of [for line in ocr_result.lines]. *)
Definition line_step (expected_value : string) (best : Best) (line : OCR.TextLine)
  : Best :=
  let score := similarity expected_value (OCR.text line) in
  if gt score (best_score best)
  then {| best_match := OCR.text line; best_score := score;
          best_confidence := OCR.confidence line |}
  else best.

(** Body of [for ocr_result in ocr_results]: the lines, then the full text. *)
Definition result_step (expected_value : string) (best : Best)
    (ocr_result : OCR.OCRResult) : Best :=
  let best := fold_left (line_step expected_value) (OCR.lines ocr_result) best in
  let score := similarity expected_value (OCR.full_text ocr_result) in
  if gt score (best_score best)
  then {| best_match := OCR.full_text ocr_result; best_score := score;
          best_confidence :=
            (Py.sum (List.map OCR.confidence (OCR.lines ocr_result))
             / inject_Z (Z.max (Z.of_nat (length (OCR.lines ocr_result))) 1))%Q |}
  else best.

Definition initial_best : Best :=
  {| best_match := ""; best_score := 0%Q; best_confidence := 0%Q |}.

Definition match_field (ocr_results : list OCR.OCRResult) (item : string * string)
  : Models.ExtractedField :=
  let '(field_name, expected_value) := item in
  let best := fold_left (result_step expected_value) ocr_results initial_best in
  {| Models.field_name := field_name;
     Models.expected_value := expected_value;
     Models.extracted_value := best_match best;
     Models.confidence := best_confidence best;
     Models.match_score := best_score best;
     Models.is_important := true;
     Models.verification_status := Models.UNVERIFIED;
     Models.corrected_value := None |}.

(** [_match_fields]; the unused local [all_text] is left out. *)
Definition _match_fields (expected_values : list (string * string))
    (ocr_results : list OCR.OCRResult) : list Models.ExtractedField :=
  List.map (match_field ocr_results) expected_values.

(** *** Document accuracy *)

Definition _calculate_accuracy (extracted_fields : list Models.ExtractedField) : Q :=
  if negb (truthy_list extracted_fields) then 0%Q
  else
    let important := List.filter Models.is_important extracted_fields in
    let important :=
      if negb (truthy_list important) then extracted_fields else important in
    let total_score := Py.sum (List.map Models.match_score important) in
    (total_score / Py.len important)%Q.

(** *** External services and the record of their calls *)

Record Services := mkServices {
  (** [StorageService.download_file] *)
  download_file : string -> result (list Byte.byte);
  (** [Image.open(io.BytesIO(image_bytes)).convert("RGB")] *)
  image_open : list Byte.byte -> result PIL.Image;
  layout_backends : LayoutRegistry.Backends;
  ocr_backends : OCRRegistry.Backends;
}.

Inductive Call :=
| CallDownload (storage_path : string)
| CallDetect (library : string)
| CallExtract (library : string) (regions : list Layout.Region).

(** A computation that calls services: the calls made, in order, and the
    outcome. *)
Record Traced (A : Type) := mkTraced { calls : list Call; outcome : result A }.
Arguments mkTraced {A} calls outcome.
Arguments calls {A} t.
Arguments outcome {A} t.

Definition call {A} (c : Call) (r : result A) : Traced A := mkTraced [c] r.
Definition pure {A} (r : result A) : Traced A := mkTraced [] r.

#[global] Instance traced_ret : MRet Traced := fun _ a => mkTraced [] (Ok a).
#[global] Instance traced_bind : MBind Traced := fun _ _ k m =>
  match outcome m with
  | Ok a => mkTraced (calls m ++ calls (k a)) (outcome (k a))
  | Raise e => mkTraced (calls m) (Raise e)
  end.

(** *** Processing one document *)

Definition process_document (S : Services) (document : Models.SyntheticDocument)
    (layout_library ocr_library : string) : Traced Models.DocResults :=
  image_bytes ← call (CallDownload (Models.storage_path document))
                     (download_file S (Models.storage_path document));
  image ← pure (image_open S image_bytes);
  layout_detector ← pure (LayoutRegistry.get_layout_detector layout_library);
  ocr_engine ← pure (OCRRegistry.get_ocr_engine ocr_library);
  regions ← call (CallDetect (LayoutRegistry.name layout_detector))
                 (LayoutRegistry.detect (layout_backends S) layout_detector image);
  let layout_results := Layout.to_dict (LayoutRegistry.name layout_detector) regions in
  ocr_results_list ← call (CallExtract (OCRRegistry.name ocr_engine) regions)
                          (OCRRegistry.extract_text (ocr_backends S) ocr_engine image regions);
  let ocr_results := OCR.to_dict (OCRRegistry.name ocr_engine) ocr_results_list in
  let extracted_fields := _match_fields (Models.field_values document) ocr_results_list in
  let overall_accuracy := _calculate_accuracy extracted_fields in
  mret {| Models.layout_results := layout_results;
          Models.ocr_results := ocr_results;
          Models.extracted_fields := extracted_fields;
          Models.overall_accuracy := overall_accuracy |}.

(** The pseudo-region of the full-text mode. *)
Definition full_region (image : PIL.Image) : Layout.Region :=
  {| Layout.id := 0;
     Layout.type := "full_page";
     Layout.confidence := 1%Q;
     Layout.bbox := {| Layout.x1 := 0; Layout.y1 := 0;
                       Layout.x2 := PIL.width image; Layout.y2 := PIL.height image |} |}.

Definition process_document_full_text (S : Services)
    (document : Models.SyntheticDocument) (ocr_library : string)
  : Traced Models.DocResults :=
  image_bytes ← call (CallDownload (Models.storage_path document))
                     (download_file S (Models.storage_path document));
  image ← pure (image_open S image_bytes);
  ocr_engine ← pure (OCRRegistry.get_ocr_engine ocr_library);
  let full_region := full_region image in
  ocr_results_list ← call (CallExtract (OCRRegistry.name ocr_engine) [full_region])
                          (OCRRegistry.extract_text (ocr_backends S) ocr_engine image
                             [full_region]);
  let ocr_results := OCR.to_dict (OCRRegistry.name ocr_engine) ocr_results_list in
  let full_text := join " " (List.map OCR.full_text ocr_results_list) in
  let regions :=
    concat (List.map
      (fun r => List.map (fun line => (OCR.text line, OCR.confidence line)) (OCR.lines r))
      ocr_results_list) in
  let ocr_results :=
    {| OCR.library := OCR.library ocr_results;
       OCR.num_regions := OCR.num_regions ocr_results;
       OCR.regions := OCR.regions ocr_results;
       OCR.dict_full_text := Some full_text;
       OCR.text_regions := Some regions |} in
  mret {| Models.layout_results :=
            {| Layout.library := None; Layout.num_regions := None;
               Layout.regions := []; Layout.method := Some "none (full-text OCR)" |};
          Models.ocr_results := ocr_results;
          Models.extracted_fields := [];
          Models.overall_accuracy := 0%Q |}.

(** *** Processing a batch *)

(** The state a batch run acts on: the Firestore collections and the
    service calls made so far. *)
Record State := mkState {
  world : Firestore.World;
  trace : list Call;
}.

Definition M (A : Type) : Type := State -> result A * State.

(** Dispatch on the batch type. *)
Definition process_one (S : Services) (is_handwritten : bool)
    (layout_library ocr_library : string) (document : Models.SyntheticDocument)
  : Traced Models.DocResults :=
  if is_handwritten then process_document_full_text S document ocr_library
  else process_document S document layout_library ocr_library.

(** [for i, document in enumerate(batch.documents)], from index [i] on. *)
Fixpoint batch_loop (S : Services) (batch : Models.BatchInDB)
    (layout_library ocr_library test_run_id : string)
    (progress_callback : option (Z -> Z -> M unit))
    (is_handwritten : bool) (i : Z) (documents : list Models.SyntheticDocument)
    (results : list (string * Models.DocResults)) : M (list (string * Models.DocResults)) :=
  fun st =>
  match documents with
  | [] => (Ok results, st)
  | document :: rest =>
      let t := process_one S is_handwritten layout_library ocr_library document in
      let st := {| world := world st; trace := (trace st ++ calls t)%list |} in
      match outcome t with
      | Raise e => (Raise e, st)
      | Ok doc_results =>
          let st :=
            {| world := Firestore.create_result test_run_id (Models.id document)
                          (Models.batch_id batch) doc_results (world st);
               trace := trace st |} in
          let results := (results ++ [(Models.id document, doc_results)])%list in
          let continue :=
            batch_loop S batch layout_library ocr_library test_run_id
              progress_callback is_handwritten (i + 1) rest results in
          match progress_callback with
          | None => continue st
          | Some cb =>
              match cb (i + 1) (Z.of_nat (length (Models.documents batch))) st with
              | (Raise e, st) => (Raise e, st)
              | (Ok _, st) => continue st
              end
          end
      end
  end.

Definition process_batch (S : Services) (batch : Models.BatchInDB)
    (layout_library ocr_library test_run_id : string)
    (progress_callback : option (Z -> Z -> M unit))
  : M (list (string * Models.DocResults)) :=
  let is_handwritten := String.eqb (Models.batch_type batch) "handwritten" in
  batch_loop S batch layout_library ocr_library test_run_id progress_callback
    is_handwritten 0 (Models.documents batch) [].

End Pipeline.

(** ** The background task ([app/routers/tests.py]) *)

Module TestsRouter.

Import Pipeline.

Definition update_status (run_id : string) (status : Models.TestStatus)
    (processed_documents : option Z) (error_message : option string) : M unit :=
  fun st =>
    let '(_, w) := Firestore.update_test_run_status run_id status processed_documents
                     error_message (world st) in
    (Ok tt, {| world := w; trace := trace st |}).

(** [for batch_id in batch_ids], with the counter [total_processed]. *)
Fixpoint batches_loop (S : Services) (test_run_id : string)
    (layout_library ocr_library : string)
    (batch_ids : list string) (total_processed : Z) : M Z :=
  fun st =>
  match batch_ids with
  | [] => (Ok total_processed, st)
  | batch_id :: rest =>
      match Firestore.get_batch_by_id (world st) batch_id with
      | None => batches_loop S test_run_id layout_library ocr_library rest total_processed st
      | Some batch =>
          let cb := fun curr (total : Z) =>
            update_status test_run_id Models.RUNNING (Some (total_processed + curr)) None in
          match process_batch S batch layout_library ocr_library test_run_id (Some cb) st with
          | (Raise e, st) => (Raise e, st)
          | (Ok _, st) =>
              batches_loop S test_run_id layout_library ocr_library rest
                (total_processed + Z.of_nat (length (Models.documents batch))) st
          end
      end
  end.

(** The [try] block. *)
Definition try_body (S : Services) (test_run_id : string) (batch_ids : list string)
    (layout_library ocr_library : string) : M unit :=
  fun st =>
  match update_status test_run_id Models.RUNNING None None st with
  | (Raise e, st) => (Raise e, st)
  | (Ok _, st) =>
      match batches_loop S test_run_id layout_library ocr_library batch_ids 0 st with
      | (Raise e, st) => (Raise e, st)
      | (Ok total_processed, st) =>
          update_status test_run_id Models.COMPLETED (Some total_processed) None st
      end
  end.

Definition run_test_background (S : Services) (test_run_id : string)
    (batch_ids : list string) (layout_library ocr_library : string)
    (st : State) : State :=
  match try_body S test_run_id batch_ids layout_library ocr_library st with
  | (Ok _, st) => st
  | (Raise e, st) =>
      (* except Exception as e *)
      snd (update_status test_run_id Models.FAILED None (Some (exc_str e)) st)
  end.

End TestsRouter.

(** ** Pillow and NumPy operations of the scan simulator

    The operations keep Pillow's contract on modes and sizes; what they do
    to the pixels is given by the [Kernels] of the installed library. *)

Module PILFilters.

Definition Pixel : Type := Z * Z * Z.
Definition Plane : Type := Z -> Z -> Pixel.

Record Kernels := mkKernels {
  (** resampling of [Image.rotate] for an angle in degrees and a fill colour *)
  rotate_px : Plane -> Z * Z -> Q -> Pixel -> Plane;
  (** [ImageEnhance.Brightness(img).enhance(factor)] *)
  brightness_px : Plane -> Z * Z -> Q -> Plane;
  (** [ImageEnhance.Contrast(img).enhance(factor)] *)
  contrast_px : Plane -> Z * Z -> Q -> Plane;
  (** [ImageFilter.GaussianBlur(radius)] *)
  blur_px : Plane -> Z * Z -> Q -> Plane;
  (** interpolation of [Image.blend] on one channel *)
  blend_channel : Z -> Z -> Q -> Z;
  (** the conversion of [Image.convert] from a mode to another mode, or the
      [ValueError] the library raises when it has none (Pillow has none
      from ["La"] to ["RGB"]) *)
  convert_px : string -> string -> result (Plane -> Plane);
}.

(** [im.copy()] *)
Definition copy (im : PIL.Image) : PIL.Image :=
  {| PIL.mode := PIL.mode im; PIL.width := PIL.width im; PIL.height := PIL.height im;
     PIL.getpixel := PIL.getpixel im |}.

(** [im.convert(m)]: a copy when the image has the mode [m] already, the
    library's conversion otherwise; the size is kept. *)
Definition convert (K : Kernels) (m : string) (im : PIL.Image) : result PIL.Image :=
  if String.eqb (PIL.mode im) m then Ok (copy im)
  else
    px ← convert_px K (PIL.mode im) m;
    mret {| PIL.mode := m; PIL.width := PIL.width im; PIL.height := PIL.height im;
            PIL.getpixel := px (PIL.getpixel im) |}.

(** The library converts images of the mode [src] to the mode [dst]. *)
Definition converts (K : Kernels) (src dst : string) : Prop :=
  src = dst \/ exists px, convert_px K src dst = Ok px.

(** [Image.new(mode, size, color)] *)
Definition new (mode : string) (size : Z * Z) (color : Pixel) : PIL.Image :=
  {| PIL.mode := mode; PIL.width := fst size; PIL.height := snd size;
     PIL.getpixel := fun _ _ => color |}.

(** [Image.blend(im1, im2, alpha)]: [ValueError] unless the two images have
    the same mode and size. *)
Definition blend (K : Kernels) (im1 im2 : PIL.Image) (alpha : Q) : result PIL.Image :=
  if String.eqb (PIL.mode im1) (PIL.mode im2)
     && (PIL.width im1 =? PIL.width im2) && (PIL.height im1 =? PIL.height im2)
  then
    Ok {| PIL.mode := PIL.mode im1; PIL.width := PIL.width im1;
          PIL.height := PIL.height im1;
          PIL.getpixel := fun x y =>
            let '(r1, g1, b1) := PIL.getpixel im1 x y in
            let '(r2, g2, b2) := PIL.getpixel im2 x y in
            (blend_channel K r1 r2 alpha, blend_channel K g1 g2 alpha,
             blend_channel K b1 b2 alpha) |}
  else Raise (mkExc "ValueError" "images do not match").

(** [im.rotate(angle, expand=False, fillcolor=fill)]: the canvas keeps the
    size of the input. *)
Definition rotate (K : Kernels) (im : PIL.Image) (angle : Q) (fill : Pixel) : PIL.Image :=
  {| PIL.mode := PIL.mode im; PIL.width := PIL.width im; PIL.height := PIL.height im;
     PIL.getpixel := rotate_px K (PIL.getpixel im) (PIL.size im) angle fill |}.

Definition enhance_brightness (K : Kernels) (im : PIL.Image) (factor : Q) : PIL.Image :=
  {| PIL.mode := PIL.mode im; PIL.width := PIL.width im; PIL.height := PIL.height im;
     PIL.getpixel := brightness_px K (PIL.getpixel im) (PIL.size im) factor |}.

(** [ImageEnhance.Contrast(im).enhance(factor)]: the constructor takes the
    mean of the grey levels, [ImageStat.Stat(...).mean], a division by the
    number of pixels. *)
Definition enhance_contrast (K : Kernels) (im : PIL.Image) (factor : Q)
  : result PIL.Image :=
  if (PIL.width im <=? 0) || (PIL.height im <=? 0)
  then Raise (mkExc "ZeroDivisionError" "float division by zero")
  else
    Ok {| PIL.mode := PIL.mode im; PIL.width := PIL.width im;
          PIL.height := PIL.height im;
          PIL.getpixel := contrast_px K (PIL.getpixel im) (PIL.size im) factor |}.

(** [im.filter(ImageFilter.GaussianBlur(radius=r))] *)
Definition gaussian_blur (K : Kernels) (im : PIL.Image) (radius : Q) : PIL.Image :=
  {| PIL.mode := PIL.mode im; PIL.width := PIL.width im; PIL.height := PIL.height im;
     PIL.getpixel := blur_px K (PIL.getpixel im) (PIL.size im) radius |}.

(** [np.clip(v, 0, 255).astype(np.uint8)] on one channel *)
Definition clip_u8 (v : Q) : Z :=
  if Qle_bool v 0 then 0 else if Qle_bool 255 v then 255 else int_of_float v.

(** [Image.fromarray(np.clip(np.array(img, float32) + noise, 0, 255).astype(uint8))]:
    an RGB image of the shape of the array. *)
Definition add_noise (im : PIL.Image) (noise : Z -> Z -> Q * Q * Q) : PIL.Image :=
  {| PIL.mode := "RGB"; PIL.width := PIL.width im; PIL.height := PIL.height im;
     PIL.getpixel := fun x y =>
       let '(r, g, b) := PIL.getpixel im x y in
       let '(nr, ng, nb) := noise x y in
       (clip_u8 (inject_Z r + nr), clip_u8 (inject_Z g + ng), clip_u8 (inject_Z b + nb)) |}.

End PILFilters.

(** ** The scan simulator ([app/services/scan_simulator.py]) *)

Module ScanSimulator.

Record Params := mkParams {
  rotation_range : Q;
  noise_amount : Q;
  blur_radius : Q;
  brightness_range : Q * Q;
  contrast_range : Q * Q;
  paper_tone : Z * Z * Z;
}.

Definition light : Params :=
  {| rotation_range := 15 # 10; noise_amount := 3; blur_radius := 3 # 10;
     brightness_range := (95 # 100, 105 # 100); contrast_range := (95 # 100, 105 # 100);
     paper_tone := (245, 240, 230) |}.

Definition medium : Params :=
  {| rotation_range := 3; noise_amount := 8; blur_radius := 7 # 10;
     brightness_range := (85 # 100, 115 # 100); contrast_range := (85 # 100, 115 # 100);
     paper_tone := (235, 228, 215) |}.

Definition heavy : Params :=
  {| rotation_range := 5; noise_amount := 15; blur_radius := 12 # 10;
     brightness_range := (75 # 100, 125 # 100); contrast_range := (75 # 100, 130 # 100);
     paper_tone := (225, 215, 200) |}.

Definition PRESETS : list (string * Params) :=
  [("light", light); ("medium", medium); ("heavy", heavy)].

(** The random numbers one call consumes: the four [random.random()] values
    behind [random.uniform], and the field [np.random.normal] returns for
    a standard deviation and a shape. *)
Record Draws := mkDraws {
  u_angle : Q;
  u_brightness : Q;
  u_contrast : Q;
  u_blur : Q;
  normal : Q -> Z * Z -> Z -> Z -> Q * Q * Q;
}.

(** [random.uniform(a, b)] is [a + (b - a) * random()]. *)
Definition uniform (a b u : Q) : Q := (a + (b - a) * u)%Q.

Definition apply_scan_effects (K : PILFilters.Kernels) (D : Draws)
    (image : PIL.Image) (preset : string) : result PIL.Image :=
  let params := default medium (dict_get PRESETS preset) in
  img ← PILFilters.convert K "RGB" (PILFilters.copy image);
  (* 1. paper tone *)
  let tone := paper_tone params in
  let tone_layer := PILFilters.new "RGB" (PIL.size img) tone in
  img ← PILFilters.blend K img tone_layer (8 # 100);
  (* 2. random rotation *)
  let angle := uniform (- rotation_range params) (rotation_range params) (u_angle D) in
  let img := PILFilters.rotate K img angle (255, 255, 255) in
  (* 3. brightness *)
  let brightness_factor :=
    uniform (fst (brightness_range params)) (snd (brightness_range params))
      (u_brightness D) in
  let img := PILFilters.enhance_brightness K img brightness_factor in
  (* 4. contrast *)
  let contrast_factor :=
    uniform (fst (contrast_range params)) (snd (contrast_range params))
      (u_contrast D) in
  img ← PILFilters.enhance_contrast K img contrast_factor;
  (* 5. Gaussian blur *)
  let img :=
    if gt (blur_radius params) 0
    then PILFilters.gaussian_blur K img (uniform 0 (blur_radius params) (u_blur D))
    else img in
  (* 6. Gaussian noise *)
  let img :=
    if gt (noise_amount params) 0
    then PILFilters.add_noise img (normal D (noise_amount params) (PIL.size img))
    else img in
  mret img.

End ScanSimulator.

(** ** The synthetic document generator
    ([app/services/synthetic_generator.py], [app/models/form.py]) *)

Module SyntheticGenerator.

Inductive FieldType :=
| NUMERIC_SHORT | TEXT_SHORT | SENTENCE | FULL_NAME | DAY_MONTH
| TWO_DIGIT_YEAR | FOUR_DIGIT_YEAR.

(** [FieldType.value] *)
Definition value (t : FieldType) : string :=
  match t with
  | NUMERIC_SHORT => "numeric_short"
  | TEXT_SHORT => "text_short"
  | SENTENCE => "sentence"
  | FULL_NAME => "full_name"
  | DAY_MONTH => "day_month"
  | TWO_DIGIT_YEAR => "2_digit_year"
  | FOUR_DIGIT_YEAR => "4_digit_year"
  end.

(** [form.FieldMapping] *)
Record FieldMapping := mkFieldMapping {
  name : string;
  x : Z;
  y : Z;
  width : Z;
  height : Z;
  font_size : Z;
  font_color : string;
  field_type : FieldType;
}.

Definition numeric_short : list string :=
  ["123"; "456"; "789"; "012"; "345"; "678"; "901"; "234";
   "5678"; "9012"; "1234"; "4567"; "8901"; "42"; "307"; "88"].

Definition text_short : list string :=
  ["TX"; "CA"; "NY"; "FL"; "IL"; "PA"; "OH"; "GA";
   "Civil"; "Criminal"; "Family"; "Probate"; "Juvenile";
   "Plaintiff"; "Defendant"; "Appellant"; "Respondent";
   "Dallas"; "Harris"; "Travis"; "Bexar"; "Tarrant"; "El Paso"].

Definition sentence : list string :=
  ["The defendant failed to appear at the scheduled hearing.";
   "Plaintiff requests summary judgment on all counts.";
   "Motion to dismiss is hereby granted.";
   "The court finds sufficient evidence to proceed.";
   "All parties have been duly notified of the hearing date.";
   "Defendant is ordered to pay restitution to the plaintiff.";
   "The case is hereby continued to the next available date.";
   "Witness testimony corroborates the plaintiff's claims."].

Definition full_name : list string :=
  ["John Smith"; "Jane Doe"; "Robert Johnson"; "Maria Garcia";
   "Michael Brown"; "Emily Davis"; "David Wilson"; "Sarah Miller";
   "James Taylor"; "Jennifer Anderson"; "William Thomas"; "Linda Martinez";
   "Charles Jordan"; "Patricia Williams"; "Daniel Lee"; "Angela Robinson";
   "Christopher Harris"; "Amanda Clark"; "Matthew Wright"; "Stephanie King"].

Definition day_month : list string :=
  ["January 15"; "February 20"; "March 10"; "April 5";
   "May 25"; "June 30"; "July 4"; "August 15";
   "September 1"; "October 12"; "November 28"; "December 25";
   "January 3"; "March 22"; "June 17"; "September 30"].

Definition two_digit_year : list string :=
  ["20"; "21"; "22"; "23"; "24"; "25"; "26"].

Definition four_digit_year : list string :=
  ["2020"; "2021"; "2022"; "2023"; "2024"; "2025"; "2026"].

(** The dicts, in insertion order. *)
Definition FIELD_TYPE_DATA : list (string * list string) :=
  [("numeric_short", numeric_short); ("text_short", text_short);
   ("sentence", sentence); ("full_name", full_name); ("day_month", day_month);
   ("2_digit_year", two_digit_year); ("4_digit_year", four_digit_year)].

Definition DEFAULT_SYNTHETIC_DATA : list (string * list string) :=
  [("defendant_name", full_name);
   ("plaintiff_name",
    ["ABC Corporation"; "XYZ Inc."; "State of Texas"; "City of Dallas";
     "First National Bank"; "Johnson & Associates"; "Smith Holdings LLC"]);
   ("case_number",
    ["2024-CV-001234"; "2024-CV-005678"; "2023-CV-009012"; "2024-CR-003456";
     "DC-2024-0001"; "DC-2024-0042"; "CC-2024-1234"; "JP-2024-5678"]);
   ("date",
    ["January 15, 2024"; "February 20, 2024"; "March 10, 2024";
     "April 5, 2024"; "May 25, 2024"; "June 30, 2024"]);
   ("default", text_short)].

(** [random.choice(seq)] for the draw [r]: [seq[r mod len(seq)]], and
    [IndexError] on an empty sequence. *)
Definition choice (r : nat) (seq : list string) : result string :=
  match seq with
  | [] => Raise (mkExc "IndexError" "Cannot choose from an empty sequence")
  | _ => Ok (nth (r mod length seq) seq "")
  end.

(** [for key, values in DEFAULT_SYNTHETIC_DATA.items(): if key in field_lower] *)
Fixpoint legacy_loop (r : nat) (field_lower : string)
    (items : list (string * list string)) : option (result string) :=
  match items with
  | [] => None
  | (key, values) :: rest =>
      if contains key field_lower then Some (choice r values)
      else legacy_loop r field_lower rest
  end.

(** The legacy fallback on the field name, then the default pool. *)
Definition legacy_fallback (r : nat) (field_name : string) : result string :=
  let field_lower := lower field_name in
  match legacy_loop r field_lower DEFAULT_SYNTHETIC_DATA with
  | Some v => v
  | None => choice r (default [] (dict_get DEFAULT_SYNTHETIC_DATA "default"))
  end.

Definition _get_synthetic_value (r : nat) (field_name : string)
    (custom_options : option (list string)) (field_type : option string)
  : result string :=
  match custom_options with
  | Some (o :: os) => choice r (o :: os)
  | _ =>
      match field_type with
      | Some (String c ft) =>
          match dict_get FIELD_TYPE_DATA (String c ft) with
          | Some pool => choice r pool
          | None => legacy_fallback r field_name
          end
      | _ => legacy_fallback r field_name
      end
  end.

(** The value [generate_filled_form] draws for one mapping:
    [custom_options] is looked up in [field_value_options] by field name. *)
Definition field_value (r : nat) (field : FieldMapping)
    (field_value_options : option (list (string * list string))) : result string :=
  let custom_options :=
    match field_value_options with
    | Some opts =>
        if truthy_list opts then dict_get opts (name field) else None
    | None => None
    end in
  _get_synthetic_value r (name field) custom_options (Some (value (field_type field))).

End SyntheticGenerator.

(** ** The design document's notions, for comparison with the code *)

Module Spec.

(** The arithmetic mean of a list of scores. *)
Definition mean (xs : list Q) : Q := (Py.sum xs / Py.len xs)%Q.

(** Document-level accuracy as the design document words it: the mean over
    the fields flagged important; without any, the mean over all fields;
    without fields, 0.0. *)
Definition accuracy (fields : list Models.ExtractedField) : Q :=
  match List.filter Models.is_important fields with
  | (_ :: _) as important => mean (List.map Models.match_score important)
  | [] =>
      match fields with
      | _ :: _ => mean (List.map Models.match_score fields)
      | [] => 0%Q
      end
  end.

(** A candidate text for a field: a line or the full text of a region, the
    confidence that goes with it and its similarity to the expected value. *)
Record Candidate := mkCandidate {
  cand_text : string;
  cand_confidence : Q;
  cand_score : Q;
}.

Definition line_candidate (expected_value : string) (line : OCR.TextLine) : Candidate :=
  {| cand_text := OCR.text line;
     cand_confidence := OCR.confidence line;
     cand_score := Pipeline.similarity expected_value (OCR.text line) |}.

Definition full_text_candidate (expected_value : string) (r : OCR.OCRResult) : Candidate :=
  {| cand_text := OCR.full_text r;
     cand_confidence :=
       (Py.sum (List.map OCR.confidence (OCR.lines r))
        / inject_Z (Z.max (Z.of_nat (length (OCR.lines r))) 1))%Q;
     cand_score := Pipeline.similarity expected_value (OCR.full_text r) |}.

(** The fixed enumeration order: region by region, the lines of a region in
    order, then its full text. *)
Definition candidates (expected_value : string) (ocr_results : list OCR.OCRResult)
  : list Candidate :=
  concat (List.map
    (fun r => (List.map (line_candidate expected_value) (OCR.lines r)
               ++ [full_text_candidate expected_value r])%list)
    ocr_results).

(** The values the search holds after it has taken candidate [c]. *)
Definition best_of (c : Candidate) : Pipeline.Best :=
  {| Pipeline.best_match := cand_text c;
     Pipeline.best_score := cand_score c;
     Pipeline.best_confidence := cand_confidence c |}.

(** The comparison both granularities go through. *)
Definition pick (best : Pipeline.Best) (c : Candidate) : Pipeline.Best :=
  if gt (cand_score c) (Pipeline.best_score best) then best_of c else best.

(** [c], at position [i], is the highest-scoring candidate of [cs], and the
    first one with that score. *)
Definition first_highest (cs : list Candidate) (i : nat) (c : Candidate) : Prop :=
  cs !! i = Some c
  /\ Forall (fun d => (cand_score d <= cand_score c)%Q) cs
  /\ Forall (fun d => (cand_score d < cand_score c)%Q) (take i cs).

(** The field carries the text, the confidence and the score of [c]. *)
Definition bound_to (f : Models.ExtractedField) (c : Candidate) : Prop :=
  Models.extracted_value f = cand_text c
  /\ Models.confidence f = cand_confidence c
  /\ Models.match_score f = cand_score c.

(** The field carries the initial values of the search. *)
Definition unmatched (f : Models.ExtractedField) : Prop :=
  Models.extracted_value f = ""
  /\ Models.confidence f = 0%Q
  /\ Models.match_score f = 0%Q.

(** The ids of a region list are 1, 2, ..., N in list order. *)
Definition contiguous_ids (rs : list Layout.Region) : Prop :=
  List.map Layout.id rs = List.map Z.of_nat (seq 1 (length rs)).

(** The number of detections the back end of a detector reports for an
    image, when loading and inference succeed. *)
Definition detections (B : LayoutRegistry.Backends) (d : LayoutRegistry.Detector)
    (image : PIL.Image) : result nat :=
  match d with
  | LayoutRegistry.DocLayoutYOLODetector =>
      _ ← DocLayoutYOLO._load_model (LayoutRegistry.yolo B);
      results ← DocLayoutYOLO.predict (LayoutRegistry.yolo B) image;
      mret (length (concat (List.map DocLayoutYOLO.boxes results)))
  | LayoutRegistry.DocTRLayoutDetector =>
      _ ← DocTR._load_model (LayoutRegistry.doctr B);
      pages ← DocTR.model (LayoutRegistry.doctr B) image;
      mret (match pages with
            | [] => 0%nat
            | DocTR.PageDict rows :: _ | DocTR.PageArray rows :: _ => length rows
            end)
  | LayoutRegistry.SuryaLayoutDetector =>
      _ ← SuryaLayout._load_model (LayoutRegistry.surya B);
      pages ← SuryaLayout.predictor (LayoutRegistry.surya B) image;
      mret (match pages with
            | [] => 0%nat
            | page :: _ => length (SuryaLayout.bboxes page)
            end)
  end.

(** The invariant of [OCRResult]: the full text is the texts of the lines,
    in order, joined by single spaces. *)
Definition full_text_joined (r : OCR.OCRResult) : Prop :=
  OCR.full_text r = join " " (List.map OCR.text (OCR.lines r)).

(** The result for a region from which nothing was read. *)
Definition empty_result (region_id : Z) : OCR.OCRResult :=
  {| OCR.region_id := region_id; OCR.full_text := ""; OCR.lines := [] |}.

(** A progress callback that never raises and writes nothing but the
    status document of the run. *)
Definition status_only (run_id : string) (cb : Z -> Z -> Pipeline.M unit) : Prop :=
  forall a b st, exists w,
    cb a b st = (Ok tt, {| Pipeline.world := w; Pipeline.trace := Pipeline.trace st |})
    /\ Firestore.results w = Firestore.results (Pipeline.world st)
    /\ Firestore.batches w = Firestore.batches (Pipeline.world st)
    /\ (is_Some (Firestore.test_runs (Pipeline.world st) !! run_id) ->
        is_Some (Firestore.test_runs w !! run_id)).

(** The ids of the documents whose results are stored, in creation order. *)
Definition persisted (st : Pipeline.State) : list string :=
  List.map Models.document_id (Firestore.results (Pipeline.world st)).

(** The preset names the simulator knows. *)
Definition known_preset (preset : string) : bool :=
  existsb (String.eqb preset) ["light"; "medium"; "heavy"].

(** The three sources of a synthetic value. *)
Definition override_pool (custom_options : option (list string)) : option (list string) :=
  match custom_options with
  | Some (o :: os) => Some (o :: os)
  | _ => None
  end.

Definition field_type_pool (field_type : option string) : option (list string) :=
  match field_type with
  | Some t => dict_get SyntheticGenerator.FIELD_TYPE_DATA t
  | None => None
  end.

Definition legacy_pool (field_name : string) : list string :=
  match List.find (fun kv : string * list string => contains (fst kv) (lower field_name))
          SyntheticGenerator.DEFAULT_SYNTHETIC_DATA with
  | Some (_, values) => values
  | None => SyntheticGenerator.text_short
  end.

(** The pool under the priority order of the design document: field-type
    pool, then override list, then legacy fallback. *)
Definition stated_pool (field_name : string) (custom_options : option (list string))
    (field_type : option string) : list string :=
  match field_type_pool field_type with
  | Some pool => pool
  | None =>
      match override_pool custom_options with
      | Some pool => pool
      | None => legacy_pool field_name
      end
  end.

(** The pool under the order override list, then field-type pool, then
    legacy fallback. *)
Definition override_first_pool (field_name : string)
    (custom_options : option (list string)) (field_type : option string) : list string :=
  match override_pool custom_options with
  | Some pool => pool
  | None =>
      match field_type_pool field_type with
      | Some pool => pool
      | None => legacy_pool field_name
      end
  end.

End Spec.

(** ** Concrete collaborators, for the examples *)

Module Fixtures.

(** A blank 100 x 200 page. *)
Definition page : PIL.Image :=
  PIL.mkImage "RGB" 100 200 (fun _ _ => (255, 255, 255)).

Definition model_error : PyExc := mkExc "RuntimeError" "CUDA error: out of memory".

(** A YOLO back end reporting three boxes in two results. *)
Definition yolo_backend : DocLayoutYOLO.Backend :=
  {| DocLayoutYOLO._load_model := Ok tt;
     DocLayoutYOLO.predict := fun _ =>
       Ok [ DocLayoutYOLO.mkResult
              [ DocLayoutYOLO.mkBox (10, 20, 90, 40) (1 # 2) 0;
                DocLayoutYOLO.mkBox (10, 50, 90, 80) (9 # 10) 3 ]%Q
              {[ 0 := "title" ]};
            DocLayoutYOLO.mkResult
              [ DocLayoutYOLO.mkBox (5 # 2, 100, 90, 120) (7 # 10) 0 ]%Q
              {[ 0 := "plain text" ]} ] |}.

(** A DocTR back end that fails on pages 2 pixels wide and finds two words,
    bottom one first, elsewhere. *)
Definition doctr_backend : DocTR.Backend :=
  {| DocTR._load_model := Ok tt;
     DocTR.model := fun image =>
       if PIL.width image =? 2 then Raise model_error
       else Ok [ DocTR.PageDict
                   [ (1 # 10, 5 # 10, 9 # 10, 6 # 10, 8 # 10);
                     (1 # 10, 1 # 10, 9 # 10, 2 # 10, 9 # 10) ]%Q ] |}.

Definition surya_layout_backend : SuryaLayout.Backend :=
  {| SuryaLayout._load_model := Ok tt;
     SuryaLayout.predictor := fun _ => Ok [] |}.

Definition layout_backends : LayoutRegistry.Backends :=
  {| LayoutRegistry.yolo := yolo_backend;
     LayoutRegistry.doctr := doctr_backend;
     LayoutRegistry.surya := surya_layout_backend |}.

(** An EasyOCR reader that fails on an empty crop and reads one line
    elsewhere. *)
Definition easyocr_backend : EasyOCR.Backend :=
  {| EasyOCR._load_model := Ok tt;
     EasyOCR.readtext := fun image =>
       if PIL.width image =? 0 then Raise model_error
       else Ok [ EasyOCR.mkDetection [(0, 0); (50, 0); (50, 10); (0, 10)]%Q
                   "Case No." (97 # 100)%Q ] |}.

(** A MinerU client that fails on an empty crop as well. *)
Definition mineru_backend : MinerU.Backend :=
  {| MinerU._load_model := Ok tt;
     MinerU.two_step_extract := fun image =>
       if PIL.width image =? 0 then Raise model_error
       else Ok [ MinerU.mkBlock (Some "Case No.") (Some "text") None ] |}.

(** A GOT-OCR model that reads two lines. *)
Definition got_backend : GotOCR.Backend :=
  {| GotOCR._load_model := Ok tt;
     GotOCR.generate := fun _ => Ok ("John Smith" ++ String LF "Dallas") |}.

Definition surya_ocr_backend : SuryaOCR.Backend :=
  {| SuryaOCR._load_model := Ok tt;
     SuryaOCR.predictor := fun _ _ =>
       Ok [ SuryaOCR.mkPageResult
              [ SuryaOCR.mkSuryaLine "John Smith" (Some (8 # 10)%Q) None;
                SuryaOCR.mkSuryaLine "Dallas" None None ] ] |}.

Definition paddle_backend : PaddleOCR.Backend :=
  {| PaddleOCR._load_model := Ok tt;
     PaddleOCR.predict := fun _ =>
       Ok [ PaddleOCR.mkRes (Some ["2024-CV-001234"; ""; "TX"])
              (Some [99 # 100; 1 # 10]%Q) None ] |}.

Definition tesseract_backend : Tesseract.Backend :=
  {| Tesseract.image_to_data := fun _ =>
       Ok [ Tesseract.mkWord "" (-1) 0 0 0 100 200;
            Tesseract.mkWord "Smith" 90 2 10 40 50 12;
            Tesseract.mkWord "John" 96 1 10 20 40 12;
            Tesseract.mkWord " Doe " 80 1 60 21 30 12 ]%Q |}.

Definition trocr_backend : TrOCR.Backend :=
  {| TrOCR._load_model := Ok tt;
     TrOCR.recognize := fun _ => Ok " Jane Doe " |}.

Definition ocr_backends : OCRRegistry.Backends :=
  {| OCRRegistry.easyocr := easyocr_backend;
     OCRRegistry.surya := surya_ocr_backend;
     OCRRegistry.paddleocr := paddle_backend;
     OCRRegistry.tesseract := tesseract_backend;
     OCRRegistry.trocr := trocr_backend;
     OCRRegistry.got_ocr := got_backend;
     OCRRegistry.mineru := mineru_backend |}.

(** A region with an empty box, and a regular one. *)
Definition empty_region : Layout.Region :=
  Layout.mkRegion 1 "text" (9 # 10) (Layout.mkBBox 10 10 10 40).

Definition title_region : Layout.Region :=
  Layout.mkRegion 2 "title" (8 # 10) (Layout.mkBBox 10 50 90 80).

(** A blob store whose blobs are the bytes of their own path, and a
    decoder giving a page as wide as the blob is long: the document stored
    at ["ab"] is the 2-pixel page on which [doctr_backend] fails. *)
Definition services : Pipeline.Services :=
  {| Pipeline.download_file := fun path => Ok (list_byte_of_string path);
     Pipeline.image_open := fun image_bytes =>
       Ok (PIL.mkImage "RGB" (Z.of_nat (length image_bytes)) 200
             (fun _ _ => (255, 255, 255)));
     Pipeline.layout_backends := layout_backends;
     Pipeline.ocr_backends := ocr_backends |}.

Definition document (id path : string) : Models.SyntheticDocument :=
  {| Models.id := id; Models.storage_path := path;
     Models.field_values := [("case_number", "Case No.")];
     Models.is_skewed := false |}.

Definition scan_document : Models.SyntheticDocument :=
  {| Models.id := "scan-1"; Models.storage_path := "scans/1.png";
     Models.field_values := []; Models.is_skewed := false |}.

(** A batch of three documents; the detector fails on the second. *)
Definition doc1 : Models.SyntheticDocument := document "doc-1" "a1.png".
Definition doc2 : Models.SyntheticDocument := document "doc-2" "ab".
Definition doc3 : Models.SyntheticDocument := document "doc-3" "c3.png".

Definition batch : Models.BatchInDB :=
  {| Models.batch_id := "batch-1"; Models.batch_type := "synthetic";
     Models.documents := [doc1; doc2; doc3] |}.

Definition pending_run : Models.TestRun :=
  {| Models.status := Models.PENDING; Models.processed_documents := 0;
     Models.error_message := None; Models.completed := false |}.

Definition initial_state : Pipeline.State :=
  {| Pipeline.world :=
       {| Firestore.test_runs := {[ "run-1" := pending_run ]};
          Firestore.batches := {[ "batch-1" := batch ]};
          Firestore.results := [] |};
     Pipeline.trace := [] |}.

(** The storage path a download call names, if it is one. *)
Definition downloaded (c : Pipeline.Call) : option string :=
  match c with
  | Pipeline.CallDownload path => Some path
  | _ => None
  end.

(** Kernels that leave the pixels alone and, as Pillow, convert no image
    of the mode [La]; constant random draws. *)
Definition identity_kernels : PILFilters.Kernels :=
  {| PILFilters.rotate_px := fun plane _ _ _ => plane;
     PILFilters.brightness_px := fun plane _ _ => plane;
     PILFilters.contrast_px := fun plane _ _ => plane;
     PILFilters.blur_px := fun plane _ _ => plane;
     PILFilters.blend_channel := fun a b alpha =>
       int_of_float (inject_Z a * (1 - alpha) + inject_Z b * alpha)%Q;
     PILFilters.convert_px := fun src dst =>
       if String.eqb src "La"
       then Raise (mkExc "ValueError" "conversion from La to L not supported")
       else Ok (fun plane => plane) |}.

Definition draws : ScanSimulator.Draws :=
  {| ScanSimulator.u_angle := 1 # 4; ScanSimulator.u_brightness := 1 # 2;
     ScanSimulator.u_contrast := 3 # 4; ScanSimulator.u_blur := 1 # 3;
     ScanSimulator.normal := fun sigma _ x y => (sigma, 0, - sigma)%Q |}.

(** A grey-scale page. *)
Definition grey_page : PIL.Image :=
  PIL.mkImage "L" 640 480 (fun _ _ => (200, 200, 200)).

(** A page in the mode [La], grey levels with premultiplied alpha. *)
Definition premultiplied_page : PIL.Image :=
  PIL.mkImage "La" 640 480 (fun _ _ => (200, 200, 200)).

End Fixtures.

(** ** Further notions and examples *)

From Stdlib Require Import Sorting.Sorted.

Module Notions.

(** [c in s] for a character. *)
Fixpoint has_char (c : ascii) (s : string) : bool :=
  match s with
  | EmptyString => false
  | String c' s' => Ascii.eqb c' c || has_char c s'
  end.

(** A region without its id. *)
Definition region_data (r : Layout.Region) : string * Q * Layout.BBox :=
  (Layout.type r, Layout.confidence r, Layout.bbox r).

(** What [extract_from_region] does for an engine of the registry. *)
Definition extract_region (B : OCRRegistry.Backends) (e : OCRRegistry.Engine)
    (image : PIL.Image) (region : Layout.Region) : result OCR.OCRResult :=
  OCR.extract_from_region (OCRRegistry._process_cropped_image B e) image region.

End Notions.

Module Samples.

(** A GOT-OCR model that reads a single line, with white space around. *)
Definition got_single_line : GotOCR.Backend :=
  {| GotOCR._load_model := Ok tt;
     GotOCR.generate := fun _ => Ok "  Motion to dismiss " |}.

(** A MinerU client whose model cannot be loaded. *)
Definition mineru_unloadable : MinerU.Backend :=
  {| MinerU._load_model := Raise (mkExc "OSError" "model weights not found");
     MinerU.two_step_extract := fun _ => Ok [] |}.

End Samples.

Module DetectorNotions.

(** The regions a detector collects from its back end, before it sorts
    them and re-assigns the ids. *)
Definition collected (B : LayoutRegistry.Backends) (d : LayoutRegistry.Detector)
    (image : PIL.Image) : result (list Layout.Region) :=
  match d with
  | LayoutRegistry.DocLayoutYOLODetector =>
      _ ← DocLayoutYOLO._load_model (LayoutRegistry.yolo B);
      results ← DocLayoutYOLO.predict (LayoutRegistry.yolo B) image;
      mret (DocLayoutYOLO.collect results)
  | LayoutRegistry.DocTRLayoutDetector =>
      _ ← DocTR._load_model (LayoutRegistry.doctr B);
      pages ← DocTR.model (LayoutRegistry.doctr B) image;
      mret (DocTR.collect image pages)
  | LayoutRegistry.SuryaLayoutDetector =>
      _ ← SuryaLayout._load_model (LayoutRegistry.surya B);
      pages ← SuryaLayout.predictor (LayoutRegistry.surya B) image;
      mret (SuryaLayout.collect pages)
  end.

(** The order in which a detector returns its regions: by descending
    confidence for DocLayout-YOLO, top to bottom and then left to right for
    DocTR and Surya. *)
Definition in_order (d : LayoutRegistry.Detector) (r1 r2 : Layout.Region) : Prop :=
  match d with
  | LayoutRegistry.DocLayoutYOLODetector =>
      (Layout.confidence r2 <= Layout.confidence r1)%Q
  | _ =>
      Layout.y1 (Layout.bbox r1) < Layout.y1 (Layout.bbox r2)
      \/ (Layout.y1 (Layout.bbox r1) = Layout.y1 (Layout.bbox r2)
          /\ Layout.x1 (Layout.bbox r1) <= Layout.x1 (Layout.bbox r2))
  end.

(** A line box of [_split_into_lines] within an image of the given height. *)
Definition line_ok (min_gap height : Z) (line : Z * Z) : Prop :=
  0 <= fst line /\ min_gap < snd line - fst line /\ snd line <= height.

(** The adapters that drop a piece of text that is empty. *)
Definition skips_empty_text (e : OCRRegistry.Engine) : bool :=
  match e with
  | OCRRegistry.EasyOCREngine | OCRRegistry.SuryaOCREngine => false
  | _ => true
  end.

End DetectorNotions.

(** ** The registries' name lists ([layout/__init__.py], [ocr/__init__.py]) *)

Module RegistryNames.

Definition _LAYOUT_DETECTOR_NAMES : list string := ["doclayout_yolo"; "doctr"; "surya"].

Definition _OCR_ENGINE_NAMES : list string :=
  ["easyocr"; "surya"; "paddleocr"; "tesseract"; "trocr"; "got_ocr"; "mineru"].

Definition list_layout_detectors : list string := _LAYOUT_DETECTOR_NAMES.

Definition list_ocr_engines : list string := _OCR_ENGINE_NAMES.

(** [name in names] *)
Definition name_in (name : string) (names : list string) : bool :=
  existsb (String.eqb name) names.

End RegistryNames.

Module PipelineNotions.

(** The field as [_match_fields] creates it when nothing matches. *)
Definition unmatched_field (item : string * string) : Models.ExtractedField :=
  {| Models.field_name := fst item;
     Models.expected_value := snd item;
     Models.extracted_value := "";
     Models.confidence := 0%Q;
     Models.match_score := 0%Q;
     Models.is_important := true;
     Models.verification_status := Models.UNVERIFIED;
     Models.corrected_value := None |}.

(** The flags every field has when it leaves the matcher. *)
Definition fresh (f : Models.ExtractedField) : Prop :=
  Models.is_important f = true
  /\ Models.verification_status f = Models.UNVERIFIED
  /\ Models.corrected_value f = None.

End PipelineNotions.

Module Samples2.

(** A DocTR back end that finds nothing. *)
Definition doctr_blind : DocTR.Backend :=
  {| DocTR._load_model := Ok tt; DocTR.model := fun _ => Ok [DocTR.PageDict []] |}.

Definition services_blind : Pipeline.Services :=
  {| Pipeline.download_file := Pipeline.download_file Fixtures.services;
     Pipeline.image_open := Pipeline.image_open Fixtures.services;
     Pipeline.layout_backends :=
       {| LayoutRegistry.yolo := Fixtures.yolo_backend;
          LayoutRegistry.doctr := doctr_blind;
          LayoutRegistry.surya := Fixtures.surya_layout_backend |};
     Pipeline.ocr_backends := Fixtures.ocr_backends |}.

Definition two_fields : Models.SyntheticDocument :=
  {| Models.id := "doc-9"; Models.storage_path := "nine.png";
     Models.field_values := [("case_number", "2024-CV-001234"); ("state", "TX")];
     Models.is_skewed := false |}.

End Samples2.

Module BatchNotions.

(** The batches a run finds, in the order of its batch ids; an id without
    a batch is skipped. *)
Definition found_batches (w : Firestore.World) (batch_ids : list string)
  : list Models.BatchInDB :=
  omap (Firestore.get_batch_by_id w) batch_ids.

(** How a batch's documents are processed. *)
Definition run_document (S : Pipeline.Services) (layout_library ocr_library : string)
    (batch : Models.BatchInDB) (d : Models.SyntheticDocument)
  : Pipeline.Traced Models.DocResults :=
  Pipeline.process_one S (String.eqb (Models.batch_type batch) "handwritten")
    layout_library ocr_library d.

(** Every document of the batch is processed without an exception. *)
Definition batch_succeeds (S : Pipeline.Services) (layout_library ocr_library : string)
    (batch : Models.BatchInDB) : Prop :=
  Forall (fun d => exists r,
            Pipeline.outcome (run_document S layout_library ocr_library batch d) = Ok r)
    (Models.documents batch).

(** The service calls made for all the documents of a batch. *)
Definition batch_calls (S : Pipeline.Services) (layout_library ocr_library : string)
    (batch : Models.BatchInDB) : list Pipeline.Call :=
  concat (List.map
    (fun d => Pipeline.calls (run_document S layout_library ocr_library batch d))
    (Models.documents batch)).

(** A call of a layout detector. *)
Definition is_detect (c : Pipeline.Call) : bool :=
  match c with
  | Pipeline.CallDetect _ => true
  | _ => false
  end.

End BatchNotions.

Module Samples3.

(** Two batches of the store: one synthetic, one handwritten. *)
Definition good_batch : Models.BatchInDB :=
  {| Models.batch_id := "batch-2"; Models.batch_type := "synthetic";
     Models.documents := [Fixtures.doc1; Fixtures.doc3] |}.

Definition scans_batch : Models.BatchInDB :=
  {| Models.batch_id := "batch-3"; Models.batch_type := "handwritten";
     Models.documents := [Fixtures.scan_document] |}.

Definition state : Pipeline.State :=
  {| Pipeline.world :=
       {| Firestore.test_runs := {[ "run-2" := Fixtures.pending_run ]};
          Firestore.batches :=
            <[ "batch-3" := scans_batch ]> {[ "batch-2" := good_batch ]};
          Firestore.results := [] |};
     Pipeline.trace := [] |}.

End Samples3.

Module GeneratorNotions.

(** The pool of [FIELD_TYPE_DATA] for a field type. *)
Definition pool_of_type (t : SyntheticGenerator.FieldType) : list string :=
  match t with
  | SyntheticGenerator.NUMERIC_SHORT => SyntheticGenerator.numeric_short
  | SyntheticGenerator.TEXT_SHORT => SyntheticGenerator.text_short
  | SyntheticGenerator.SENTENCE => SyntheticGenerator.sentence
  | SyntheticGenerator.FULL_NAME => SyntheticGenerator.full_name
  | SyntheticGenerator.DAY_MONTH => SyntheticGenerator.day_month
  | SyntheticGenerator.TWO_DIGIT_YEAR => SyntheticGenerator.two_digit_year
  | SyntheticGenerator.FOUR_DIGIT_YEAR => SyntheticGenerator.four_digit_year
  end.

(** The values a mapping can be filled with: the options given for its
    name when there are some, the pool of its field type otherwise. *)
Definition candidate_values (field : SyntheticGenerator.FieldMapping)
    (field_value_options : option (list (string * list string))) : list string :=
  match field_value_options with
  | Some opts =>
      match dict_get opts (SyntheticGenerator.name field) with
      | Some (o :: os) => o :: os
      | _ => pool_of_type (SyntheticGenerator.field_type field)
      end
  | None => pool_of_type (SyntheticGenerator.field_type field)
  end.

(** A channel value of an 8-bit image. *)
Definition is_byte (v : Z) : Prop := 0 <= v <= 255.

Definition pixel_ok (p : Z * Z * Z) : Prop :=
  is_byte (fst (fst p)) /\ is_byte (snd (fst p)) /\ is_byte (snd p).

End GeneratorNotions.

(** ** The routes of [app/routers/tests.py] *)

Module TestsRoutes.

(** [fastapi.HTTPException] *)
Record HTTPException := mkHTTPException { status_code : Z; detail : string }.

(** A handler returns a value or raises an [HTTPException]. *)
Inductive response (A : Type) : Type :=
| Return (a : A)
| HTTPError (e : HTTPException).
Arguments Return {A} a.
Arguments HTTPError {A} e.

(** [TestStatus.value] *)
Definition status_value (s : Models.TestStatus) : string :=
  match s with
  | Models.PENDING => "pending"
  | Models.RUNNING => "running"
  | Models.COMPLETED => "completed"
  | Models.FAILED => "failed"
  end.

(** [RunTestsRequest] *)
Record RunTestsRequest := mkRunTestsRequest {
  batch_ids : list string;
  layout_library : string;
  ocr_library : string;
}.

(** What [create_test_run] is given, and returns as [TestRunInDB]. *)
Record TestRunInDB := mkTestRunInDB {
  id : string;
  run_batch_ids : list string;
  run_layout_library : string;
  run_ocr_library : string;
  started_by : string;
  started_by_name : string;
  total_documents : Z;
}.

(** The arguments of the task handed to [background_tasks.add_task]. *)
Record Task := mkTask {
  task_run_id : string;
  task_batch_ids : list string;
  task_layout_library : string;
  task_ocr_library : string;
}.

(** The first loop of [run_tests]:
    [(has_handwritten, has_synthetic, total_documents)], or 404 at the first
    batch id without a batch. *)
Fixpoint scan_batches (w : Firestore.World) (batch_ids : list string)
    (has_handwritten has_synthetic : bool) (total_documents : Z)
  : response (bool * bool * Z) :=
  match batch_ids with
  | [] => Return (has_handwritten, has_synthetic, total_documents)
  | batch_id :: rest =>
      match Firestore.get_batch_by_id w batch_id with
      | None => HTTPError (mkHTTPException 404 ("Batch not found: " ++ batch_id))
      | Some batch =>
          let total_documents :=
            total_documents + Z.of_nat (length (Models.documents batch)) in
          if String.eqb (Models.batch_type batch) "handwritten"
          then scan_batches w rest true has_synthetic total_documents
          else scan_batches w rest has_handwritten true total_documents
      end
  end.

(** [FirestoreService.create_test_run] for the id [run_id] the call draws:
    the stored document starts pending, with no document processed. *)
Definition create_test_run (run_id : string) (batch_ids : list string)
    (layout_library ocr_library started_by : string) (total_documents : Z)
    (started_by_name : string) (w : Firestore.World) : TestRunInDB * Firestore.World :=
  ({| id := run_id; run_batch_ids := batch_ids;
      run_layout_library := layout_library; run_ocr_library := ocr_library;
      started_by := started_by; started_by_name := started_by_name;
      total_documents := total_documents |},
   {| Firestore.test_runs :=
        <[run_id := {| Models.status := Models.PENDING;
                       Models.processed_documents := 0;
                       Models.error_message := None;
                       Models.completed := false |}]> (Firestore.test_runs w);
      Firestore.batches := Firestore.batches w;
      Firestore.results := Firestore.results w |}).

(** [run_tests], given the e-mail address [get_user_by_id] finds for the
    current user and the id [create_test_run] draws: the response and the
    scheduled task, and the store afterwards. *)
Definition run_tests (user_email : option string) (run_id : string)
    (request : RunTestsRequest) (current_user_id : string) (w : Firestore.World)
  : response (TestRunInDB * Task) * Firestore.World :=
  match scan_batches w (batch_ids request) false false 0 with
  | HTTPError e => (HTTPError e, w)
  | Return (has_handwritten, has_synthetic, total_documents) =>
      if has_synthetic
         && negb (RegistryNames.name_in (layout_library request)
                    RegistryNames.list_layout_detectors)
      then (HTTPError (mkHTTPException 400
              "Invalid layout library. Available: ['doclayout_yolo', 'doctr', 'surya']"), w)
      else if negb (RegistryNames.name_in (ocr_library request)
                      RegistryNames.list_ocr_engines)
      then (HTTPError (mkHTTPException 400
              "Invalid OCR library. Available: ['easyocr', 'surya', 'paddleocr', 'tesseract', 'trocr', 'got_ocr', 'mineru']"), w)
      else if total_documents =? 0
      then (HTTPError (mkHTTPException 400 "Selected batches contain no documents"), w)
      else
        let layout :=
          if negb (truthy_str (layout_library request))
             && has_handwritten && negb has_synthetic
          then "none" else layout_library request in
        let started_by_name := default "" user_email in
        let '(test_run, w) :=
          create_test_run run_id (batch_ids request) layout (ocr_library request)
            current_user_id total_documents started_by_name w in
        (Return (test_run,
                 {| task_run_id := id test_run;
                    task_batch_ids := batch_ids request;
                    task_layout_library := layout;
                    task_ocr_library := ocr_library request |}), w)
  end.

(** [FirestoreService.get_test_run_by_id] *)
Definition get_test_run_by_id (w : Firestore.World) (run_id : string)
  : option Models.TestRun :=
  Firestore.test_runs w !! run_id.

(** [cancel_test_run] *)
Definition cancel_test_run (test_run_id : string) (w : Firestore.World)
  : response (string * string) * Firestore.World :=
  match get_test_run_by_id w test_run_id with
  | None => (HTTPError (mkHTTPException 404 "Test run not found"), w)
  | Some test_run =>
      match Models.status test_run with
      | Models.RUNNING | Models.PENDING =>
          let '(_, w) :=
            Firestore.update_test_run_status test_run_id Models.FAILED None
              (Some "Cancelled by user") w in
          (Return ("Test run cancelled", test_run_id), w)
      | s =>
          (HTTPError (mkHTTPException 400
             ("Test run is already " ++ status_value s)), w)
      end
  end.

End TestsRoutes.

Module RouteNotions.

(** Some batch of the list is not a handwritten one. *)
Definition has_synthetic (batches : list Models.BatchInDB) : bool :=
  existsb (fun b => negb (String.eqb (Models.batch_type b) "handwritten")) batches.

(** Some batch of the list is a handwritten one. *)
Definition has_handwritten (batches : list Models.BatchInDB) : bool :=
  existsb (fun b => String.eqb (Models.batch_type b) "handwritten") batches.

(** The number of documents of the batches. *)
Definition count_documents (batches : list Models.BatchInDB) : Z :=
  Z.of_nat (length (concat (List.map Models.documents batches))).

(** The request names batches of the store only, its libraries are listed
    where they are needed, and its batches hold a document. *)
Definition valid_request (w : Firestore.World) (request : TestsRoutes.RunTestsRequest)
  : Prop :=
  let found := BatchNotions.found_batches w (TestsRoutes.batch_ids request) in
  Forall (fun b => is_Some (Firestore.get_batch_by_id w b))
    (TestsRoutes.batch_ids request)
  /\ (has_synthetic found = true ->
      RegistryNames.name_in (TestsRoutes.layout_library request)
        RegistryNames.list_layout_detectors = true)
  /\ RegistryNames.name_in (TestsRoutes.ocr_library request)
       RegistryNames.list_ocr_engines = true
  /\ count_documents found <> 0.

(** The layout library a run over the batches is created with. *)
Definition stored_layout_library (request : TestsRoutes.RunTestsRequest)
    (batches : list Models.BatchInDB) : string :=
  if negb (truthy_str (TestsRoutes.layout_library request)) && negb (has_synthetic batches)
  then "none" else TestsRoutes.layout_library request.

(** The run's status document is still there, with the error message it had. *)
Definition keeps_message (run_id : string) (w w' : Firestore.World) : Prop :=
  forall tr0, Firestore.test_runs w !! run_id = Some tr0 ->
  exists tr, Firestore.test_runs w' !! run_id = Some tr
             /\ Models.error_message tr = Models.error_message tr0.

End RouteNotions.

Module Samples4.

Definition request : TestsRoutes.RunTestsRequest :=
  {| TestsRoutes.batch_ids := ["batch-2"; "batch-3"];
     TestsRoutes.layout_library := "doctr";
     TestsRoutes.ocr_library := "easyocr" |}.

Definition world : Firestore.World := Pipeline.world Samples3.state.

End Samples4.

(** ** The verification routes ([app/routers/verification.py]) *)

Module Verification.

Import TestsRoutes.

(** An entry of [ocr_results["text_regions"]]. The full-text mode writes
    the keys [text] and [confidence]; [verify_document] sets the keys
    [is_important], [verification_status] and [corrected_value] together
    ([review]), and writes [user_added], as [True], in the entries it
    appends only. *)
Record TextRegion := mkTextRegion {
  text : string;
  confidence : Q;
  review : option (bool * Models.VerificationStatus * option string);
  user_added : bool;
}.

(** [ocr_results] of a stored result: the three keys of [to_dict], which
    every result has, and the two keys of the full-text mode. *)
Record OCRResults := mkOCRResults {
  library : string;
  num_regions : Z;
  regions : list OCR.OCRResult;
  full_text : option string;
  text_regions : option (list TextRegion);
}.

(** [result.ResultInDB], the fields the verification routes read or write. *)
Record ResultInDB := mkResultInDB {
  id : string;
  test_run_id : string;
  document_id : string;
  batch_id : string;
  ocr_results : OCRResults;
  extracted_fields : list Models.ExtractedField;
  overall_accuracy : Q;
  verified_accuracy : option Q;
  verified_by : option string;
  verified_by_name : option string;
}.

(** The collections the routes touch; [results] in the order a query
    streams them. *)
Record Store := mkStore {
  test_runs : gmap string Models.TestRun;
  results : list ResultInDB;
}.

(** [VerifyFieldRequest] *)
Record VerifyFieldRequest := mkVerifyFieldRequest {
  vf_field_name : string;
  vf_verification_status : Models.VerificationStatus;
  vf_corrected_value : option string;
  vf_is_important : bool;
}.

(** [TextRegionVerification] *)
Record TextRegionVerification := mkTextRegionVerification {
  region_index : Z;
  tr_text : string;
  tr_is_important : bool;
  tr_verification_status : Models.VerificationStatus;
  tr_corrected_value : option string;
}.

(** [VerifyDocumentRequest]; of a dict of [added_regions] the value of
    its key [text], if it has the key. *)
Record VerifyDocumentRequest := mkVerifyDocumentRequest {
  fields : list VerifyFieldRequest;
  request_text_regions : option (list TextRegionVerification);
  added_regions : option (list (option string));
}.

(** The dict [verify_document] returns. *)
Record VerifyResponse := mkVerifyResponse {
  message : string;
  response_verified_accuracy : Q;
  fields_verified : option Z;
  regions_verified : option Z;
  regions_added : option Z;
}.

(** An entry of [documents] in the listing. *)
Record DocumentEntry := mkDocumentEntry {
  entry_result_id : string;
  entry_document_id : string;
  entry_batch_id : string;
  entry_overall_accuracy : Q;
  entry_verified_accuracy : option Q;
  entry_verification_status : string;
  entry_is_handwritten : bool;
}.

(** The dict [list_documents_for_verification] returns, without the
    library names of the run. *)
Record Listing := mkListing {
  listing_test_run_id : string;
  documents : list DocumentEntry;
  listing_total : Z;
  listing_verified : Z;
}.

(** The dict [get_verification_summary] returns. *)
Record Summary := mkSummary {
  summary_test_run_id : string;
  total : Z;
  verified : Z;
  corrected : Z;
  unverified : Z;
  progress_percent : Q;
}.

(** Truthiness of an [Optional[str]]. *)
Definition truthy_opt (o : option string) : bool :=
  match o with
  | Some s => truthy_str s
  | None => false
  end.

Definition status_eqb (a b : Models.VerificationStatus) : bool :=
  match a, b with
  | Models.UNVERIFIED, Models.UNVERIFIED
  | Models.VERIFIED, Models.VERIFIED
  | Models.CORRECTED, Models.CORRECTED => true
  | _, _ => false
  end.

(** [r.get("verification_status") == status.value] *)
Definition region_status_is (status : Models.VerificationStatus) (r : TextRegion) : bool :=
  match review r with
  | Some (_, s, _) => status_eqb s status
  | None => false
  end.

(** Truthiness of [r.get("is_important")] *)
Definition region_is_important (r : TextRegion) : bool :=
  match review r with
  | Some (important, _, _) => important
  | None => false
  end.

(** [FirestoreService.get_results_by_test_run] *)
Definition get_results_by_test_run (st : Store) (test_run_id' : string)
  : list ResultInDB :=
  List.filter (fun r => String.eqb (test_run_id r) test_run_id') (results st).

(** [FirestoreService.get_result_by_document] *)
Definition get_result_by_document (st : Store) (test_run_id' document_id' : string)
  : option ResultInDB :=
  List.find (fun r => String.eqb (test_run_id r) test_run_id'
                      && String.eqb (document_id r) document_id') (results st).

(** [not result.extracted_fields and result.ocr_results and
    result.ocr_results.get("full_text") is not None]; the dict
    [ocr_results] of a result is never empty. *)
Definition is_handwritten (result : ResultInDB) : bool :=
  negb (truthy_list (extracted_fields result))
  && bool_decide (is_Some (full_text (ocr_results result))).

(** The status of a handwritten result, in both routes. *)
Definition handwritten_status (result : ResultInDB) : string :=
  if truthy_opt (verified_by result) then
    let text_regions := default [] (text_regions (ocr_results result)) in
    let has_corrections := existsb (region_status_is Models.CORRECTED) text_regions in
    let has_added := existsb user_added text_regions in
    if has_corrections || has_added then "corrected" else "verified"
  else "unverified".

(** The status of a result with extracted fields, in both routes. *)
Definition fields_status (result : ResultInDB) : string :=
  if forallb (fun ef => negb (status_eqb (Models.verification_status ef)
                                Models.UNVERIFIED))
       (extracted_fields result)
  then
    let has_corrections :=
      existsb (fun ef => status_eqb (Models.verification_status ef) Models.CORRECTED)
        (extracted_fields result) in
    if has_corrections then "corrected" else "verified"
  else "unverified".

(** [doc_status] in [list_documents_for_verification] *)
Definition doc_status (result : ResultInDB) : string :=
  if is_handwritten result then handwritten_status result
  else if negb (truthy_list (extracted_fields result)) then "unverified"
  else fields_status result.

Definition list_documents_for_verification (test_run_id' : string) (st : Store)
  : response Listing :=
  match test_runs st !! test_run_id' with
  | None => HTTPError (mkHTTPException 404 "Test run not found")
  | Some test_run =>
      let results := get_results_by_test_run st test_run_id' in
      let documents :=
        List.map (fun result =>
          {| entry_result_id := id result;
             entry_document_id := document_id result;
             entry_batch_id := batch_id result;
             entry_overall_accuracy := overall_accuracy result;
             entry_verified_accuracy := verified_accuracy result;
             entry_verification_status := doc_status result;
             entry_is_handwritten := is_handwritten result |}) results in
      Return
        {| listing_test_run_id := test_run_id';
           documents := documents;
           listing_total := Z.of_nat (length documents);
           listing_verified :=
             Z.of_nat (length (List.filter
               (fun d => negb (String.eqb (entry_verification_status d) "unverified"))
               documents)) |}
  end.

(** The body of the loop of [get_verification_summary], on the counters
    [(verified, corrected, unverified)]. *)
Definition summary_step (counters : Z * Z * Z) (result : ResultInDB) : Z * Z * Z :=
  let '(verified, corrected, unverified) := counters in
  if is_handwritten result then
    if truthy_opt (verified_by result) then
      let text_regions := default [] (text_regions (ocr_results result)) in
      let has_corrections := existsb (region_status_is Models.CORRECTED) text_regions in
      let has_added := existsb user_added text_regions in
      if has_corrections || has_added
      then (verified, corrected + 1, unverified)
      else (verified + 1, corrected, unverified)
    else (verified, corrected, unverified + 1)
  else if negb (truthy_list (extracted_fields result)) then
    if truthy_opt (verified_by result)
    then (verified + 1, corrected, unverified)
    else (verified, corrected, unverified + 1)
  else
    let all_done :=
      forallb (fun ef => negb (status_eqb (Models.verification_status ef)
                                 Models.UNVERIFIED))
        (extracted_fields result) in
    if all_done then
      let has_corrections :=
        existsb (fun ef => status_eqb (Models.verification_status ef) Models.CORRECTED)
          (extracted_fields result) in
      if has_corrections
      then (verified, corrected + 1, unverified)
      else (verified + 1, corrected, unverified)
    else (verified, corrected, unverified + 1).

Definition get_verification_summary (test_run_id' : string) (st : Store)
  : response Summary :=
  match test_runs st !! test_run_id' with
  | None => HTTPError (mkHTTPException 404 "Test run not found")
  | Some test_run =>
      let results := get_results_by_test_run st test_run_id' in
      let total := Z.of_nat (length results) in
      let '(verified, corrected, unverified) :=
        fold_left summary_step results (0, 0, 0) in
      Return
        {| summary_test_run_id := test_run_id';
           total := total;
           verified := verified;
           corrected := corrected;
           unverified := unverified;
           progress_percent :=
             if total >? 0
             then (inject_Z (verified + corrected) / inject_Z total * 100)%Q
             else 0%Q |}
  end.

(** [doc_ref.update(...)] on the result [result_id]: [False] when there is
    no such document. *)
Definition update_result (result_id : string) (f : ResultInDB -> ResultInDB)
    (st : Store) : bool * Store :=
  if existsb (fun r => String.eqb (id r) result_id) (results st)
  then (true,
        {| test_runs := test_runs st;
           results := List.map (fun r => if String.eqb (id r) result_id then f r else r)
                        (results st) |})
  else (false, st).

(** [FirestoreService.update_result_verification] *)
Definition update_result_verification (result_id : string)
    (extracted_fields' : list Models.ExtractedField) (verified_accuracy' : Q)
    (verified_by' verified_by_name' : string) : Store -> bool * Store :=
  update_result result_id (fun r =>
    {| id := id r; test_run_id := test_run_id r; document_id := document_id r;
       batch_id := batch_id r; ocr_results := ocr_results r;
       extracted_fields := extracted_fields';
       overall_accuracy := overall_accuracy r;
       verified_accuracy := Some verified_accuracy';
       verified_by := Some verified_by';
       verified_by_name := Some verified_by_name' |}).

(** [FirestoreService.update_result_verification_handwritten] *)
Definition update_result_verification_handwritten (result_id : string)
    (ocr_results' : OCRResults) (verified_accuracy' : Q)
    (verified_by' verified_by_name' : string) : Store -> bool * Store :=
  update_result result_id (fun r =>
    {| id := id r; test_run_id := test_run_id r; document_id := document_id r;
       batch_id := batch_id r; ocr_results := ocr_results';
       extracted_fields := extracted_fields r;
       overall_accuracy := overall_accuracy r;
       verified_accuracy := Some verified_accuracy';
       verified_by := Some verified_by';
       verified_by_name := Some verified_by_name' |}).

(** The body of [for tr in request.text_regions]. *)
Definition update_region (existing_regions : list TextRegion)
    (tr : TextRegionVerification) : list TextRegion :=
  if (0 <=? region_index tr)
     && (region_index tr <? Z.of_nat (length existing_regions))
  then alter (fun r =>
                {| text := text r; confidence := confidence r;
                   review := Some (tr_is_important tr, tr_verification_status tr,
                                   tr_corrected_value tr);
                   user_added := user_added r |})
         (Z.to_nat (region_index tr)) existing_regions
  else existing_regions.

(** The dict appended for an entry of [request.added_regions]. *)
Definition added_region (added : option string) : TextRegion :=
  {| text := default "" added; confidence := 1%Q;
     review := Some (true, Models.VERIFIED, None);
     user_added := true |}.

(** The regions the handwritten path stores. *)
Definition verified_regions (request_regions : list TextRegionVerification)
    (added : option (list (option string))) (existing_regions : list TextRegion)
  : list TextRegion :=
  let existing_regions := fold_left update_region request_regions existing_regions in
  match added with
  | Some (a :: l) => (existing_regions ++ List.map added_region (a :: l))%list
  | _ => existing_regions
  end.

(** The verified accuracy of the handwritten path. *)
Definition regions_accuracy (existing_regions : list TextRegion) : Q :=
  let important_regions := List.filter region_is_important existing_regions in
  if truthy_list important_regions then
    let correct_count :=
      length (List.filter (region_status_is Models.VERIFIED) important_regions) in
    (inject_Z (Z.of_nat correct_count) / Py.len important_regions)%Q
  else 0%Q.

(** The fields the synthetic path stores. *)
Definition updated_fields (request_fields : list VerifyFieldRequest)
    (extracted_fields : list Models.ExtractedField) : list Models.ExtractedField :=
  List.map (fun existing_field =>
    match List.find (fun vf => String.eqb (vf_field_name vf)
                                 (Models.field_name existing_field))
            request_fields with
    | Some verification =>
        {| Models.field_name := Models.field_name existing_field;
           Models.expected_value := Models.expected_value existing_field;
           Models.extracted_value := Models.extracted_value existing_field;
           Models.confidence := Models.confidence existing_field;
           Models.match_score := Models.match_score existing_field;
           Models.is_important := vf_is_important verification;
           Models.verification_status := vf_verification_status verification;
           Models.corrected_value := vf_corrected_value verification |}
    | None => existing_field
    end) extracted_fields.

(** The verified accuracy of the synthetic path. *)
Definition fields_accuracy (updated_fields : list Models.ExtractedField) : Q :=
  let important_fields := List.filter Models.is_important updated_fields in
  let important_fields :=
    if negb (truthy_list important_fields) then updated_fields else important_fields in
  if truthy_list important_fields then
    let correct_count :=
      length (List.filter
        (fun f => status_eqb (Models.verification_status f) Models.VERIFIED)
        important_fields) in
    (inject_Z (Z.of_nat correct_count) / Py.len important_fields)%Q
  else 0%Q.

(** [verify_document], given the e-mail address [get_user_by_id] finds for
    the current user. *)
Definition verify_document (user_email : option string)
    (test_run_id' document_id' : string) (request : VerifyDocumentRequest)
    (current_user_id : string) (st : Store) : response VerifyResponse * Store :=
  let verified_by_name := default "" user_email in
  match get_result_by_document st test_run_id' document_id' with
  | None => (HTTPError (mkHTTPException 404 "Result not found"), st)
  | Some result =>
      match request_text_regions request with
      | Some request_regions =>
          let existing_regions :=
            verified_regions request_regions (added_regions request)
              (default [] (text_regions (ocr_results result))) in
          let ocr_results :=
            {| library := library (ocr_results result);
               num_regions := num_regions (ocr_results result);
               regions := regions (ocr_results result);
               full_text := full_text (ocr_results result);
               text_regions := Some existing_regions |} in
          let verified_accuracy := regions_accuracy existing_regions in
          let '(success, st) :=
            update_result_verification_handwritten (id result) ocr_results
              verified_accuracy current_user_id verified_by_name st in
          if negb success
          then (HTTPError (mkHTTPException 500 "Failed to update verification"), st)
          else
            (Return
               {| message := "Verification submitted successfully";
                  response_verified_accuracy := verified_accuracy;
                  fields_verified := None;
                  regions_verified := Some (Z.of_nat (length request_regions));
                  regions_added :=
                    Some (match added_regions request with
                          | Some (a :: l) => Z.of_nat (length (a :: l))
                          | _ => 0
                          end) |}, st)
      | None =>
          let updated_fields := updated_fields (fields request) (extracted_fields result) in
          let verified_accuracy := fields_accuracy updated_fields in
          let '(success, st) :=
            update_result_verification (id result) updated_fields verified_accuracy
              current_user_id verified_by_name st in
          if negb success
          then (HTTPError (mkHTTPException 500 "Failed to update verification"), st)
          else
            (Return
               {| message := "Verification submitted successfully";
                  response_verified_accuracy := verified_accuracy;
                  fields_verified := Some (Z.of_nat (length (fields request)));
                  regions_verified := None;
                  regions_added := None |}, st)
      end
  end.

(** The result [create_result] stores for what the pipeline returns, under
    the id it draws. *)
Definition created_result (result_id : string) (r : Models.ResultInDB) : ResultInDB :=
  let stored := Models.stored r in
  {| id := result_id;
     test_run_id := Models.test_run_id r;
     document_id := Models.document_id r;
     batch_id := Models.result_batch_id r;
     ocr_results :=
       {| library := OCR.library (Models.ocr_results stored);
          num_regions := OCR.num_regions (Models.ocr_results stored);
          regions := OCR.regions (Models.ocr_results stored);
          full_text := OCR.dict_full_text (Models.ocr_results stored);
          text_regions :=
            option_map
              (List.map (fun tc => {| text := fst tc; confidence := snd tc;
                                      review := None; user_added := false |}))
              (OCR.text_regions (Models.ocr_results stored)) |};
     extracted_fields := Models.extracted_fields stored;
     overall_accuracy := Models.overall_accuracy stored;
     verified_accuracy := None;
     verified_by := None;
     verified_by_name := None |}.

End Verification.

Module VerificationNotions.

(** A result that is not a handwritten one, has no extracted field and
    has been verified. *)
Definition fieldless_verified (r : Verification.ResultInDB) : bool :=
  negb (Verification.is_handwritten r)
  && negb (truthy_list (Verification.extracted_fields r))
  && Verification.truthy_opt (Verification.verified_by r).

(** What verification may not change in an extracted field. *)
Definition ocr_output (f : Models.ExtractedField) : string * string * string * Q * Q :=
  (Models.field_name f, Models.expected_value f, Models.extracted_value f,
   Models.confidence f, Models.match_score f).

(** What verification may not change in a text region. *)
Definition region_output (r : Verification.TextRegion) : string * Q * bool :=
  (Verification.text r, Verification.confidence r, Verification.user_added r).

(** The region once the entry of a request has been applied to it. *)
Definition reviewed (r : Verification.TextRegion)
    (tr : Verification.TextRegionVerification) : Verification.TextRegion :=
  {| Verification.text := Verification.text r;
     Verification.confidence := Verification.confidence r;
     Verification.review :=
       Some (Verification.tr_is_important tr, Verification.tr_verification_status tr,
             Verification.tr_corrected_value tr);
     Verification.user_added := Verification.user_added r |}.

(** The last entry of the request for the region at index [i]. *)
Definition last_entry_for (request_regions : list Verification.TextRegionVerification)
    (i : nat) : option Verification.TextRegionVerification :=
  List.find (fun tr => Verification.region_index tr =? Z.of_nat i)
    (rev request_regions).

(** The entries the handwritten path appends. *)
Definition appended (request : Verification.VerifyDocumentRequest)
  : list Verification.TextRegion :=
  List.map Verification.added_region (default [] (Verification.added_regions request)).

End VerificationNotions.

Module VerificationSamples.

Definition field (name extracted : string) (score : Q) : Models.ExtractedField :=
  {| Models.field_name := name; Models.expected_value := "John Smith";
     Models.extracted_value := extracted; Models.confidence := 0.9%Q;
     Models.match_score := score; Models.is_important := true;
     Models.verification_status := Models.UNVERIFIED;
     Models.corrected_value := None |}.

Definition region (text : string) : Verification.TextRegion :=
  {| Verification.text := text; Verification.confidence := 0.8%Q;
     Verification.review := None; Verification.user_added := false |}.

(** A result of the field-mapped mode with two fields. *)
Definition synthetic_result : Verification.ResultInDB :=
  {| Verification.id := "result-1"; Verification.test_run_id := "run-1";
     Verification.document_id := "doc-1"; Verification.batch_id := "batch-1";
     Verification.ocr_results :=
       {| Verification.library := "easyocr"; Verification.num_regions := 0;
          Verification.regions := []; Verification.full_text := None;
          Verification.text_regions := None |};
     Verification.extracted_fields :=
       [field "defendant_name" "John Smith" 1%Q; field "case_number" "2O24-CV" 0.5%Q];
     Verification.overall_accuracy := 0.75%Q;
     Verification.verified_accuracy := None;
     Verification.verified_by := None;
     Verification.verified_by_name := None |}.

(** A result of the full-text mode with two text regions. *)
Definition handwritten_result : Verification.ResultInDB :=
  {| Verification.id := "result-2"; Verification.test_run_id := "run-1";
     Verification.document_id := "scan-1"; Verification.batch_id := "batch-3";
     Verification.ocr_results :=
       {| Verification.library := "easyocr"; Verification.num_regions := 1;
          Verification.regions := []; Verification.full_text := Some "Dear Judge";
          Verification.text_regions := Some [region "Dear"; region "Judge"] |};
     Verification.extracted_fields := [];
     Verification.overall_accuracy := 0%Q;
     Verification.verified_accuracy := None;
     Verification.verified_by := None;
     Verification.verified_by_name := None |}.

(** A result of the field-mapped mode for a form without field mappings,
    once verified. *)
Definition fieldless_result : Verification.ResultInDB :=
  {| Verification.id := "result-3"; Verification.test_run_id := "run-1";
     Verification.document_id := "doc-9"; Verification.batch_id := "batch-1";
     Verification.ocr_results :=
       {| Verification.library := "easyocr"; Verification.num_regions := 0;
          Verification.regions := []; Verification.full_text := None;
          Verification.text_regions := None |};
     Verification.extracted_fields := [];
     Verification.overall_accuracy := 0%Q;
     Verification.verified_accuracy := Some 0%Q;
     Verification.verified_by := Some "user-1";
     Verification.verified_by_name := Some "clerk@court.example" |}.

Definition store : Verification.Store :=
  {| Verification.test_runs := {[ "run-1" := Fixtures.pending_run ]};
     Verification.results := [synthetic_result; handwritten_result; fieldless_result] |}.

(** The first field confirmed, the second corrected; the last entry names
    the first field again. *)
Definition fields_request : Verification.VerifyDocumentRequest :=
  {| Verification.fields :=
       [ {| Verification.vf_field_name := "defendant_name";
            Verification.vf_verification_status := Models.VERIFIED;
            Verification.vf_corrected_value := None;
            Verification.vf_is_important := true |};
         {| Verification.vf_field_name := "case_number";
            Verification.vf_verification_status := Models.CORRECTED;
            Verification.vf_corrected_value := Some "2024-CV";
            Verification.vf_is_important := true |};
         {| Verification.vf_field_name := "defendant_name";
            Verification.vf_verification_status := Models.CORRECTED;
            Verification.vf_corrected_value := Some "Jon Smith";
            Verification.vf_is_important := false |} ];
     Verification.request_text_regions := None;
     Verification.added_regions := None |}.

(** The second region confirmed, an index out of range, one region added. *)
Definition regions_request : Verification.VerifyDocumentRequest :=
  {| Verification.fields := [];
     Verification.request_text_regions :=
       Some [ {| Verification.region_index := 1; Verification.tr_text := "Judge";
                 Verification.tr_is_important := true;
                 Verification.tr_verification_status := Models.VERIFIED;
                 Verification.tr_corrected_value := None |};
              {| Verification.region_index := 5; Verification.tr_text := "";
                 Verification.tr_is_important := true;
                 Verification.tr_verification_status := Models.CORRECTED;
                 Verification.tr_corrected_value := Some "x" |} ];
     Verification.added_regions := Some [Some "Sincerely"] |}.

End VerificationSamples.

(** * Properties *)

(** ** Document accuracy *)

Lemma len_map {A B} (f : A -> B) (l : list A) : Py.len (List.map f l) = Py.len l.
Proof. unfold Py.len. now rewrite length_map. Qed.

(** C4: document-level accuracy is the mean match score over the fields
    flagged important; when no field is flagged important it is the mean over
    all fields; for an empty list it is 0.0. *)
Theorem calculate_accuracy_is_spec_accuracy (extracted_fields : list Models.ExtractedField) :
  Pipeline._calculate_accuracy extracted_fields = Spec.accuracy extracted_fields.
Proof.
  unfold Pipeline._calculate_accuracy, Spec.accuracy, Spec.mean.
  destruct extracted_fields as [|f fs]; [reflexivity|].
  cbn [truthy_list negb].
  destruct (List.filter Models.is_important (f :: fs)) as [|g gs] eqn:E;
    cbn [truthy_list negb]; cbv zeta; now rewrite len_map.
Qed.

Example accuracy_important_only :
  let f (s : Q) (imp : bool) :=
    Models.mkExtractedField "f" "v" "v" 1 s imp Models.UNVERIFIED None in
  (Pipeline._calculate_accuracy [f 1 true; f (1 # 2) true; f 0 false] == 3 # 4
   /\ Pipeline._calculate_accuracy [f 1 false; f (1 # 2) false] == 3 # 4)%Q
  /\ Pipeline._calculate_accuracy [] = 0%Q.
Proof. repeat split; reflexivity. Qed.

(** ** Field matching *)

Section Matching.

Import Spec.

Lemma gt_true (a b : Q) : gt a b = true <-> (b < a)%Q.
Proof.
  unfold gt. rewrite negb_true_iff. split.
  - intros H. apply Qnot_le_lt. intros Hle. apply Qle_bool_iff in Hle. congruence.
  - intros H. destruct (Qle_bool a b) eqn:E; [|reflexivity].
    apply Qle_bool_iff in E. exfalso. eapply Qlt_not_le; eauto.
Qed.

Lemma gt_false (a b : Q) : gt a b = false <-> (a <= b)%Q.
Proof.
  unfold gt. rewrite negb_false_iff. apply Qle_bool_iff.
Qed.

Lemma line_step_pick (expected_value : string) (best : Pipeline.Best) (line : OCR.TextLine) :
  Pipeline.line_step expected_value best line
  = pick best (line_candidate expected_value line).
Proof. reflexivity. Qed.

Lemma lines_fold_pick (expected_value : string) (ls : list OCR.TextLine) :
  forall best,
    fold_left (Pipeline.line_step expected_value) ls best
    = fold_left pick (List.map (line_candidate expected_value) ls) best.
Proof.
  induction ls as [|l ls IH]; intros best; [reflexivity|].
  cbn [fold_left List.map]. rewrite line_step_pick. apply IH.
Qed.

Lemma result_step_pick (expected_value : string) (best : Pipeline.Best) (r : OCR.OCRResult) :
  Pipeline.result_step expected_value best r
  = fold_left pick
      (List.map (line_candidate expected_value) (OCR.lines r)
       ++ [full_text_candidate expected_value r])%list best.
Proof.
  unfold Pipeline.result_step. rewrite fold_left_app, <- lines_fold_pick.
  reflexivity.
Qed.

(** The two nested loops are one pass over the enumeration of candidates. *)
Lemma results_fold_pick (expected_value : string) (rs : list OCR.OCRResult) :
  forall best,
    fold_left (Pipeline.result_step expected_value) rs best
    = fold_left pick (candidates expected_value rs) best.
Proof.
  unfold candidates.
  induction rs as [|r rs IH]; intros best; [reflexivity|].
  cbn [fold_left List.map concat]. rewrite fold_left_app, <- result_step_pick.
  apply IH.
Qed.

(** What a pass leaves: the starting values when no candidate beats them,
    and otherwise the first of the highest-scoring candidates. *)
Lemma fold_pick_spec (cs : list Candidate) :
  forall best,
    (fold_left pick cs best = best
     /\ Forall (fun c => (cand_score c <= Pipeline.best_score best)%Q) cs)
    \/ (exists i c,
          first_highest cs i c
          /\ (Pipeline.best_score best < cand_score c)%Q
          /\ fold_left pick cs best = best_of c).
Proof.
  induction cs as [|c cs IH]; intros best.
  - left. split; [reflexivity | constructor].
  - cbn [fold_left].
    destruct (gt (cand_score c) (Pipeline.best_score best)) eqn:G.
    + replace (pick best c) with (best_of c) by (unfold pick; now rewrite G).
      apply gt_true in G. right.
      destruct (IH (best_of c)) as [[Hb Hall] | (i & d & (Hi & Hle & Hlt) & Hs & Hb)].
      * exists 0%nat, c. repeat split.
        -- constructor; [apply Qle_refl | exact Hall].
        -- constructor.
        -- exact G.
        -- exact Hb.
      * cbn [best_of Pipeline.best_score] in Hs.
        exists (S i), d. repeat split.
        -- exact Hi.
        -- constructor; [apply Qlt_le_weak, Hs | exact Hle].
        -- cbn [take]. constructor; [exact Hs | exact Hlt].
        -- eapply Qlt_trans; eauto.
        -- exact Hb.
    + replace (pick best c) with best by (unfold pick; now rewrite G).
      apply gt_false in G.
      destruct (IH best) as [[Hb Hall] | (i & d & (Hi & Hle & Hlt) & Hs & Hb)].
      * left. split; [exact Hb | constructor; assumption].
      * right. exists (S i), d.
        assert (cand_score c < cand_score d)%Q by (eapply Qle_lt_trans; eauto).
        repeat split.
        -- exact Hi.
        -- constructor; [apply Qlt_le_weak; assumption | exact Hle].
        -- cbn [take]. constructor; assumption.
        -- exact Hs.
        -- exact Hb.
Qed.

End Matching.

(** C3 (as amended): for every expected field and every list of OCR results,
    the similarity of the lower-cased expected value to every line and to
    every full text is taken in the fixed region/line order; when some
    candidate scores above 0.0 the field carries the text, confidence and
    score of the highest-scoring candidate, the first one on ties; when none
    does, the field keeps the empty text, confidence 0.0 and score 0.0. *)
Theorem match_field_first_highest_positive
    (ocr_results : list OCR.OCRResult) (field_name expected_value : string) :
  let f := Pipeline.match_field ocr_results (field_name, expected_value) in
  let cs := Spec.candidates expected_value ocr_results in
  (Spec.unmatched f /\ Forall (fun c => (Spec.cand_score c <= 0)%Q) cs)
  \/ (exists i c,
        Spec.first_highest cs i c /\ (0 < Spec.cand_score c)%Q /\ Spec.bound_to f c).
Proof.
  intros f cs. subst f.
  unfold Pipeline.match_field. rewrite results_fold_pick. fold cs.
  destruct (fold_pick_spec cs Pipeline.initial_best)
    as [[Hb Hall] | (i & c & Hfh & Hs & Hb)]; rewrite Hb.
  - left. split; [repeat split | exact Hall].
  - right. exists i, c. repeat split; solve [apply Hfh | exact Hs].
Qed.

(** C3 (as stated) fails: a line sharing no character with the expected
    value is the first of the highest-scoring candidates, at score 0.0, and
    the field does not carry its text. *)
Lemma match_field_zero_score_counterexample :
  ~ (forall (ocr_results : list OCR.OCRResult) (item : string * string)
            (i : nat) (c : Spec.Candidate),
       Spec.first_highest (Spec.candidates (snd item) ocr_results) i c ->
       Spec.bound_to (Pipeline.match_field ocr_results item) c).
Proof.
  intros H.
  pose (line := OCR.mkTextLine "xyz" (9 # 10) (Layout.mkBBox 0 0 10 10)).
  specialize (H [OCR.mkOCRResult 1 "xyz" [line]] ("case_number", "abc") 0%nat
                (Spec.line_candidate "abc" line)).
  destruct H as [Hv _].
  - repeat split.
    + repeat constructor; vm_compute; discriminate.
    + constructor.
  - vm_compute in Hv. discriminate Hv.
Qed.

(** The scenario of the design document: the expected value is found
    verbatim on one line. *)
Example match_field_case_number :
  let line := OCR.mkTextLine "2024-CV-001234" (9 # 10) (Layout.mkBBox 10 10 200 30) in
  let f := Pipeline.match_field [OCR.mkOCRResult 1 "2024-CV-001234" [line]]
             ("case_number", "2024-CV-001234") in
  Models.extracted_value f = "2024-CV-001234"
  /\ Models.confidence f = (9 # 10)%Q
  /\ (Models.match_score f == 1)%Q.
Proof. vm_compute. repeat split. Qed.

(** On a tie the earlier candidate stays: the line, not the equal full text. *)
Example match_field_tie_keeps_first :
  let l1 := OCR.mkTextLine "Smith" (5 # 10) (Layout.mkBBox 0 0 1 1) in
  let l2 := OCR.mkTextLine "SMITH" (8 # 10) (Layout.mkBBox 0 0 1 1) in
  let f := Pipeline.match_field
             [OCR.mkOCRResult 1 "Smith" [l1]; OCR.mkOCRResult 2 "SMITH" [l2]]
             ("name", "smith") in
  Models.extracted_value f = "Smith" /\ Models.confidence f = (5 # 10)%Q.
Proof. vm_compute. repeat split. Qed.

(** ** Region ids *)

(** Inversion of [mret a = Ok b]. *)
Ltac ok_inv H := unfold mret, result_ret in H; injection H as H.

Section Sorting.
Context {A K : Type} (le : K -> K -> bool) (key : A -> K).

Lemma insert_by_perm (x : A) (l : list A) :
  Permutation (Sort.insert_by le key x l) (x :: l).
Proof.
  induction l as [|y ys IH]; cbn; [reflexivity|].
  destruct (le (key x) (key y)); [reflexivity|].
  rewrite IH. apply perm_swap.
Qed.

(** Sorting rearranges the list and nothing else. *)
Lemma sort_by_perm (l : list A) : Permutation (Sort.sort_by le key l) l.
Proof.
  induction l as [|x xs IH]; cbn; [reflexivity|].
  rewrite insert_by_perm. now constructor.
Qed.

Lemma sort_by_length (l : list A) : length (Sort.sort_by le key l) = length l.
Proof. apply Permutation_length, sort_by_perm. Qed.

End Sorting.

Lemma reassign_ids_from_length (rs : list Layout.Region) :
  forall i, length (Layout.reassign_ids_from i rs) = length rs.
Proof. induction rs as [|r rs IH]; intros i; cbn; [reflexivity | now rewrite IH]. Qed.

Lemma reassign_ids_from_ids (rs : list Layout.Region) :
  forall i,
    List.map Layout.id (Layout.reassign_ids_from i rs)
    = List.map (fun k => i + Z.of_nat k) (seq 1 (length rs)).
Proof.
  induction rs as [|r rs IH]; intros i; [reflexivity|].
  cbn [Layout.reassign_ids_from List.map length seq Layout.set_id Layout.id].
  f_equal.
  rewrite IH, <- (seq_shift (length rs) 1), List.map_map.
  apply List.map_ext. intros k. lia.
Qed.

(** Whatever the list, re-assignment leaves the ids 1..N. *)
Lemma reassign_ids_contiguous (rs : list Layout.Region) :
  Spec.contiguous_ids (Layout.reassign_ids rs).
Proof.
  unfold Spec.contiguous_ids, Layout.reassign_ids.
  rewrite reassign_ids_from_ids, reassign_ids_from_length.
  apply List.map_ext. intros k. lia.
Qed.

Lemma contiguous_ids_NoDup (rs : list Layout.Region) :
  Spec.contiguous_ids rs -> NoDup (List.map Layout.id rs).
Proof.
  unfold Spec.contiguous_ids. intros ->.
  apply NoDup_fmap_2; [intros a b; lia | apply NoDup_seq].
Qed.

Lemma yolo_collect_length (results : list DocLayoutYOLO.Result) :
  length (DocLayoutYOLO.collect results)
  = length (concat (List.map DocLayoutYOLO.boxes results)).
Proof.
  unfold DocLayoutYOLO.collect.
  induction results as [|r rs IH]; [reflexivity|].
  cbn [List.map concat]. rewrite !length_app, length_imap. now rewrite IH.
Qed.

(** C8: for every image and every layout detector, when the detector's back
    end reports N detections (N >= 0), detect returns N regions whose ids
    are 1..N in list order, without duplicates. *)
Theorem detect_ids_contiguous
    (B : LayoutRegistry.Backends) (d : LayoutRegistry.Detector)
    (image : PIL.Image) (n : nat) :
  Spec.detections B d image = Ok n ->
  exists regions,
    LayoutRegistry.detect B d image = Ok regions
    /\ length regions = n
    /\ List.map Layout.id regions = List.map Z.of_nat (seq 1 n)
    /\ NoDup (List.map Layout.id regions).
Proof.
  intros H.
  assert (G : exists raw,
             LayoutRegistry.detect B d image = Ok (Layout.reassign_ids raw)
             /\ length raw = n).
  { destruct d; cbn in H |- *.
    - unfold DocLayoutYOLO.detect.
      destruct (DocLayoutYOLO._load_model _); cbn in H |- *; [|discriminate].
      destruct (DocLayoutYOLO.predict _ _) as [results|]; cbn in H |- *; [|discriminate].
      eexists. split; [reflexivity|].
      unfold Sort.sort_by_reverse. rewrite sort_by_length, yolo_collect_length.
      ok_inv H. exact H.
    - unfold DocTR.detect.
      destruct (DocTR._load_model _); cbn in H |- *; [|discriminate].
      destruct (DocTR.model _ _) as [pages|]; cbn in H |- *; [|discriminate].
      eexists. split; [reflexivity|].
      rewrite sort_by_length. unfold DocTR.collect.
      destruct pages as [|[rows|rows] ?]; cbn in H |- *;
        rewrite ?length_imap; ok_inv H; exact H.
    - unfold SuryaLayout.detect.
      destruct (SuryaLayout._load_model _); cbn in H |- *; [|discriminate].
      destruct (SuryaLayout.predictor _ _) as [pages|]; cbn in H |- *; [|discriminate].
      eexists. split; [reflexivity|].
      rewrite sort_by_length. unfold SuryaLayout.collect.
      destruct pages as [|page ?]; cbn in H |- *;
        rewrite ?length_imap; ok_inv H; exact H. }
  destruct G as (raw & Hd & Hn).
  exists (Layout.reassign_ids raw).
  pose proof (reassign_ids_contiguous raw) as Hc.
  assert (Hl : length (Layout.reassign_ids raw) = n)
    by (unfold Layout.reassign_ids; now rewrite reassign_ids_from_length).
  repeat split.
  - exact Hd.
  - exact Hl.
  - unfold Spec.contiguous_ids in Hc. now rewrite Hl in Hc.
  - now apply contiguous_ids_NoDup.
Qed.

(** The YOLO back end of the examples reports three boxes in two results. *)
Lemma detect_ids_contiguous_witness :
  Spec.detections Fixtures.layout_backends LayoutRegistry.DocLayoutYOLODetector
    Fixtures.page = Ok 3%nat
  /\ exists regions,
       LayoutRegistry.detect Fixtures.layout_backends
         LayoutRegistry.DocLayoutYOLODetector Fixtures.page = Ok regions
       /\ length regions = 3%nat
       /\ List.map Layout.id regions = List.map Z.of_nat (seq 1 3)
       /\ NoDup (List.map Layout.id regions).
Proof.
  split; [reflexivity|].
  apply (detect_ids_contiguous Fixtures.layout_backends
           LayoutRegistry.DocLayoutYOLODetector Fixtures.page 3).
  reflexivity.
Defined.

(** The ids given while collecting, [1; 2; 1] here, are replaced after the
    sort by descending confidence. *)
Example yolo_detect_reassigns_after_sort :
  (List.map Layout.id (DocLayoutYOLO.collect
     [ DocLayoutYOLO.mkResult
         [ DocLayoutYOLO.mkBox (10, 20, 90, 40) (1 # 2) 0;
           DocLayoutYOLO.mkBox (10, 50, 90, 80) (9 # 10) 3 ]%Q {[ 0 := "title" ]};
       DocLayoutYOLO.mkResult
         [ DocLayoutYOLO.mkBox (5 # 2, 100, 90, 120) (7 # 10) 0 ]%Q
         {[ 0 := "plain text" ]} ]) = [1; 2; 1])
  /\ (x ← DocLayoutYOLO.detect Fixtures.yolo_backend Fixtures.page;
      mret (List.map (fun r => (Layout.id r, Layout.type r, Layout.x1 (Layout.bbox r))) x))
     = Ok [(1, "class_3", 10); (2, "plain text", 2); (3, "title", 10)].
Proof. split; vm_compute; reflexivity. Qed.

Example doctr_detect_sorts_top_to_bottom :
  (x ← DocTR.detect Fixtures.doctr_backend Fixtures.page;
   mret (List.map (fun r => (Layout.id r, Layout.y1 (Layout.bbox r))) x))
  = Ok [(1, 20); (2, 100)].
Proof. vm_compute. reflexivity. Qed.

(** ** OCR adapters *)

Ltac unfold_result :=
  unfold mbind, mret, result_bind, result_ret, Py.bind in *.

(** Case analysis on the outcome of the next call that may raise. *)
Ltac case_result :=
  match goal with
  | H : context [match ?m with Ok _ => _ | Raise _ => _ end] |- _ =>
      destruct m eqn:?; try discriminate H
  end.

(** A step of a loop appends a line and its text together. *)
Lemma parts_snoc (lines : list OCR.TextLine) (parts : list string) (line : OCR.TextLine) :
  parts = List.map OCR.text lines ->
  (parts ++ [OCR.text line])%list = List.map OCR.text (lines ++ [line]).
Proof. intros ->. now rewrite List.map_app. Qed.

Section LoopInvariants.

(** In every loop below [full_text_parts] stays the list of the texts of
    [lines]. *)

Lemma easyocr_line_text (d : EasyOCR.Detection) (line : OCR.TextLine) :
  EasyOCR.line_of_detection d = Ok line -> OCR.text line = EasyOCR.det_text d.
Proof.
  unfold EasyOCR.line_of_detection. unfold_result. intros H.
  repeat case_result. now injection H as <-.
Qed.

Lemma easyocr_loop_parts (dets : list EasyOCR.Detection) :
  forall lines parts lines' parts',
    EasyOCR.loop dets lines parts = Ok (lines', parts') ->
    parts = List.map OCR.text lines -> parts' = List.map OCR.text lines'.
Proof.
  induction dets as [|d dets IH]; intros lines parts lines' parts' H Hp.
  - cbn in H. injection H as <- <-. exact Hp.
  - cbn [EasyOCR.loop] in H. unfold_result.
    destruct (EasyOCR.line_of_detection d) as [line|] eqn:E; [|discriminate].
    eapply IH; [exact H|].
    rewrite <- (easyocr_line_text _ _ E). now apply parts_snoc.
Qed.

Lemma surya_loop_parts (w h : Z) (ls : list SuryaOCR.SuryaLine) :
  forall lines parts,
    parts = List.map OCR.text lines ->
    snd (SuryaOCR.loop w h ls lines parts)
    = List.map OCR.text (fst (SuryaOCR.loop w h ls lines parts)).
Proof.
  induction ls as [|l ls IH]; intros lines parts Hp; [exact Hp|].
  cbn [SuryaOCR.loop]. apply IH.
  replace (SuryaOCR.line_text l) with (OCR.text (SuryaOCR.line_of w h l)).
  - now apply parts_snoc.
  - unfold SuryaOCR.line_of. now destruct (default _ (SuryaOCR.line_bbox l)) as [[[? ?] ?] ?].
Qed.

Lemma paddle_inner_parts scores boxes (texts : list string) :
  forall i lines parts,
    parts = List.map OCR.text lines ->
    snd (PaddleOCR.inner scores boxes i texts lines parts)
    = List.map OCR.text (fst (PaddleOCR.inner scores boxes i texts lines parts)).
Proof.
  induction texts as [|t ts IH]; intros i lines parts Hp; [exact Hp|].
  cbn [PaddleOCR.inner]. destruct (negb (truthy_str t)); apply IH; [exact Hp|].
  exact (parts_snoc lines parts (PaddleOCR.line_of scores boxes i t) Hp).
Qed.

Lemma paddle_loop_parts (results : list PaddleOCR.Res) :
  forall lines parts,
    parts = List.map OCR.text lines ->
    snd (PaddleOCR.loop results lines parts)
    = List.map OCR.text (fst (PaddleOCR.loop results lines parts)).
Proof.
  induction results as [|res rest IH]; intros lines parts Hp; [exact Hp|].
  cbn [PaddleOCR.loop].
  pose proof (paddle_inner_parts (default [] (PaddleOCR.rec_scores res))
                (PaddleOCR.rec_boxes res) (default [] (PaddleOCR.rec_texts res))
                0 lines parts Hp) as Hi.
  destruct (PaddleOCR.inner _ _ _ _ _ _) as [lines1 parts1].
  apply IH. exact Hi.
Qed.

Lemma tesseract_loop_parts (groups : gmap Z Tesseract.Group) (keys : list Z) :
  forall lines parts,
    parts = List.map OCR.text lines ->
    snd (Tesseract.loop groups keys lines parts)
    = List.map OCR.text (fst (Tesseract.loop groups keys lines parts)).
Proof.
  induction keys as [|k keys IH]; intros lines parts Hp; [exact Hp|].
  cbn [Tesseract.loop]. destruct (groups !! k); apply IH; [|exact Hp].
  now apply parts_snoc.
Qed.

Lemma trocr_loop_parts (B : TrOCR.Backend) (image : PIL.Image) (regions : list (Z * Z)) :
  forall lines parts lines' parts',
    TrOCR.loop B image regions lines parts = Ok (lines', parts') ->
    parts = List.map OCR.text lines -> parts' = List.map OCR.text lines'.
Proof.
  induction regions as [|[y_start y_end] regions IH];
    intros lines parts lines' parts' H Hp.
  - cbn in H. injection H as <- <-. exact Hp.
  - cbn [TrOCR.loop] in H.
    destruct (PIL.height _ <? 5); [eapply IH; eauto|].
    unfold_result.
    destruct (TrOCR.recognize B _) as [decoded|]; [|discriminate].
    destruct (negb (truthy_str (strip decoded))); [eapply IH; eauto|].
    eapply IH; [exact H|].
    match goal with
    | |- (_ ++ [?t])%list = List.map _ (_ ++ [?l]) =>
        change t with (OCR.text l); now apply parts_snoc
    end.
Qed.

Lemma mineru_inner_parts (box : Layout.BBox) (texts : list string) :
  forall lines parts,
    parts = List.map OCR.text lines ->
    snd (MinerU.inner box texts lines parts)
    = List.map OCR.text (fst (MinerU.inner box texts lines parts)).
Proof.
  induction texts as [|t ts IH]; intros lines parts Hp; [exact Hp|].
  cbn [MinerU.inner]. destruct (negb (truthy_str (strip t))); apply IH; [exact Hp|].
  match goal with
  | |- (_ ++ [?t])%list = List.map _ (_ ++ [?l]) =>
      change t with (OCR.text l); now apply parts_snoc
  end.
Qed.

Lemma mineru_loop_parts (w h : Z) (blocks : list MinerU.Block) :
  forall lines parts,
    parts = List.map OCR.text lines ->
    snd (MinerU.loop w h blocks lines parts)
    = List.map OCR.text (fst (MinerU.loop w h blocks lines parts)).
Proof.
  induction blocks as [|b blocks IH]; intros lines parts Hp; [exact Hp|].
  cbn [MinerU.loop]. destruct (negb (truthy_str _)); [now apply IH|].
  pose proof (mineru_inner_parts (MinerU.block_box w h (MinerU.block_bbox b))
                (split_on LF (strip (default "" (MinerU.content b)))) lines parts Hp) as Hi.
  destruct (MinerU.inner _ _ _ _) as [lines1 parts1].
  apply IH. exact Hi.
Qed.

End LoopInvariants.

Lemma extract_text_is_loop (B : OCRRegistry.Backends) (e : OCRRegistry.Engine) :
  OCRRegistry.extract_text B e
  = OCR.extract_text_loop (OCRRegistry._process_cropped_image B e).
Proof. now destruct e. Qed.

(** Every adapter stamps its result with the id it was given, and six of
    the seven build the full text from the parts they collect with the
    lines. *)
Lemma process_cropped_spec (B : OCRRegistry.Backends)
    (e : OCRRegistry.Engine) (image : PIL.Image) (region_id : Z) (r : OCR.OCRResult) :
  OCRRegistry._process_cropped_image B e image region_id = Ok r ->
  OCR.region_id r = region_id
  /\ (e <> OCRRegistry.GotOCREngine -> Spec.full_text_joined r).
Proof.
  unfold Spec.full_text_joined.
  destruct e; cbn [OCRRegistry._process_cropped_image]; intros H.
  - unfold EasyOCR._process_cropped_image in H. unfold_result.
    destruct (EasyOCR._load_model _); [|discriminate].
    destruct (EasyOCR.readtext _ _) as [dets|]; [|discriminate].
    destruct (EasyOCR.loop dets [] []) as [[lines parts]|] eqn:E; [|discriminate].
    injection H as <-. cbn. split; [reflexivity|]. intros _.
    f_equal. eapply easyocr_loop_parts; eauto.
  - unfold SuryaOCR._process_cropped_image in H. unfold_result.
    destruct (SuryaOCR._load_model _); [|discriminate]. cbn [PIL.size] in H.
    destruct (SuryaOCR.predictor _ _ _) as [[|page pages]|]; [| |discriminate].
    + now injection H as <-.
    + pose proof (surya_loop_parts (PIL.width image) (PIL.height image)
                    (SuryaOCR.text_lines page) [] [] eq_refl) as Hl.
      destruct (SuryaOCR.loop _ _ _ _ _) as [lines parts].
      injection H as <-. cbn in *. split; [reflexivity|]. intros _. now f_equal.
  - unfold PaddleOCR._process_cropped_image in H. unfold_result.
    destruct (PaddleOCR._load_model _); [|discriminate].
    destruct (PaddleOCR.predict _ _) as [results|]; [|discriminate].
    pose proof (paddle_loop_parts results [] [] eq_refl) as Hl.
    destruct (PaddleOCR.loop _ _ _) as [lines parts].
    injection H as <-. cbn in *. split; [reflexivity|]. intros _. now f_equal.
  - unfold Tesseract._process_cropped_image in H. unfold_result.
    destruct (Tesseract.image_to_data _ _) as [data|]; [|discriminate].
    pose proof (tesseract_loop_parts (Tesseract.group_words data)
                  (Tesseract.sorted_keys (Tesseract.group_words data)) [] [] eq_refl)
      as Hl.
    destruct (Tesseract.loop _ _ _ _) as [lines parts].
    injection H as <-. cbn in *. split; [reflexivity|]. intros _. now f_equal.
  - unfold TrOCR._process_cropped_image in H. unfold_result.
    destruct (TrOCR._load_model _); [|discriminate].
    destruct (TrOCR.loop _ _ _ _ _) as [[lines parts]|] eqn:E; [|discriminate].
    injection H as <-. cbn. split; [reflexivity|]. intros _.
    f_equal. eapply trocr_loop_parts; eauto.
  - unfold GotOCR._process_cropped_image in H. unfold_result.
    destruct (GotOCR._load_model _); [|discriminate].
    destruct (GotOCR.generate _ _) as [decoded|]; [|discriminate].
    injection H as <-. cbn. split; [reflexivity | congruence].
  - unfold MinerU._process_cropped_image in H. unfold_result.
    destruct (MinerU._load_model _); [|discriminate].
    destruct (MinerU.two_step_extract _ _) as [blocks|].
    + cbn [PIL.size] in H.
      pose proof (mineru_loop_parts (PIL.width (PIL.ensure_rgb image))
                    (PIL.height (PIL.ensure_rgb image)) blocks [] [] eq_refl) as Hl.
      destruct (MinerU.loop _ _ _ _ _) as [lines parts].
      injection H as <-. cbn in *. split; [reflexivity|]. intros _. now f_equal.
    + now injection H as <-.
Qed.

(** The first region whose extraction raises ends [extract_text]: the
    loop has no handler. *)
Lemma extract_text_loop_raises
    (f : PIL.Image -> Z -> result OCR.OCRResult) (image : PIL.Image)
    (done : list Layout.Region) (region : Layout.Region) (rest : list Layout.Region)
    (e : PyExc) :
  Forall (fun r => exists o, OCR.extract_from_region f image r = Ok o) done ->
  OCR.extract_from_region f image region = Raise e ->
  OCR.extract_text_loop f image (done ++ region :: rest) = Raise e.
Proof.
  unfold OCR.extract_text_loop. intros Hdone Hr.
  induction Hdone as [|r done [o Ho] _ IH]; cbn [app mapM]; unfold Py.bind.
  - now rewrite Hr.
  - rewrite Ho. fold (@mapM Layout.Region OCR.OCRResult). now rewrite IH.
Qed.

(** MinerU, once loaded, returns one result per region, and the empty one
    for a region on which the model raises. *)
Lemma mineru_degrades (B : MinerU.Backend) (image : PIL.Image)
    (regions : list Layout.Region) :
  MinerU._load_model B = Ok tt ->
  exists results,
    MinerU.extract_text B image regions = Ok results
    /\ Forall2
         (fun region r =>
            OCR.region_id r = Layout.id region
            /\ forall e,
                 MinerU.two_step_extract B
                   (PIL.ensure_rgb (PIL.crop image
                      (Layout.x1 (Layout.bbox region), Layout.y1 (Layout.bbox region),
                       Layout.x2 (Layout.bbox region), Layout.y2 (Layout.bbox region))))
                 = Raise e ->
                 r = Spec.empty_result (Layout.id region))
         regions results.
Proof.
  intros Hload. unfold MinerU.extract_text, OCR.extract_text_loop.
  induction regions as [|region regions (results & Hr & Hall)].
  - exists []. split; [reflexivity | constructor].
  - cbn [mapM]. rewrite Hr.
    unfold OCR.extract_from_region, MinerU._process_cropped_image.
    rewrite Hload. unfold_result.
    destruct (MinerU.two_step_extract B _) as [blocks|e0] eqn:E.
    + cbn [PIL.size].
      destruct (MinerU.loop _ _ _ _ _) as [lines parts].
      eexists. split; [reflexivity|].
      constructor; [|exact Hall]. split; [reflexivity|]. intros e He.
      congruence.
    + eexists. split; [reflexivity|].
      constructor; [|exact Hall]. split; reflexivity.
Qed.

(** C1 (evaluation at the failing input): the EasyOCR adapter, given a
    region on which the reader raises followed by a readable region, raises
    the reader's exception instead of yielding an empty result for the first
    region and the text of the second; the MinerU adapter, on the same
    regions and the same failure, yields both results. *)
Theorem easyocr_region_failure_aborts_extraction :
  EasyOCR.extract_text Fixtures.easyocr_backend Fixtures.page
    [Fixtures.empty_region; Fixtures.title_region] = Raise Fixtures.model_error
  /\ (exists r, EasyOCR.extract_text Fixtures.easyocr_backend Fixtures.page
                  [Fixtures.title_region] = Ok [r]
                /\ OCR.full_text r = "Case No.")
  /\ (exists r, MinerU.extract_text Fixtures.mineru_backend Fixtures.page
                  [Fixtures.empty_region; Fixtures.title_region]
                = Ok [Spec.empty_result 1; r]
                /\ OCR.full_text r = "Case No.").
Proof.
  split; [reflexivity|]. split; eexists; split; vm_compute; reflexivity.
Qed.

(** C7 (evaluation at the failing input): the GOT-OCR adapter keeps the
    model's text, line breaks included, as full_text, while its lines are the
    stripped pieces; the full text is then not the lines joined by spaces. *)
Theorem got_ocr_full_text_is_not_joined_lines :
  exists r,
    GotOCR._process_cropped_image Fixtures.got_backend Fixtures.page 1 = Ok r
    /\ OCR.full_text r = "John Smith" ++ String LF "Dallas"
    /\ join " " (List.map OCR.text (OCR.lines r)) = "John Smith Dallas"
    /\ ~ Spec.full_text_joined r.
Proof.
  eexists. split; [vm_compute; reflexivity|].
  repeat split; try (vm_compute; reflexivity).
  unfold Spec.full_text_joined. vm_compute. discriminate.
Qed.

(** ** Full-text mode *)

Lemma extract_text_single (B : OCRRegistry.Backends) (e : OCRRegistry.Engine)
    (image : PIL.Image) (region : Layout.Region) :
  match OCRRegistry.extract_text B e image [region] with
  | Ok rs => exists r, rs = [r] /\ OCR.region_id r = Layout.id region
  | Raise _ => True
  end.
Proof.
  rewrite extract_text_is_loop. unfold OCR.extract_text_loop. cbn [mapM].
  unfold Py.bind, OCR.extract_from_region.
  destruct (OCRRegistry._process_cropped_image B e _ _) as [r|] eqn:E; [|exact I].
  exists r. split; [reflexivity|].
  now apply process_cropped_spec in E.
Qed.

(** The full-text mode never calls a layout detector, whatever happens. *)
Lemma full_text_mode_never_detects (S : Pipeline.Services)
    (document : Models.SyntheticDocument) (ocr_library : string) :
  Forall (fun c => forall l, c <> Pipeline.CallDetect l)
    (Pipeline.calls (Pipeline.process_document_full_text S document ocr_library)).
Proof.
  unfold Pipeline.process_document_full_text, mbind, Pipeline.traced_bind,
    Pipeline.call, Pipeline.pure.
  cbn [Pipeline.outcome Pipeline.calls].
  repeat match goal with
         | |- context [match ?m with Ok _ => _ | Raise _ => _ end] =>
             destruct m; cbn [Pipeline.outcome Pipeline.calls app]
         end;
    repeat constructor; discriminate.
Qed.

(** C10: in full-text mode the region handed to the engine is the
    pseudo-region with id 0, type "full_page", confidence 1.0 and the box
    (0, 0, image.width, image.height); the engine is called on it alone, and
    when the extraction returns, the one OCRResult emitted carries
    region_id 0, which is no id of the sequence 1..N of a detector. *)
Theorem full_text_mode_region_id_zero
    (S : Pipeline.Services) (document : Models.SyntheticDocument) (ocr_library : string)
    (image_bytes : list Byte.byte) (image : PIL.Image) (engine : OCRRegistry.Engine) :
  Pipeline.download_file S (Models.storage_path document) = Ok image_bytes ->
  Pipeline.image_open S image_bytes = Ok image ->
  OCRRegistry.get_ocr_engine ocr_library = Ok engine ->
  let t := Pipeline.process_document_full_text S document ocr_library in
  Pipeline.full_region image
  = Layout.mkRegion 0 "full_page" 1%Q
      (Layout.mkBBox 0 0 (PIL.width image) (PIL.height image))
  /\ Pipeline.calls t
     = [Pipeline.CallDownload (Models.storage_path document);
        Pipeline.CallExtract (OCRRegistry.name engine) [Pipeline.full_region image]]
  /\ match OCRRegistry.extract_text (Pipeline.ocr_backends S) engine image
             [Pipeline.full_region image] with
     | Ok rs =>
         exists r res,
           rs = [r] /\ OCR.region_id r = 0
           /\ Pipeline.outcome t = Ok res
           /\ OCR.regions (Models.ocr_results res) = [r]
     | Raise e => Pipeline.outcome t = Raise e
     end
  /\ forall n, ~ In 0 (List.map Z.of_nat (seq 1 n)).
Proof.
  intros Hd Hi He t. subst t.
  unfold Pipeline.process_document_full_text, mbind, Pipeline.traced_bind,
    Pipeline.call, Pipeline.pure.
  cbn [Pipeline.outcome Pipeline.calls]. rewrite Hd.
  cbn [Pipeline.outcome Pipeline.calls]. rewrite Hi.
  cbn [Pipeline.outcome Pipeline.calls]. rewrite He.
  cbn [Pipeline.outcome Pipeline.calls app].
  split; [reflexivity|].
  pose proof (extract_text_single (Pipeline.ocr_backends S) engine image
                (Pipeline.full_region image)) as Hx.
  destruct (OCRRegistry.extract_text _ _ _ _) as [rs|e];
    cbn [Pipeline.outcome Pipeline.calls app].
  - destruct Hx as (r & -> & Hr). repeat split.
    + exists r. eexists. repeat split. exact Hr.
    + intros n Hin. apply in_map_iff in Hin as (k & Hk & Hin).
      apply in_seq in Hin. lia.
  - repeat split.
    intros n Hin. apply in_map_iff in Hin as (k & Hk & Hin).
    apply in_seq in Hin. lia.
Qed.

(** A scan read by the GOT-OCR adapter of the examples. *)
Lemma full_text_mode_region_id_zero_witness :
  let image := PIL.mkImage "RGB" 11 200 (fun _ _ => (255, 255, 255)) in
  let t := Pipeline.process_document_full_text Fixtures.services
             Fixtures.scan_document "got_ocr" in
  Pipeline.full_region image = Layout.mkRegion 0 "full_page" 1%Q (Layout.mkBBox 0 0 11 200)
  /\ Pipeline.calls t
     = [Pipeline.CallDownload "scans/1.png";
        Pipeline.CallExtract "got_ocr" [Pipeline.full_region image]]
  /\ match OCRRegistry.extract_text Fixtures.ocr_backends OCRRegistry.GotOCREngine image
             [Pipeline.full_region image] with
     | Ok rs =>
         exists r res,
           rs = [r] /\ OCR.region_id r = 0
           /\ Pipeline.outcome t = Ok res
           /\ OCR.regions (Models.ocr_results res) = [r]
     | Raise e => Pipeline.outcome t = Raise e
     end
  /\ forall n, ~ In 0 (List.map Z.of_nat (seq 1 n)).
Proof.
  exact (full_text_mode_region_id_zero Fixtures.services Fixtures.scan_document
           "got_ocr" (list_byte_of_string "scans/1.png")
           (PIL.mkImage "RGB" 11 200 (fun _ _ => (255, 255, 255)))
           OCRRegistry.GotOCREngine eq_refl eq_refl eq_refl).
Defined.

(** C6: a document processed in full-text mode, when the download, the
    decoding and the engine's extraction over the single full-page region
    succeed, yields a result with no extracted fields, overall accuracy 0.0,
    a layout result without regions (no layout detector is called) and OCR
    results whose full_text is the engine's texts joined by spaces. *)
Theorem full_text_mode_result
    (S : Pipeline.Services) (document : Models.SyntheticDocument) (ocr_library : string)
    (image_bytes : list Byte.byte) (image : PIL.Image) (engine : OCRRegistry.Engine)
    (ocr_results_list : list OCR.OCRResult) :
  Pipeline.download_file S (Models.storage_path document) = Ok image_bytes ->
  Pipeline.image_open S image_bytes = Ok image ->
  OCRRegistry.get_ocr_engine ocr_library = Ok engine ->
  OCRRegistry.extract_text (Pipeline.ocr_backends S) engine image
    [Pipeline.full_region image] = Ok ocr_results_list ->
  let t := Pipeline.process_document_full_text S document ocr_library in
  exists res,
    Pipeline.outcome t = Ok res
    /\ Models.extracted_fields res = []
    /\ Models.overall_accuracy res = 0%Q
    /\ Layout.regions (Models.layout_results res) = []
    /\ Forall (fun c => forall l, c <> Pipeline.CallDetect l) (Pipeline.calls t)
    /\ OCR.regions (Models.ocr_results res) = ocr_results_list
    /\ OCR.dict_full_text (Models.ocr_results res)
       = Some (join " " (List.map OCR.full_text ocr_results_list))
    /\ OCR.text_regions (Models.ocr_results res)
       = Some (concat (List.map
                 (fun r => List.map (fun l => (OCR.text l, OCR.confidence l)) (OCR.lines r))
                 ocr_results_list)).
Proof.
  intros Hd Hi He Hx t.
  pose proof (full_text_mode_never_detects S document ocr_library) as Hnd.
  fold t in Hnd. revert Hnd. subst t.
  unfold Pipeline.process_document_full_text, mbind, Pipeline.traced_bind,
    Pipeline.call, Pipeline.pure.
  cbn [Pipeline.outcome Pipeline.calls]. rewrite Hd.
  cbn [Pipeline.outcome Pipeline.calls]. rewrite Hi.
  cbn [Pipeline.outcome Pipeline.calls]. rewrite He.
  cbn [Pipeline.outcome Pipeline.calls]. rewrite Hx.
  cbn [Pipeline.outcome Pipeline.calls]. intros Hnd.
  eexists. split; [reflexivity|]. repeat split. exact Hnd.
Qed.

(** The same scan: two lines are read, no field is matched. *)
Lemma full_text_mode_result_witness :
  let t := Pipeline.process_document_full_text Fixtures.services
             Fixtures.scan_document "got_ocr" in
  exists res,
    Pipeline.outcome t = Ok res
    /\ Models.extracted_fields res = []
    /\ Models.overall_accuracy res = 0%Q
    /\ Layout.regions (Models.layout_results res) = []
    /\ Forall (fun c => forall l, c <> Pipeline.CallDetect l) (Pipeline.calls t)
    /\ List.map OCR.region_id (OCR.regions (Models.ocr_results res)) = [0]
    /\ OCR.dict_full_text (Models.ocr_results res)
       = Some ("John Smith" ++ String LF "Dallas")
    /\ OCR.text_regions (Models.ocr_results res)
       = Some [("John Smith", (95 # 100)%Q); ("Dallas", (95 # 100)%Q)].
Proof.
  destruct (full_text_mode_result Fixtures.services Fixtures.scan_document
              "got_ocr" (list_byte_of_string "scans/1.png")
              (PIL.mkImage "RGB" 11 200 (fun _ _ => (255, 255, 255)))
              OCRRegistry.GotOCREngine
              [ OCR.mkOCRResult 0 ("John Smith" ++ String LF "Dallas")
                  [ OCR.mkTextLine "John Smith" (95 # 100)%Q (Layout.mkBBox 0 0 11 200);
                    OCR.mkTextLine "Dallas" (95 # 100)%Q (Layout.mkBBox 0 0 11 200) ] ]
              eq_refl eq_refl eq_refl eq_refl)
    as (res & H1 & H2 & H3 & H4 & H5 & H6 & H7 & H8).
  exists res. rewrite H6, H7, H8. repeat split; assumption.
Defined.

(** ** Batches *)

Section Batch.

Context (S : Pipeline.Services) (batch : Models.BatchInDB).
Context (layout_library ocr_library test_run_id : string).
Context (is_handwritten : bool).

Local Abbreviation run :=
  (Pipeline.process_one S is_handwritten layout_library ocr_library).

Lemma update_status_spec (status : Models.TestStatus) (processed : option Z)
    (message : option string) (st : Pipeline.State) :
  exists w,
    TestsRouter.update_status test_run_id status processed message st
    = (Ok tt, {| Pipeline.world := w; Pipeline.trace := Pipeline.trace st |})
    /\ Firestore.results w = Firestore.results (Pipeline.world st)
    /\ Firestore.batches w = Firestore.batches (Pipeline.world st)
    /\ (forall tr0,
          Firestore.test_runs (Pipeline.world st) !! test_run_id = Some tr0 ->
          exists tr,
            Firestore.test_runs w !! test_run_id = Some tr
            /\ Models.status tr = status
            /\ Models.error_message tr
               = match message with Some m => Some m | None => Models.error_message tr0 end).
Proof.
  unfold TestsRouter.update_status, Firestore.update_test_run_status.
  destruct (Firestore.test_runs (Pipeline.world st) !! test_run_id) as [doc|] eqn:E.
  - eexists. split; [reflexivity|]. cbn. repeat split.
    intros tr0 [= <-]. eexists. rewrite lookup_insert_eq. repeat split.
  - eexists. split; [reflexivity|]. repeat split. intros tr0 Htr0. congruence.
Qed.

Lemma update_status_status_only (total_processed : Z) :
  Spec.status_only test_run_id
    (fun curr _ =>
       TestsRouter.update_status test_run_id Models.RUNNING
         (Some (total_processed + curr)) None).
Proof.
  intros a b st.
  destruct (update_status_spec Models.RUNNING (Some (total_processed + a)) None st)
    as (w & Hw & Hr & Hb & Ht).
  exists w. repeat split; try assumption.
  intros [tr0 Htr0]. destruct (Ht tr0 Htr0) as (tr & Htr & _). now exists tr.
Qed.

(** The loop stops at the first document whose processing raises: the
    results of the documents before it are stored, the services are called
    for them and for the failing document, and for no other. *)
Lemma batch_loop_aborts (progress_callback : option (Z -> Z -> Pipeline.M unit))
    (d : Models.SyntheticDocument) (post : list Models.SyntheticDocument) (e : PyExc) :
  (forall cb, progress_callback = Some cb -> Spec.status_only test_run_id cb) ->
  Pipeline.outcome (run d) = Raise e ->
  forall pre,
    Forall (fun d' => exists r, Pipeline.outcome (run d') = Ok r) pre ->
    forall i results st,
    exists st',
      Pipeline.batch_loop S batch layout_library ocr_library test_run_id
        progress_callback is_handwritten i (pre ++ d :: post) results st
      = (Raise e, st')
      /\ Spec.persisted st' = (Spec.persisted st ++ List.map Models.id pre)%list
      /\ Pipeline.trace st'
         = (Pipeline.trace st
            ++ concat (List.map (fun d' => Pipeline.calls (run d')) (pre ++ [d])))%list
      /\ Firestore.batches (Pipeline.world st') = Firestore.batches (Pipeline.world st)
      /\ (is_Some (Firestore.test_runs (Pipeline.world st) !! test_run_id) ->
          is_Some (Firestore.test_runs (Pipeline.world st') !! test_run_id)).
Proof.
  intros Hcb Hd pre Hpre.
  induction Hpre as [|p pre [r Hp] _ IH]; intros i results st.
  - cbn [app Pipeline.batch_loop]. rewrite Hd.
    eexists. split; [reflexivity|]. unfold Spec.persisted. cbn.
    rewrite !app_nil_r. repeat split. auto.
  - cbn [app Pipeline.batch_loop]. rewrite Hp.
    set (st1 := Pipeline.mkState
                  (Firestore.create_result test_run_id (Models.id p)
                     (Models.batch_id batch) r (Pipeline.world st))
                  (Pipeline.trace st ++ Pipeline.calls (run p))).
    assert (Hst1 : Spec.persisted st1 = (Spec.persisted st ++ [Models.id p])%list).
    { unfold Spec.persisted, st1. cbn. now rewrite List.map_app. }
    destruct progress_callback as [cb|].
    + destruct (Hcb cb eq_refl (i + 1) (Z.of_nat (length (Models.documents batch))) st1)
        as (w & Hw & Hr & Hb & Ht).
      cbn [Pipeline.world Pipeline.trace]. fold st1. rewrite Hw.
      destruct (IH (i + 1) (results ++ [(Models.id p, r)])%list
                  {| Pipeline.world := w; Pipeline.trace := Pipeline.trace st1 |})
        as (st' & Hl & Hres & Htr & Hbt & Hrun).
      exists st'. split; [exact Hl|]. repeat split.
      * rewrite Hres. unfold Spec.persisted in *. cbn [Pipeline.world] in *.
        rewrite Hr, Hst1. cbn [List.map]. now rewrite <- app_assoc.
      * rewrite Htr. cbn [Pipeline.trace st1 List.map concat].
        now rewrite <- !app_assoc.
      * rewrite Hbt. cbn [Pipeline.world]. now rewrite Hb.
      * intros Hsome. apply Hrun. cbn [Pipeline.world]. apply Ht. exact Hsome.
    + cbn [Pipeline.world Pipeline.trace]. fold st1.
      destruct (IH (i + 1) (results ++ [(Models.id p, r)])%list st1)
        as (st' & Hl & Hres & Htr & Hbt & Hrun).
      exists st'. split; [exact Hl|]. repeat split.
      * rewrite Hres, Hst1. cbn [List.map]. now rewrite <- app_assoc.
      * rewrite Htr. cbn [Pipeline.trace st1 List.map concat].
        now rewrite <- !app_assoc.
      * exact Hbt.
      * exact Hrun.
Qed.

End Batch.

(** C2: when the first document of a batch whose processing raises is [d],
    with the documents [pre] before it and [post] after it, [process_batch]
    raises that exception, and the background task that drives it ends with
    the results of [pre] stored and no other, the services called for [pre]
    and [d] and for no document of [post], and the run marked failed with
    the exception's text as error message. *)
Theorem batch_aborts_on_first_failure
    (S : Pipeline.Services) (batch : Models.BatchInDB)
    (layout_library ocr_library test_run_id batch_id : string)
    (more_batches : list string)
    (pre post : list Models.SyntheticDocument) (d : Models.SyntheticDocument)
    (e : PyExc) (tr0 : Models.TestRun) (st : Pipeline.State) :
  let is_handwritten := String.eqb (Models.batch_type batch) "handwritten" in
  let run := Pipeline.process_one S is_handwritten layout_library ocr_library in
  Firestore.test_runs (Pipeline.world st) !! test_run_id = Some tr0 ->
  Firestore.batches (Pipeline.world st) !! batch_id = Some batch ->
  Models.documents batch = (pre ++ d :: post)%list ->
  Forall (fun d' => exists r, Pipeline.outcome (run d') = Ok r) pre ->
  Pipeline.outcome (run d) = Raise e ->
  fst (Pipeline.process_batch S batch layout_library ocr_library test_run_id None st)
  = Raise e
  /\ let st' := TestsRouter.run_test_background S test_run_id (batch_id :: more_batches)
                  layout_library ocr_library st in
     (exists tr,
        Firestore.test_runs (Pipeline.world st') !! test_run_id = Some tr
        /\ Models.status tr = Models.FAILED
        /\ Models.error_message tr = Some (exc_str e))
     /\ Spec.persisted st' = (Spec.persisted st ++ List.map Models.id pre)%list
     /\ Pipeline.trace st'
        = (Pipeline.trace st
           ++ concat (List.map (fun d' => Pipeline.calls (run d')) (pre ++ [d])))%list.
Proof.
  intros is_handwritten run Hrun Hbatch Hdocs Hpre Hd. split.
  - unfold Pipeline.process_batch. rewrite Hdocs.
    destruct (batch_loop_aborts S batch layout_library ocr_library test_run_id
                is_handwritten None d post e ltac:(discriminate) Hd pre Hpre 0 [] st)
      as (st' & Hl & _).
    fold is_handwritten. now rewrite Hl.
  - unfold TestsRouter.run_test_background, TestsRouter.try_body.
    destruct (update_status_spec test_run_id Models.RUNNING None None st)
      as (w1 & Hw1 & Hr1 & Hb1 & Ht1).
    rewrite Hw1. destruct (Ht1 tr0 Hrun) as (tr1 & Htr1 & _).
    set (st1 := {| Pipeline.world := w1; Pipeline.trace := Pipeline.trace st |}).
    cbn [TestsRouter.batches_loop]. unfold Firestore.get_batch_by_id.
    cbn [Pipeline.world st1]. rewrite Hb1, Hbatch. fold st1.
    unfold Pipeline.process_batch. rewrite Hdocs. fold is_handwritten.
    destruct (batch_loop_aborts S batch layout_library ocr_library test_run_id
                is_handwritten
                (Some (fun curr (_ : Z) =>
                   TestsRouter.update_status test_run_id Models.RUNNING
                     (Some (0 + curr)) None))
                d post e) with (pre := pre) (i := 0) (results := @nil (string * Models.DocResults))
                (st := st1)
      as (st2 & Hl & Hres & Htr & _ & Hsome).
    { intros cb [= <-]. apply update_status_status_only. }
    { exact Hd. }
    { exact Hpre. }
    rewrite Hl.
    destruct (Hsome ltac:(cbn; eauto)) as [tr2 Htr2].
    destruct (update_status_spec test_run_id Models.FAILED None (Some (exc_str e)) st2)
      as (w3 & Hw3 & Hr3 & Hb3 & Ht3).
    rewrite Hw3. cbn [snd Pipeline.world Pipeline.trace].
    destruct (Ht3 tr2 Htr2) as (tr3 & Htr3 & Hs3 & Hm3).
    repeat split.
    + exists tr3. repeat split; assumption.
    + unfold Spec.persisted in *. cbn [Pipeline.world] in *.
      rewrite Hr3, Hres. cbn [st1 Pipeline.world]. now rewrite Hr1.
    + rewrite Htr. reflexivity.
Qed.

(** The batch of the examples: the detector raises on the second of three
    documents. *)
Lemma batch_aborts_on_first_failure_witness :
  fst (Pipeline.process_batch Fixtures.services Fixtures.batch "doctr" "easyocr"
         "run-1" None Fixtures.initial_state)
  = Raise Fixtures.model_error
  /\ let st' := TestsRouter.run_test_background Fixtures.services "run-1" ["batch-1"]
                  "doctr" "easyocr" Fixtures.initial_state in
     (exists tr,
        Firestore.test_runs (Pipeline.world st') !! "run-1" = Some tr
        /\ Models.status tr = Models.FAILED
        /\ Models.error_message tr = Some "CUDA error: out of memory")
     /\ Spec.persisted st' = ["doc-1"]
     /\ Pipeline.trace st'
        = concat (List.map
                    (fun d' => Pipeline.calls
                       (Pipeline.process_one Fixtures.services false "doctr" "easyocr" d'))
                    [Fixtures.doc1; Fixtures.doc2]).
Proof.
  apply (batch_aborts_on_first_failure Fixtures.services Fixtures.batch
           "doctr" "easyocr" "run-1" "batch-1" []
           [Fixtures.doc1] [Fixtures.doc3] Fixtures.doc2
           Fixtures.model_error Fixtures.pending_run Fixtures.initial_state).
  - vm_compute. reflexivity.
  - vm_compute. reflexivity.
  - reflexivity.
  - constructor; [|constructor]. eexists. vm_compute. reflexivity.
  - vm_compute. reflexivity.
Defined.

(** The scenario of the design document, run: three documents, the
    detection of the second raises. *)
Example batch_of_three_second_fails :
  let st' := TestsRouter.run_test_background Fixtures.services "run-1" ["batch-1"]
               "doctr" "easyocr" Fixtures.initial_state in
  Firestore.test_runs (Pipeline.world st') !! "run-1"
  = Some {| Models.status := Models.FAILED; Models.processed_documents := 1;
            Models.error_message := Some "CUDA error: out of memory";
            Models.completed := true |}
  /\ Spec.persisted st' = ["doc-1"]
  /\ omap Fixtures.downloaded (Pipeline.trace st') = ["a1.png"; "ab"].
Proof. vm_compute. repeat split. Qed.

(** ** The scan simulator *)

Lemma presets_fallback (preset : string) :
  default ScanSimulator.medium (dict_get ScanSimulator.PRESETS preset)
  = default ScanSimulator.medium
      (dict_get ScanSimulator.PRESETS
         (if Spec.known_preset preset then preset else "medium")).
Proof.
  unfold Spec.known_preset, ScanSimulator.PRESETS. cbn [existsb dict_get].
  destruct (String.eqb preset "light") eqn:E1;
    [cbn [orb]; now rewrite E1|].
  destruct (String.eqb preset "medium") eqn:E2;
    [cbn [orb]; now rewrite E1, E2|].
  destruct (String.eqb preset "heavy") eqn:E3;
    [cbn [orb]; now rewrite E1, E2, E3 | reflexivity].
Qed.

Lemma convert_rgb (K : PILFilters.Kernels) (image : PIL.Image) :
  PILFilters.converts K (PIL.mode image) "RGB" ->
  exists rgb,
    PILFilters.convert K "RGB" (PILFilters.copy image) = Ok rgb
    /\ PIL.mode rgb = "RGB"
    /\ PIL.width rgb = PIL.width image
    /\ PIL.height rgb = PIL.height image.
Proof.
  intros Hc. unfold PILFilters.convert. cbn [PILFilters.copy PIL.mode].
  destruct (String.eqb (PIL.mode image) "RGB") eqn:E.
  - apply String.eqb_eq in E. eexists. split; [reflexivity|]. cbn. auto.
  - destruct Hc as [Hc | [px Hc]].
    + rewrite Hc in E. discriminate.
    + rewrite Hc. unfold_result. eexists. split; [reflexivity|]. cbn. auto.
Qed.

(** What [apply_scan_effects] returns for an image with pixels that the
    library converts to RGB. *)
Lemma apply_scan_effects_returns
    (K : PILFilters.Kernels) (D : ScanSimulator.Draws)
    (image : PIL.Image) (preset : string) :
  0 < PIL.width image -> 0 < PIL.height image ->
  PILFilters.converts K (PIL.mode image) "RGB" ->
  exists img,
    ScanSimulator.apply_scan_effects K D image preset = Ok img
    /\ PIL.width img = PIL.width image
    /\ PIL.height img = PIL.height image
    /\ (gt (ScanSimulator.noise_amount
              (default ScanSimulator.medium (dict_get ScanSimulator.PRESETS preset))) 0
        = true ->
        exists before,
          img = PILFilters.add_noise before
                  (ScanSimulator.normal D
                     (ScanSimulator.noise_amount
                        (default ScanSimulator.medium
                           (dict_get ScanSimulator.PRESETS preset)))
                     (PIL.size before))).
Proof.
  intros Hw Hh Hc. unfold ScanSimulator.apply_scan_effects.
  set (params := default ScanSimulator.medium _).
  destruct (convert_rgb K image Hc) as (rgb & -> & Hm & Hrw & Hrh).
  unfold_result. unfold PILFilters.blend.
  cbn [PILFilters.new PIL.size PIL.mode PIL.width PIL.height fst snd].
  rewrite Hm, !Z.eqb_refl. cbn [String.eqb Ascii.eqb Bool.eqb andb].
  unfold PILFilters.enhance_contrast.
  cbn [PILFilters.enhance_brightness PILFilters.rotate PIL.width PIL.height].
  rewrite Hrw, Hrh.
  replace (PIL.width image <=? 0) with false by (symmetry; apply Z.leb_gt; lia).
  replace (PIL.height image <=? 0) with false by (symmetry; apply Z.leb_gt; lia).
  cbn [orb].
  destruct (gt (ScanSimulator.blur_radius params) 0),
           (gt (ScanSimulator.noise_amount params) 0);
    eexists; (split; [reflexivity|]); cbn; (split; [reflexivity|]);
    (split; [reflexivity|]); intros Hn; try discriminate Hn; eexists; reflexivity.
Qed.

(** C9 (amended): for every image that has pixels and that the library
    converts to RGB (an RGB image is one), and for every preset string,
    apply_scan_effects returns an image (it does not raise) whose width and
    height are those of the input; a preset name other than light, medium
    and heavy gives what the medium preset gives. *)
Theorem apply_scan_effects_keeps_size
    (K : PILFilters.Kernels) (D : ScanSimulator.Draws)
    (image : PIL.Image) (preset : string) :
  0 < PIL.width image -> 0 < PIL.height image ->
  PILFilters.converts K (PIL.mode image) "RGB" ->
  (exists img,
     ScanSimulator.apply_scan_effects K D image preset = Ok img
     /\ PIL.width img = PIL.width image
     /\ PIL.height img = PIL.height image)
  /\ ScanSimulator.apply_scan_effects K D image preset
     = ScanSimulator.apply_scan_effects K D image
         (if Spec.known_preset preset then preset else "medium").
Proof.
  intros Hw Hh Hc. split.
  - destruct (apply_scan_effects_returns K D image preset Hw Hh Hc)
      as (img & Himg & Hiw & Hih & _).
    exists img. auto.
  - unfold ScanSimulator.apply_scan_effects. now rewrite <- presets_fallback.
Qed.

Lemma apply_scan_effects_keeps_size_witness :
  (exists img,
     ScanSimulator.apply_scan_effects Fixtures.identity_kernels Fixtures.draws
       Fixtures.grey_page "photocopy" = Ok img
     /\ PIL.width img = 640
     /\ PIL.height img = 480)
  /\ ScanSimulator.apply_scan_effects Fixtures.identity_kernels Fixtures.draws
       Fixtures.grey_page "photocopy"
     = ScanSimulator.apply_scan_effects Fixtures.identity_kernels Fixtures.draws
         Fixtures.grey_page "medium".
Proof.
  apply (apply_scan_effects_keeps_size Fixtures.identity_kernels Fixtures.draws
           Fixtures.grey_page "photocopy").
  - reflexivity.
  - reflexivity.
  - right. eexists. reflexivity.
Defined.

(** C9 (as stated) fails: Pillow has no conversion to RGB from the mode
    [La], so for an image of that mode the first statement of
    apply_scan_effects raises [ValueError] and no image is returned. *)
Lemma apply_scan_effects_counterexample :
  ~ (forall (K : PILFilters.Kernels) (D : ScanSimulator.Draws)
            (image : PIL.Image) (preset : string),
       exists img,
         ScanSimulator.apply_scan_effects K D image preset = Ok img
         /\ PIL.width img = PIL.width image
         /\ PIL.height img = PIL.height image).
Proof.
  intros H.
  destruct (H Fixtures.identity_kernels Fixtures.draws Fixtures.premultiplied_page
              "medium") as (img & Himg & _).
  vm_compute in Himg. discriminate Himg.
Qed.

(** The same input, with what is raised. *)
Example apply_scan_effects_unconverted_mode :
  exists e,
    ScanSimulator.apply_scan_effects Fixtures.identity_kernels Fixtures.draws
      Fixtures.premultiplied_page "medium" = Raise e
    /\ exc_type e = "ValueError".
Proof. eexists. split; reflexivity. Qed.

Example apply_scan_effects_unknown_preset :
  exists img,
    ScanSimulator.apply_scan_effects Fixtures.identity_kernels Fixtures.draws
      Fixtures.grey_page "photocopy" = Ok img
    /\ PIL.size img = (640, 480) /\ PIL.mode img = "RGB"
    /\ PIL.getpixel img 3 4 = (210, 202, 193).
Proof. eexists. split; [reflexivity|]. vm_compute. repeat split. Qed.

(** ** The synthetic value of a field *)

Lemma choice_In (r : nat) (pool : list string) :
  pool <> [] ->
  exists v, SyntheticGenerator.choice r pool = Ok v /\ In v pool.
Proof.
  intros Hne. destruct pool as [|p pool]; [congruence|].
  eexists. split; [reflexivity|].
  apply nth_In. apply Nat.mod_upper_bound. discriminate.
Qed.

Lemma dict_get_In {V} (d : list (string * V)) (k : string) (v : V) :
  dict_get d k = Some v -> exists k', In (k', v) d.
Proof.
  induction d as [|[k' v'] d IH]; cbn; [discriminate|].
  destruct (String.eqb k k').
  - intros [= ->]. exists k'. now left.
  - intros H. destruct (IH H) as [k'' Hk]. exists k''. now right.
Qed.

(** The loop over the legacy dict stops at the first key found in the
    lower-cased name. *)
Lemma legacy_loop_find (r : nat) (field_lower : string)
    (items : list (string * list string)) :
  SyntheticGenerator.legacy_loop r field_lower items
  = match List.find (fun kv : string * list string => contains (fst kv) field_lower)
            items with
    | Some (_, values) => Some (SyntheticGenerator.choice r values)
    | None => None
    end.
Proof.
  induction items as [|[key values] items IH]; cbn; [reflexivity|].
  destruct (contains key field_lower); [reflexivity | exact IH].
Qed.

Lemma legacy_fallback_pool (r : nat) (field_name : string) :
  SyntheticGenerator.legacy_fallback r field_name
  = SyntheticGenerator.choice r (Spec.legacy_pool field_name).
Proof.
  unfold SyntheticGenerator.legacy_fallback, Spec.legacy_pool.
  rewrite legacy_loop_find.
  destruct (List.find _ _) as [[key values]|]; reflexivity.
Qed.

Lemma pools_nonempty :
  Forall (fun kv : string * list string => snd kv <> [])
    (SyntheticGenerator.FIELD_TYPE_DATA ++ SyntheticGenerator.DEFAULT_SYNTHETIC_DATA).
Proof. repeat constructor; discriminate. Qed.

Lemma legacy_pool_nonempty (field_name : string) : Spec.legacy_pool field_name <> [].
Proof.
  pose proof pools_nonempty as Hne. rewrite Forall_app in Hne.
  destruct Hne as [_ Hleg]. rewrite List.Forall_forall in Hleg.
  unfold Spec.legacy_pool.
  destruct (List.find _ _) as [[key values]|] eqn:F; [|discriminate].
  apply List.find_some in F as [Hin _]. exact (Hleg _ Hin).
Qed.

Lemma field_type_pool_nonempty (field_type : option string) (pool : list string) :
  Spec.field_type_pool field_type = Some pool -> pool <> [].
Proof.
  pose proof pools_nonempty as Hne. rewrite Forall_app in Hne.
  destruct Hne as [Hft _]. rewrite List.Forall_forall in Hft.
  unfold Spec.field_type_pool. destruct field_type as [t|]; [|discriminate].
  intros E. apply dict_get_In in E as [k Hk]. exact (Hft _ Hk).
Qed.

Lemma override_first_pool_nonempty (field_name : string)
    (custom_options : option (list string)) (field_type : option string) :
  Spec.override_first_pool field_name custom_options field_type <> [].
Proof.
  unfold Spec.override_first_pool.
  destruct (Spec.override_pool custom_options) as [pool|] eqn:O.
  - unfold Spec.override_pool in O.
    destruct custom_options as [[|o os]|]; try discriminate O.
    now injection O as <-.
  - destruct (Spec.field_type_pool field_type) as [pool|] eqn:T.
    + eapply field_type_pool_nonempty; eauto.
    + apply legacy_pool_nonempty.
Qed.

(** C5 (as amended): for every field name, override list and field type,
    the value is drawn from the caller-supplied override list when it is not
    empty, otherwise from the pool keyed by the field type when there is
    one, otherwise from the pool of the legacy name-substring fallback; the
    call returns a member of that pool. *)
Theorem get_synthetic_value_override_first
    (r : nat) (field_name : string)
    (custom_options : option (list string)) (field_type : option string) :
  SyntheticGenerator._get_synthetic_value r field_name custom_options field_type
  = SyntheticGenerator.choice r
      (Spec.override_first_pool field_name custom_options field_type)
  /\ exists v,
       SyntheticGenerator._get_synthetic_value r field_name custom_options field_type
       = Ok v
       /\ In v (Spec.override_first_pool field_name custom_options field_type).
Proof.
  assert (E : SyntheticGenerator._get_synthetic_value r field_name custom_options
                field_type
              = SyntheticGenerator.choice r
                  (Spec.override_first_pool field_name custom_options field_type)).
  { unfold SyntheticGenerator._get_synthetic_value, Spec.override_first_pool,
      Spec.override_pool, Spec.field_type_pool.
    destruct custom_options as [[|o os]|]; [|reflexivity|].
    all: destruct field_type as [[|c t]|];
      rewrite ?legacy_fallback_pool; try reflexivity.
    all: destruct (dict_get _ (String c t)); rewrite ?legacy_fallback_pool; reflexivity. }
  split; [exact E|]. rewrite E.
  apply choice_In, override_first_pool_nonempty.
Qed.

(** C5 (as stated) fails: with an override list and a field type that has a
    pool, the value comes from the override list, not from the field-type
    pool the stated order puts first. *)
Lemma get_synthetic_value_counterexample :
  ~ (forall (r : nat) (field_name : string) (custom_options : option (list string))
            (field_type : option string) (v : string),
       SyntheticGenerator._get_synthetic_value r field_name custom_options field_type
       = Ok v ->
       In v (Spec.stated_pool field_name custom_options field_type)).
Proof.
  intros H.
  specialize (H 0%nat "amount" (Some ["OVERRIDE-1"]) (Some "numeric_short")
                "OVERRIDE-1" eq_refl).
  vm_compute in H. intuition discriminate.
Qed.

(** The same through [generate_filled_form]: the options given for a field
    name win over the pool of the mapping's field type. *)
Example field_value_uses_override :
  let field := SyntheticGenerator.mkFieldMapping "amount" 10 10 100 20 12 "#000000"
                 SyntheticGenerator.NUMERIC_SHORT in
  SyntheticGenerator.field_value 5 field (Some [("amount", ["one"; "two"])]) = Ok "two"
  /\ SyntheticGenerator.field_value 5 field None = Ok "678"
  /\ SyntheticGenerator._get_synthetic_value 1 "Case_Number_2" None None
     = Ok "2024-CV-005678".
Proof. repeat split. Qed.

(** * Further properties of the code *)

(** ** Adapters: one result per region *)

Lemma mapM_outcome {A B} (f : A -> result B) (xs : list A) :
  match mapM f xs with
  | Ok ys => Forall2 (fun x y => f x = Ok y) xs ys
  | Raise e =>
      exists pre x post,
        xs = (pre ++ x :: post)%list
        /\ Forall (fun x' => exists y, f x' = Ok y) pre
        /\ f x = Raise e
  end.
Proof.
  induction xs as [|x xs IH]; cbn [mapM]; [constructor|].
  unfold Py.bind. destruct (f x) as [y|e] eqn:Ex.
  - destruct (mapM f xs) as [ys|e].
    + now constructor.
    + destruct IH as (pre & x' & post & -> & Hpre & Hx').
      exists (x :: pre), x', post. repeat split; [|exact Hx'].
      constructor; [now exists y | exact Hpre].
  - exists [], x, xs. repeat split; [constructor | exact Ex].
Qed.

Lemma extract_text_ids (B : OCRRegistry.Backends) (e : OCRRegistry.Engine)
    (image : PIL.Image) (regions : list Layout.Region) :
  match OCRRegistry.extract_text B e image regions with
  | Ok results =>
      List.map OCR.region_id results = List.map Layout.id regions
      /\ Forall2 (fun region r => Notions.extract_region B e image region = Ok r)
           regions results
  | Raise _ => True
  end.
Proof.
  rewrite extract_text_is_loop. unfold OCR.extract_text_loop.
  pose proof (mapM_outcome
                (OCR.extract_from_region (OCRRegistry._process_cropped_image B e) image)
                regions) as H.
  destruct (mapM _ regions) as [results|exc]; [|exact I].
  split; [|exact H].
  induction H as [|region r regions results Hr _ IH]; [reflexivity|].
  cbn [List.map]. f_equal; [|exact IH].
  unfold OCR.extract_from_region in Hr. now apply process_cropped_spec in Hr.
Qed.

(** X1: for every adapter, extract_text either returns exactly one
    OCRResult per region, in the order of the regions and each stamped with
    its region's id, or raises the exception of the first region whose
    extraction raises. *)
Theorem extract_text_one_result_per_region
    (B : OCRRegistry.Backends) (e : OCRRegistry.Engine)
    (image : PIL.Image) (regions : list Layout.Region) :
  match OCRRegistry.extract_text B e image regions with
  | Ok results =>
      List.map OCR.region_id results = List.map Layout.id regions
      /\ Forall2 (fun region r => Notions.extract_region B e image region = Ok r)
           regions results
  | Raise exc =>
      exists done region rest,
        regions = (done ++ region :: rest)%list
        /\ Forall (fun r => exists o, Notions.extract_region B e image r = Ok o) done
        /\ Notions.extract_region B e image region = Raise exc
  end.
Proof.
  rewrite extract_text_is_loop. unfold OCR.extract_text_loop.
  pose proof (mapM_outcome
                (OCR.extract_from_region (OCRRegistry._process_cropped_image B e) image)
                regions) as H.
  destruct (mapM _ regions) as [results|exc]; [|exact H].
  split; [|exact H].
  induction H as [|region r regions results Hr _ IH]; [reflexivity|].
  cbn [List.map]. f_equal; [|exact IH].
  unfold OCR.extract_from_region in Hr. now apply process_cropped_spec in Hr.
Qed.

(** X2: the handler of the MinerU adapter covers the model call only:
    when the model cannot be loaded, _process_cropped_image raises the
    loader's exception for every cropped image and region id, so that
    extract_text returns no result for a list of regions that is not empty
    (it raises), and returns the empty list when there is no region. *)
Theorem mineru_load_failure_propagates
    (B : MinerU.Backend) (image cropped : PIL.Image) (region_id : Z) (e : PyExc)
    (region : Layout.Region) (rest : list Layout.Region) :
  MinerU._load_model B = Raise e ->
  MinerU._process_cropped_image B cropped region_id = Raise e
  /\ MinerU.extract_text B image [] = Ok []
  /\ forall rs, MinerU.extract_text B image (region :: rest) <> Ok rs.
Proof.
  intros Hload. split_and!.
  - unfold MinerU._process_cropped_image. now rewrite Hload.
  - reflexivity.
  - intros rs.
    unfold MinerU.extract_text, OCR.extract_text_loop. cbn [mapM].
    unfold OCR.extract_from_region, MinerU._process_cropped_image.
    rewrite Hload. discriminate.
Qed.

Lemma mineru_load_failure_propagates_witness :
  MinerU._process_cropped_image Samples.mineru_unloadable Fixtures.page 1
  = Raise (mkExc "OSError" "model weights not found")
  /\ MinerU.extract_text Samples.mineru_unloadable Fixtures.page [] = Ok []
  /\ forall rs,
       MinerU.extract_text Samples.mineru_unloadable Fixtures.page
         [Fixtures.title_region; Fixtures.empty_region] <> Ok rs.
Proof.
  exact (mineru_load_failure_propagates Samples.mineru_unloadable Fixtures.page
           Fixtures.page 1 (mkExc "OSError" "model weights not found")
           Fixtures.title_region [Fixtures.empty_region] eq_refl).
Defined.

(** ** Detectors: the order of the regions *)

Section SortedBy.
Context {A K : Type} (le : K -> K -> bool) (key : A -> K).
Hypothesis le_total : forall a b, le a b = true \/ le b a = true.
Hypothesis le_trans : forall a b c, le a b = true -> le b c = true -> le a c = true.

Lemma insert_by_sorted (x : A) (l : list A) :
  StronglySorted (fun a b => le (key a) (key b) = true) l ->
  StronglySorted (fun a b => le (key a) (key b) = true) (Sort.insert_by le key x l).
Proof.
  induction 1 as [|y ys Hs IH Hy]; cbn [Sort.insert_by].
  - repeat constructor.
  - destruct (le (key x) (key y)) eqn:E.
    + constructor; [now constructor|].
      constructor; [exact E|].
      eapply List.Forall_impl; [|exact Hy]. cbn. intros z Hz. eapply le_trans; eauto.
    + constructor; [exact IH|].
      rewrite (insert_by_perm le key x ys). constructor; [|exact Hy].
      destruct (le_total (key x) (key y)); congruence.
Qed.

Lemma sort_by_sorted (l : list A) :
  StronglySorted (fun a b => le (key a) (key b) = true) (Sort.sort_by le key l).
Proof.
  induction l as [|x xs IH]; cbn; [constructor | now apply insert_by_sorted].
Qed.

End SortedBy.

Lemma strongly_sorted_weaken {A} (R R' : A -> A -> Prop) (l : list A) :
  (forall a b, R a b -> R' a b) -> StronglySorted R l -> StronglySorted R' l.
Proof.
  intros HR. induction 1 as [|a l _ IH Hf]; constructor; [exact IH|].
  eapply List.Forall_impl; [|exact Hf]. apply HR.
Qed.

Lemma pair_le_total (a b : Z * Z) : Sort.pair_le a b = true \/ Sort.pair_le b a = true.
Proof. unfold Sort.pair_le. destruct a, b; cbn. lia. Qed.

Lemma pair_le_trans (a b c : Z * Z) :
  Sort.pair_le a b = true -> Sort.pair_le b c = true -> Sort.pair_le a c = true.
Proof. unfold Sort.pair_le. destruct a, b, c; cbn. lia. Qed.

Lemma Qge_bool_total (a b : Q) : Qle_bool b a = true \/ Qle_bool a b = true.
Proof.
  rewrite !Qle_bool_iff. destruct (Qlt_le_dec a b); [right | left]; auto.
  now apply Qlt_le_weak.
Qed.

Lemma Qge_bool_trans (a b c : Q) :
  Qle_bool b a = true -> Qle_bool c b = true -> Qle_bool c a = true.
Proof. rewrite !Qle_bool_iff. intros. eapply Qle_trans; eauto. Qed.

Lemma reassign_ids_from_data (rs : list Layout.Region) :
  forall i,
    List.map Notions.region_data (Layout.reassign_ids_from i rs)
    = List.map Notions.region_data rs.
Proof.
  induction rs as [|r rs IH]; intros i; [reflexivity|].
  cbn [Layout.reassign_ids_from List.map]. now rewrite IH.
Qed.

(** A relation that looks at the data of the regions only holds of a list
    as soon as it holds of the lists of data. *)
Lemma sorted_by_data (R : Layout.Region -> Layout.Region -> Prop)
    (R' : string * Q * Layout.BBox -> string * Q * Layout.BBox -> Prop)
    (l : list Layout.Region) :
  (forall a b, R a b <-> R' (Notions.region_data a) (Notions.region_data b)) ->
  StronglySorted R l <-> StronglySorted R' (List.map Notions.region_data l).
Proof.
  intros HR. induction l as [|a l IH]; cbn [List.map].
  - split; constructor.
  - split; intros H; inversion H as [|? ? Hs Hf]; subst; constructor.
    + now apply IH.
    + rewrite List.Forall_map. eapply List.Forall_impl; [|exact Hf].
      cbn. intros b. apply HR.
    + now apply IH.
    + rewrite List.Forall_map in Hf. eapply List.Forall_impl; [|exact Hf].
      cbn. intros b. apply HR.
Qed.

Lemma reassign_ids_sorted (R : Layout.Region -> Layout.Region -> Prop)
    (R' : string * Q * Layout.BBox -> string * Q * Layout.BBox -> Prop)
    (l : list Layout.Region) :
  (forall a b, R a b <-> R' (Notions.region_data a) (Notions.region_data b)) ->
  StronglySorted R l -> StronglySorted R (Layout.reassign_ids l).
Proof.
  intros HR H. apply (sorted_by_data R R' _ HR) in H.
  apply (sorted_by_data R R' _ HR).
  unfold Layout.reassign_ids. now rewrite reassign_ids_from_data.
Qed.

(** X3: a detector returns the detections it collected from its back end,
    none lost and none duplicated, with type, confidence and box unchanged,
    in its own order: descending confidence for DocLayout-YOLO, top to
    bottom then left to right for DocTR and Surya; when the back end raises,
    detect raises the same exception. *)
Theorem detect_sorts_collected
    (B : LayoutRegistry.Backends) (d : LayoutRegistry.Detector) (image : PIL.Image) :
  match DetectorNotions.collected B d image with
  | Ok raw =>
      exists regions,
        LayoutRegistry.detect B d image = Ok regions
        /\ Permutation (List.map Notions.region_data regions)
                       (List.map Notions.region_data raw)
        /\ StronglySorted (DetectorNotions.in_order d) regions
  | Raise e => LayoutRegistry.detect B d image = Raise e
  end.
Proof.
  destruct d; cbn [DetectorNotions.collected LayoutRegistry.detect].
  - unfold DocLayoutYOLO.detect. unfold_result.
    destruct (DocLayoutYOLO._load_model _); [|reflexivity].
    destruct (DocLayoutYOLO.predict _ _) as [results|]; [|reflexivity].
    eexists. split; [reflexivity|]. split.
    + unfold Layout.reassign_ids. rewrite reassign_ids_from_data.
      apply Permutation_map, sort_by_perm.
    + eapply (reassign_ids_sorted _
               (fun a b => (snd (fst b) <= snd (fst a))%Q)); [intros ? ?; reflexivity|].
      eapply strongly_sorted_weaken;
        [|apply sort_by_sorted; [apply Qge_bool_total | apply Qge_bool_trans]].
      intros r1 r2 Hab. cbn. now apply Qle_bool_iff.
  - unfold DocTR.detect. unfold_result.
    destruct (DocTR._load_model _); [|reflexivity].
    destruct (DocTR.model _ _) as [pages|]; [|reflexivity].
    eexists. split; [reflexivity|]. split.
    + unfold Layout.reassign_ids. rewrite reassign_ids_from_data.
      apply Permutation_map, sort_by_perm.
    + eapply (reassign_ids_sorted _
               (fun a b => Layout.y1 (snd a) < Layout.y1 (snd b)
                           \/ (Layout.y1 (snd a) = Layout.y1 (snd b)
                               /\ Layout.x1 (snd a) <= Layout.x1 (snd b))));
        [intros ? ?; reflexivity|].
      eapply strongly_sorted_weaken;
        [|apply sort_by_sorted; [apply pair_le_total | apply pair_le_trans]].
      intros r1 r2. unfold Sort.pair_le, DocTR.sort_key. cbn. lia.
  - unfold SuryaLayout.detect. unfold_result.
    destruct (SuryaLayout._load_model _); [|reflexivity].
    destruct (SuryaLayout.predictor _ _) as [pages|]; [|reflexivity].
    eexists. split; [reflexivity|]. split.
    + unfold Layout.reassign_ids. rewrite reassign_ids_from_data.
      apply Permutation_map, sort_by_perm.
    + eapply (reassign_ids_sorted _
               (fun a b => Layout.y1 (snd a) < Layout.y1 (snd b)
                           \/ (Layout.y1 (snd a) = Layout.y1 (snd b)
                               /\ Layout.x1 (snd a) <= Layout.x1 (snd b))));
        [intros ? ?; reflexivity|].
      eapply strongly_sorted_weaken;
        [|apply sort_by_sorted; [apply pair_le_total | apply pair_le_trans]].
      intros r1 r2. unfold Sort.pair_le, DocTR.sort_key. cbn. lia.
Qed.

(** ** Adapters: the lines *)

Lemma rstrip_idem (s : string) : rstrip (rstrip s) = rstrip s.
Proof.
  induction s as [|c s IH]; [reflexivity|].
  cbn [rstrip]. destruct (rstrip s) as [|c' r] eqn:E.
  - destruct (isspace c) eqn:Ec; [reflexivity|]. cbn [rstrip]. now rewrite Ec.
  - cbn [rstrip]. cbn [rstrip] in IH. now rewrite IH.
Qed.

Lemma lstrip_head (s : string) (c : ascii) (r : string) :
  lstrip s = String c r -> isspace c = false.
Proof.
  induction s as [|c' s IH]; cbn [lstrip]; [discriminate|].
  destruct (isspace c') eqn:E; [exact IH|]. now intros [= <- <-].
Qed.

Lemma rstrip_head (c : ascii) (r : string) :
  isspace c = false -> exists r', rstrip (String c r) = String c r'.
Proof.
  intros Hc. cbn [rstrip]. destruct (rstrip r); [rewrite Hc|]; eauto.
Qed.

Lemma strip_idem (s : string) : strip (strip s) = strip s.
Proof.
  unfold strip. destruct (lstrip s) as [|c r] eqn:E; [reflexivity|].
  destruct (rstrip_head c r (lstrip_head _ _ _ E)) as [r' Hr].
  rewrite Hr. cbn [lstrip]. rewrite (lstrip_head _ _ _ E).
  rewrite <- Hr. apply rstrip_idem.
Qed.

Lemma strip_truthy_head (s : string) :
  truthy_str (strip s) = true ->
  exists c r, strip s = String c r /\ isspace c = false.
Proof.
  unfold strip. destruct (lstrip s) as [|c r] eqn:E; [discriminate|]. intros _.
  destruct (rstrip_head c r (lstrip_head _ _ _ E)) as [r' Hr].
  exists c, r'. split; [exact Hr | exact (lstrip_head _ _ _ E)].
Qed.

Lemma split_on_no_sep (sep : ascii) (s : string) :
  Notions.has_char sep s = false -> split_on sep s = [s].
Proof.
  induction s as [|c s IH]; cbn [Notions.has_char split_on]; [reflexivity|].
  destruct (Ascii.eqb c sep); [discriminate|]. cbn [orb]. intros H.
  now rewrite (IH H).
Qed.

(** X4: when the text the GOT-OCR model decodes has, once stripped, no
    line break, the adapter returns that text as full_text and as its only
    line (no line at all when it is empty), so full_text is the join of the
    line texts. *)
Theorem got_ocr_single_line_is_joined
    (B : GotOCR.Backend) (image : PIL.Image) (region_id : Z) (decoded : string) :
  GotOCR._load_model B = Ok tt ->
  GotOCR.generate B (PIL.ensure_rgb image) = Ok decoded ->
  Notions.has_char LF (strip decoded) = false ->
  exists r,
    GotOCR._process_cropped_image B image region_id = Ok r
    /\ OCR.full_text r = strip decoded
    /\ List.map OCR.text (OCR.lines r)
       = (if truthy_str (strip decoded) then [strip decoded] else [])
    /\ Spec.full_text_joined r.
Proof.
  intros Hload Hgen Hlf.
  unfold GotOCR._process_cropped_image. rewrite Hload. unfold_result. rewrite Hgen.
  eexists. split; [reflexivity|]. cbn [OCR.full_text OCR.lines].
  assert (Hl : List.map OCR.text
                 (if truthy_str (strip decoded)
                  then GotOCR.loop (PIL.ensure_rgb image)
                         (split_on LF (strip decoded)) []
                  else [])
               = if truthy_str (strip decoded) then [strip decoded] else []).
  { destruct (truthy_str (strip decoded)) eqn:T; [|reflexivity].
    rewrite (split_on_no_sep _ _ Hlf). cbn [GotOCR.loop].
    rewrite strip_idem, T. reflexivity. }
  split; [reflexivity|]. split; [exact Hl|].
  unfold Spec.full_text_joined. cbn [OCR.full_text OCR.lines]. rewrite Hl.
  destruct (strip decoded); reflexivity.
Qed.

Lemma got_ocr_single_line_is_joined_witness :
  exists r,
    GotOCR._process_cropped_image Samples.got_single_line Fixtures.page 7 = Ok r
    /\ OCR.full_text r = "Motion to dismiss"
    /\ List.map OCR.text (OCR.lines r) = ["Motion to dismiss"]
    /\ Spec.full_text_joined r.
Proof.
  exact (got_ocr_single_line_is_joined Samples.got_single_line Fixtures.page 7
           "  Motion to dismiss " eq_refl eq_refl eq_refl).
Defined.

Section NonEmptyLines.

Local Abbreviation nonempty := (Forall (fun l : OCR.TextLine => OCR.text l <> "")).

Lemma truthy_nonempty (s : string) : negb (truthy_str s) = false -> s <> "".
Proof. destruct s; [discriminate | intros _; discriminate]. Qed.

Lemma nonempty_snoc (lines : list OCR.TextLine) (line : OCR.TextLine) :
  nonempty lines -> OCR.text line <> "" -> nonempty (lines ++ [line]).
Proof. intros H1 H2. apply Forall_app. split; [exact H1 | now constructor]. Qed.

Lemma paddle_inner_nonempty scores boxes (texts : list string) :
  forall i lines parts,
    nonempty lines -> nonempty (fst (PaddleOCR.inner scores boxes i texts lines parts)).
Proof.
  induction texts as [|t ts IH]; intros i lines parts H; [exact H|].
  cbn [PaddleOCR.inner]. destruct (negb (truthy_str t)) eqn:E; apply IH; [exact H|].
  apply nonempty_snoc; [exact H|]. now apply truthy_nonempty.
Qed.

Lemma paddle_loop_nonempty (results : list PaddleOCR.Res) :
  forall lines parts,
    nonempty lines -> nonempty (fst (PaddleOCR.loop results lines parts)).
Proof.
  induction results as [|res rest IH]; intros lines parts H; [exact H|].
  cbn [PaddleOCR.loop].
  pose proof (paddle_inner_nonempty (default [] (PaddleOCR.rec_scores res))
                (PaddleOCR.rec_boxes res) (default [] (PaddleOCR.rec_texts res))
                0 lines parts H) as Hi.
  destruct (PaddleOCR.inner _ _ _ _ _ _) as [lines1 parts1]. now apply IH.
Qed.

Lemma trocr_loop_nonempty (B : TrOCR.Backend) (image : PIL.Image) (regions : list (Z * Z)) :
  forall lines parts lines' parts',
    TrOCR.loop B image regions lines parts = Ok (lines', parts') ->
    nonempty lines -> nonempty lines'.
Proof.
  induction regions as [|[y_start y_end] regions IH];
    intros lines parts lines' parts' H Hn.
  - cbn in H. now injection H as <- <-.
  - cbn [TrOCR.loop] in H.
    destruct (PIL.height _ <? 5); [eapply IH; eauto|].
    unfold_result.
    destruct (TrOCR.recognize B _) as [decoded|]; [|discriminate].
    destruct (negb (truthy_str (strip decoded))) eqn:E; [eapply IH; eauto|].
    eapply IH; [exact H|]. apply nonempty_snoc; [exact Hn|].
    now apply truthy_nonempty.
Qed.

Lemma got_loop_nonempty (image : PIL.Image) (texts : list string) :
  forall lines, nonempty lines -> nonempty (GotOCR.loop image texts lines).
Proof.
  induction texts as [|t ts IH]; intros lines H; [exact H|].
  cbn [GotOCR.loop]. destruct (negb (truthy_str (strip t))) eqn:E; apply IH; [exact H|].
  apply nonempty_snoc; [exact H|]. now apply truthy_nonempty.
Qed.

Lemma mineru_inner_nonempty (box : Layout.BBox) (texts : list string) :
  forall lines parts,
    nonempty lines -> nonempty (fst (MinerU.inner box texts lines parts)).
Proof.
  induction texts as [|t ts IH]; intros lines parts H; [exact H|].
  cbn [MinerU.inner]. destruct (negb (truthy_str (strip t))) eqn:E; apply IH; [exact H|].
  apply nonempty_snoc; [exact H|]. now apply truthy_nonempty.
Qed.

Lemma mineru_loop_nonempty (w h : Z) (blocks : list MinerU.Block) :
  forall lines parts,
    nonempty lines -> nonempty (fst (MinerU.loop w h blocks lines parts)).
Proof.
  induction blocks as [|b blocks IH]; intros lines parts H; [exact H|].
  cbn [MinerU.loop]. destruct (negb (truthy_str _)); [now apply IH|].
  pose proof (mineru_inner_nonempty (MinerU.block_box w h (MinerU.block_bbox b))
                (split_on LF (strip (default "" (MinerU.content b)))) lines parts H) as Hi.
  destruct (MinerU.inner _ _ _ _) as [lines1 parts1]. now apply IH.
Qed.

(** Every group of [line_groups] holds at least one word, and no empty
    word. *)
Lemma tesseract_add_word_words (groups : gmap Z Tesseract.Group) (w : Tesseract.Word) :
  map_Forall (fun _ g => Tesseract.words g <> [] /\ Forall (fun t => t <> "") (Tesseract.words g))
    groups ->
  map_Forall (fun _ g => Tesseract.words g <> [] /\ Forall (fun t => t <> "") (Tesseract.words g))
    (Tesseract.add_word groups w).
Proof.
  intros H. unfold Tesseract.add_word.
  destruct (negb (truthy_str (strip (Tesseract.w_text w)))) eqn:E; [exact H|].
  cbn [orb]. destruct (int_of_float (Tesseract.w_conf w) <? 0); [exact H|].
  apply map_Forall_insert_2; [|exact H]. cbn [Tesseract.words]. split.
  - intros Habs. now apply app_eq_nil in Habs as [_ Habs].
  - apply Forall_app. split.
    + destruct (groups !! Tesseract.w_line_num w) as [g|] eqn:G; [|constructor].
      exact (proj2 (H _ _ G)).
    + constructor; [now apply truthy_nonempty | constructor].
Qed.

Lemma tesseract_group_words_words (data : list Tesseract.Word) :
  map_Forall (fun _ g => Tesseract.words g <> [] /\ Forall (fun t => t <> "") (Tesseract.words g))
    (Tesseract.group_words data).
Proof.
  unfold Tesseract.group_words.
  assert (G : forall groups,
             map_Forall (fun _ g => Tesseract.words g <> []
                                    /\ Forall (fun t => t <> "") (Tesseract.words g)) groups ->
             map_Forall (fun _ g => Tesseract.words g <> []
                                    /\ Forall (fun t => t <> "") (Tesseract.words g))
               (fold_left Tesseract.add_word data groups)).
  { induction data as [|w data IH]; intros groups H; [exact H|].
    cbn [fold_left]. apply IH. now apply tesseract_add_word_words. }
  apply G. apply map_Forall_empty.
Qed.

Lemma join_nonempty (sep : string) (ws : list string) :
  ws <> [] -> Forall (fun t => t <> "") ws -> join sep ws <> "".
Proof.
  destruct ws as [|w ws]; [congruence|]. intros _ H.
  inversion H as [|? ? Hw _]; subst.
  destruct w as [|c w]; [congruence|].
  destruct ws; cbn; discriminate.
Qed.

Lemma tesseract_loop_nonempty (groups : gmap Z Tesseract.Group) (keys : list Z) :
  map_Forall (fun _ g => Tesseract.words g <> [] /\ Forall (fun t => t <> "") (Tesseract.words g))
    groups ->
  forall lines parts,
    nonempty lines -> nonempty (fst (Tesseract.loop groups keys lines parts)).
Proof.
  intros Hg. induction keys as [|k keys IH]; intros lines parts H; [exact H|].
  cbn [Tesseract.loop]. destruct (groups !! k) as [g|] eqn:G; apply IH; [|exact H].
  apply nonempty_snoc; [exact H|]. cbn [Tesseract.line_of_group OCR.text].
  destruct (Hg _ _ G) as [H1 H2]. now apply join_nonempty.
Qed.

End NonEmptyLines.

(** X5: the PaddleOCR, Tesseract, TrOCR, GOT-OCR and MinerU adapters
    never emit a line whose text is empty (EasyOCR and Surya pass on what
    their back end returns). *)
Theorem adapters_emit_no_empty_line
    (B : OCRRegistry.Backends) (e : OCRRegistry.Engine)
    (image : PIL.Image) (region_id : Z) (r : OCR.OCRResult) :
  DetectorNotions.skips_empty_text e = true ->
  OCRRegistry._process_cropped_image B e image region_id = Ok r ->
  Forall (fun l => OCR.text l <> "") (OCR.lines r).
Proof.
  intros He.
  destruct e; try discriminate He; cbn [OCRRegistry._process_cropped_image]; intros H.
  - unfold PaddleOCR._process_cropped_image in H. unfold_result.
    destruct (PaddleOCR._load_model _); [|discriminate].
    destruct (PaddleOCR.predict _ _) as [results|]; [|discriminate].
    pose proof (paddle_loop_nonempty results [] [] (List.Forall_nil _)) as Hl.
    destruct (PaddleOCR.loop _ _ _) as [lines parts]. now injection H as <-.
  - unfold Tesseract._process_cropped_image in H. unfold_result.
    destruct (Tesseract.image_to_data _ _) as [data|]; [|discriminate].
    pose proof (tesseract_loop_nonempty (Tesseract.group_words data)
                  (Tesseract.sorted_keys (Tesseract.group_words data))
                  (tesseract_group_words_words data) [] [] (List.Forall_nil _)) as Hl.
    destruct (Tesseract.loop _ _ _ _) as [lines parts]. now injection H as <-.
  - unfold TrOCR._process_cropped_image in H. unfold_result.
    destruct (TrOCR._load_model _); [|discriminate].
    destruct (TrOCR.loop _ _ _ _ _) as [[lines parts]|] eqn:E; [|discriminate].
    injection H as <-. cbn. eapply trocr_loop_nonempty; [exact E | constructor].
  - unfold GotOCR._process_cropped_image in H. unfold_result.
    destruct (GotOCR._load_model _); [|discriminate].
    destruct (GotOCR.generate _ _) as [decoded|]; [|discriminate].
    injection H as <-. cbn.
    destruct (truthy_str (strip decoded)); [|constructor].
    apply got_loop_nonempty. constructor.
  - unfold MinerU._process_cropped_image in H. unfold_result.
    destruct (MinerU._load_model _); [|discriminate].
    destruct (MinerU.two_step_extract _ _) as [blocks|].
    + cbn [PIL.size] in H.
      pose proof (mineru_loop_nonempty (PIL.width (PIL.ensure_rgb image))
                    (PIL.height (PIL.ensure_rgb image)) blocks [] [] (List.Forall_nil _)) as Hl.
      destruct (MinerU.loop _ _ _ _ _) as [lines parts]. now injection H as <-.
    + injection H as <-. constructor.
Qed.

Lemma adapters_emit_no_empty_line_witness :
  exists r,
    OCRRegistry._process_cropped_image Fixtures.ocr_backends OCRRegistry.PaddleOCREngine
      Fixtures.page 3 = Ok r
    /\ List.map OCR.text (OCR.lines r) = ["2024-CV-001234"; "TX"]
    /\ Forall (fun l => OCR.text l <> "") (OCR.lines r).
Proof.
  eexists. split; [reflexivity|]. split; [reflexivity|].
  exact (adapters_emit_no_empty_line Fixtures.ocr_backends OCRRegistry.PaddleOCREngine
           Fixtures.page 3 _ eq_refl eq_refl).
Defined.

(** ** TrOCR: the line boxes *)

Lemma scan_step_inv (min_gap n : Z) (yps : list (Z * Z)) :
  Forall (fun yp => 0 <= fst yp < n) yps ->
  forall st,
    0 <= snd st /\ Forall (DetectorNotions.line_ok min_gap n) (snd (fst st)) ->
    0 <= snd (fold_left (TrOCR.scan_step min_gap) yps st)
    /\ Forall (DetectorNotions.line_ok min_gap n)
         (snd (fst (fold_left (TrOCR.scan_step min_gap) yps st))).
Proof.
  induction 1 as [|[y p] yps Hy _ IH]; intros [[in_line lines] start] Hst;
    [exact Hst|].
  cbn [fold_left]. apply IH. cbn [fst snd] in Hy, Hst |- *.
  unfold TrOCR.scan_step.
  destruct ((0 <? p) && negb in_line); [cbn; split; [lia | apply Hst]|].
  destruct ((p =? 0) && in_line); [|exact Hst].
  cbn [fst snd]. split; [apply Hst|].
  destruct (min_gap <? y - start) eqn:E; [|apply Hst].
  apply Forall_app. split; [apply Hst|].
  constructor; [|constructor]. unfold DetectorNotions.line_ok. cbn. lia.
Qed.

(** X6: [_split_into_lines] never returns an empty list: it returns
    either the single box of the whole image, (0, height), or boxes that
    start at a row of the image, end within it and are more than [min_gap]
    rows high. *)
Theorem split_into_lines_boxes (image : PIL.Image) (min_gap : Z) :
  TrOCR._split_into_lines image min_gap = [(0, PIL.height image)]
  \/ (TrOCR._split_into_lines image min_gap <> []
      /\ Forall (DetectorNotions.line_ok min_gap (PIL.height image))
           (TrOCR._split_into_lines image min_gap)).
Proof.
  unfold TrOCR._split_into_lines.
  set (hp := TrOCR.h_proj image).
  assert (Hlen : length hp = Z.to_nat (PIL.height image)).
  { unfold hp, TrOCR.h_proj. now rewrite length_map, length_seq. }
  destruct (Z_le_gt_dec (PIL.height image) 0) as [Hneg|Hpos].
  - left. replace (Z.to_nat (PIL.height image)) with 0%nat in Hlen by lia.
    destruct hp; [reflexivity | discriminate].
  - assert (Hn : Z.of_nat (length hp) = PIL.height image) by lia.
    pose proof (scan_step_inv min_gap (PIL.height image)
                  (combine (List.map Z.of_nat (seq 0 (length hp))) hp)) as Hinv.
    assert (Hys : Forall (fun yp : Z * Z => 0 <= fst yp < PIL.height image)
                    (combine (List.map Z.of_nat (seq 0 (length hp))) hp)).
    { apply List.Forall_forall. intros [y p] Hin. apply in_combine_l in Hin.
      apply in_map_iff in Hin as (k & <- & Hk). apply in_seq in Hk. cbn. lia. }
    specialize (Hinv Hys (false, [], 0)). cbn [fst snd] in Hinv.
    specialize (Hinv (conj (Z.le_refl 0) (List.Forall_nil _))).
    destruct (fold_left _ _ _) as [[in_line lines] start]. cbn [fst snd] in Hinv.
    destruct Hinv as [Hs Hl]. rewrite Hn.
    set (lines' := if in_line
                   then (if min_gap <? PIL.height image - start
                         then (lines ++ [(start, PIL.height image)])%list else lines)
                   else lines).
    assert (Hl' : Forall (DetectorNotions.line_ok min_gap (PIL.height image)) lines').
    { unfold lines'. destruct in_line; [|exact Hl].
      destruct (min_gap <? PIL.height image - start) eqn:E; [|exact Hl].
      apply Forall_app. split; [exact Hl|]. constructor; [|constructor].
      unfold DetectorNotions.line_ok. cbn. lia. }
    destruct lines' as [|l ls]; [left; reflexivity|].
    right. cbn [truthy_list negb]. split; [discriminate | exact Hl'].
Qed.

Example split_into_lines_two_lines :
  let image := PIL.mkImage "RGB" 3 20
                 (fun x y => if ((2 <=? y) && (y <? 9))
                                || ((12 <=? y) && (y <? 14)) || (15 <=? y)
                             then (0, 0, 0) else (255, 255, 255)) in
  TrOCR._split_into_lines image 5 = [(2, 9)]
  /\ TrOCR._split_into_lines image 4 = [(2, 9); (15, 20)]
  /\ TrOCR._split_into_lines Fixtures.page 5 = [(0, 200)].
Proof. vm_compute. repeat split. Qed.

(** ** The registries *)

Lemma get_layout_detector_name (name : string) (d : LayoutRegistry.Detector) :
  LayoutRegistry.get_layout_detector name = Ok d -> LayoutRegistry.name d = name.
Proof.
  unfold LayoutRegistry.get_layout_detector.
  repeat match goal with
         | |- context [String.eqb name ?s] =>
             let E := fresh "E" in
             destruct (String.eqb name s) eqn:E;
             [apply String.eqb_eq in E; subst; now intros [= <-]|]
         end.
  discriminate.
Qed.

Lemma get_ocr_engine_name (name : string) (e : OCRRegistry.Engine) :
  OCRRegistry.get_ocr_engine name = Ok e -> OCRRegistry.name e = name.
Proof.
  unfold OCRRegistry.get_ocr_engine.
  repeat match goal with
         | |- context [String.eqb name ?s] =>
             let E := fresh "E" in
             destruct (String.eqb name s) eqn:E;
             [apply String.eqb_eq in E; subst; now intros [= <-]|]
         end.
  discriminate.
Qed.

Lemma get_layout_detector_listed (name : string) :
  match LayoutRegistry.get_layout_detector name with
  | Ok _ => RegistryNames.name_in name RegistryNames.list_layout_detectors = true
  | Raise e =>
      RegistryNames.name_in name RegistryNames.list_layout_detectors = false
      /\ e = mkExc "ValueError"
               ("Unknown layout detector: " ++ name
                ++ ". Available: ['doclayout_yolo', 'doctr', 'surya']")
  end.
Proof.
  unfold LayoutRegistry.get_layout_detector, RegistryNames.name_in. cbn [existsb
    RegistryNames.list_layout_detectors RegistryNames._LAYOUT_DETECTOR_NAMES].
  destruct (String.eqb name "doclayout_yolo"); [reflexivity|].
  destruct (String.eqb name "doctr"); [reflexivity|].
  destruct (String.eqb name "surya"); [reflexivity|]. now split.
Qed.

Lemma get_ocr_engine_listed (name : string) :
  match OCRRegistry.get_ocr_engine name with
  | Ok _ => RegistryNames.name_in name RegistryNames.list_ocr_engines = true
  | Raise e =>
      RegistryNames.name_in name RegistryNames.list_ocr_engines = false
      /\ e = mkExc "ValueError"
               ("Unknown OCR engine: " ++ name
                ++ ". Available: ['easyocr', 'surya', 'paddleocr', 'tesseract', 'trocr', 'got_ocr', 'mineru']")
  end.
Proof.
  unfold OCRRegistry.get_ocr_engine, RegistryNames.name_in. cbn [existsb
    RegistryNames.list_ocr_engines RegistryNames._OCR_ENGINE_NAMES].
  destruct (String.eqb name "easyocr"); [reflexivity|].
  destruct (String.eqb name "surya"); [reflexivity|].
  destruct (String.eqb name "paddleocr"); [reflexivity|].
  destruct (String.eqb name "tesseract"); [reflexivity|].
  destruct (String.eqb name "trocr"); [reflexivity|].
  destruct (String.eqb name "got_ocr"); [reflexivity|].
  destruct (String.eqb name "mineru"); [reflexivity|]. now split.
Qed.

(** X7: the registries and their name lists agree: a name resolves to an
    adapter exactly when list_layout_detectors (list_ocr_engines) holds it,
    the adapter found reports that very name, and any other name raises
    ValueError. *)
Theorem registries_agree_with_name_lists (name : string) :
  match LayoutRegistry.get_layout_detector name with
  | Ok d =>
      In name RegistryNames.list_layout_detectors /\ LayoutRegistry.name d = name
  | Raise e =>
      ~ In name RegistryNames.list_layout_detectors /\ exc_type e = "ValueError"
  end
  /\ match OCRRegistry.get_ocr_engine name with
     | Ok e => In name RegistryNames.list_ocr_engines /\ OCRRegistry.name e = name
     | Raise e => ~ In name RegistryNames.list_ocr_engines /\ exc_type e = "ValueError"
     end.
Proof.
  assert (Hin : forall names, RegistryNames.name_in name names = true <-> In name names).
  { intros names. unfold RegistryNames.name_in. rewrite existsb_exists. split.
    - intros (x & Hx & E). apply String.eqb_eq in E. now subst.
    - intros H. exists name. split; [exact H | apply String.eqb_refl]. }
  split.
  - pose proof (get_layout_detector_listed name) as H.
    pose proof (get_layout_detector_name name) as Hn.
    destruct (LayoutRegistry.get_layout_detector name) as [d|e].
    + split; [now apply Hin | now apply Hn].
    + destruct H as [H ->]. split; [|reflexivity].
      rewrite <- Hin. congruence.
  - pose proof (get_ocr_engine_listed name) as H.
    pose proof (get_ocr_engine_name name) as Hn.
    destruct (OCRRegistry.get_ocr_engine name) as [e|e].
    + split; [now apply Hin | now apply Hn].
    + destruct H as [H ->]. split; [|reflexivity].
      rewrite <- Hin. congruence.
Qed.

(** ** Field-mapped mode *)

(** X8: in field-mapped mode a name that is not in a registry is found
    out per document, after its image has been downloaded and decoded and
    before any detection or extraction: the outcome is the registry's
    ValueError (the layout detector is looked up first) and the download is
    the only service call. *)
Theorem process_document_unknown_library
    (S : Pipeline.Services) (document : Models.SyntheticDocument)
    (layout_library ocr_library : string)
    (image_bytes : list Byte.byte) (image : PIL.Image) :
  Pipeline.download_file S (Models.storage_path document) = Ok image_bytes ->
  Pipeline.image_open S image_bytes = Ok image ->
  RegistryNames.name_in layout_library RegistryNames.list_layout_detectors
  && RegistryNames.name_in ocr_library RegistryNames.list_ocr_engines = false ->
  let t := Pipeline.process_document S document layout_library ocr_library in
  Pipeline.calls t = [Pipeline.CallDownload (Models.storage_path document)]
  /\ Pipeline.outcome t
     = Raise (mkExc "ValueError"
         (if RegistryNames.name_in layout_library RegistryNames.list_layout_detectors
          then "Unknown OCR engine: " ++ ocr_library
               ++ ". Available: ['easyocr', 'surya', 'paddleocr', 'tesseract', 'trocr', 'got_ocr', 'mineru']"
          else "Unknown layout detector: " ++ layout_library
               ++ ". Available: ['doclayout_yolo', 'doctr', 'surya']")).
Proof.
  intros Hd Hi Hn t. subst t.
  unfold Pipeline.process_document, mbind, Pipeline.traced_bind,
    Pipeline.call, Pipeline.pure.
  cbn [Pipeline.outcome Pipeline.calls]. rewrite Hd.
  cbn [Pipeline.outcome Pipeline.calls]. rewrite Hi.
  cbn [Pipeline.outcome Pipeline.calls].
  pose proof (get_layout_detector_listed layout_library) as Hl.
  pose proof (get_ocr_engine_listed ocr_library) as Ho.
  destruct (LayoutRegistry.get_layout_detector layout_library) as [d|e].
  - rewrite Hl in Hn |- *. cbn [andb] in Hn.
    cbn [Pipeline.outcome Pipeline.calls].
    destruct (OCRRegistry.get_ocr_engine ocr_library) as [e|e]; [congruence|].
    destruct Ho as [_ ->]. cbn [Pipeline.outcome Pipeline.calls app]. now split.
  - destruct Hl as [-> ->]. cbn [Pipeline.outcome Pipeline.calls app]. now split.
Qed.

Lemma process_document_unknown_library_witness :
  let t := Pipeline.process_document Fixtures.services Fixtures.doc1 "doctr" "abbyy" in
  Pipeline.calls t = [Pipeline.CallDownload "a1.png"]
  /\ Pipeline.outcome t
     = Raise (mkExc "ValueError"
         "Unknown OCR engine: abbyy. Available: ['easyocr', 'surya', 'paddleocr', 'tesseract', 'trocr', 'got_ocr', 'mineru']").
Proof.
  exact (process_document_unknown_library Fixtures.services Fixtures.doc1
           "doctr" "abbyy" (list_byte_of_string "a1.png")
           (PIL.mkImage "RGB" 6 200 (fun _ _ => (255, 255, 255)))
           eq_refl eq_refl eq_refl).
Defined.

(** The outcome of [process_document], step by step. *)
Lemma process_document_outcome (S : Pipeline.Services)
    (document : Models.SyntheticDocument) (layout_library ocr_library : string) :
  Pipeline.outcome (Pipeline.process_document S document layout_library ocr_library)
  = (image_bytes ← Pipeline.download_file S (Models.storage_path document);
     image ← Pipeline.image_open S image_bytes;
     d ← LayoutRegistry.get_layout_detector layout_library;
     e ← OCRRegistry.get_ocr_engine ocr_library;
     regions ← LayoutRegistry.detect (Pipeline.layout_backends S) d image;
     rs ← OCRRegistry.extract_text (Pipeline.ocr_backends S) e image regions;
     mret {| Models.layout_results := Layout.to_dict (LayoutRegistry.name d) regions;
             Models.ocr_results := OCR.to_dict (OCRRegistry.name e) rs;
             Models.extracted_fields :=
               Pipeline._match_fields (Models.field_values document) rs;
             Models.overall_accuracy :=
               Pipeline._calculate_accuracy
                 (Pipeline._match_fields (Models.field_values document) rs) |}).
Proof.
  unfold Pipeline.process_document, mbind, Pipeline.traced_bind, result_bind,
    Pipeline.call, Pipeline.pure, Py.bind.
  cbn [Pipeline.outcome Pipeline.calls].
  repeat match goal with
         | |- context [match ?m with Ok _ => _ | Raise _ => _ end] =>
             destruct m; cbn [Pipeline.outcome Pipeline.calls]
         end; reflexivity.
Qed.

Lemma match_fields_shape (expected_values : list (string * string))
    (rs : list OCR.OCRResult) :
  List.map Models.field_name (Pipeline._match_fields expected_values rs)
  = List.map fst expected_values
  /\ List.map Models.expected_value (Pipeline._match_fields expected_values rs)
     = List.map snd expected_values
  /\ Forall PipelineNotions.fresh (Pipeline._match_fields expected_values rs).
Proof.
  unfold Pipeline._match_fields.
  induction expected_values as [|[n v] evs (IH1 & IH2 & IH3)]; cbn [List.map].
  - repeat split. constructor.
  - rewrite IH1, IH2. repeat split. constructor; [|exact IH3]. now repeat split.
Qed.

Lemma filter_all_important (fs : list Models.ExtractedField) :
  Forall PipelineNotions.fresh fs -> List.filter Models.is_important fs = fs.
Proof.
  induction 1 as [|f fs [Hf _] _ IH]; cbn [List.filter]; [reflexivity|].
  now rewrite Hf, IH.
Qed.

(** X9: when field-mapped processing of a document returns, the result
    holds one extracted field per expected field, in the order of the
    document's field values and with their names and expected values, each
    flagged important and unverified; its accuracy is then the plain mean of
    all match scores (0.0 without fields); and the OCR results hold one
    region per detected region, with the same ids in the same order. *)
Theorem process_document_result_shape
    (S : Pipeline.Services) (document : Models.SyntheticDocument)
    (layout_library ocr_library : string) (res : Models.DocResults) :
  Pipeline.outcome (Pipeline.process_document S document layout_library ocr_library)
  = Ok res ->
  List.map Models.field_name (Models.extracted_fields res)
  = List.map fst (Models.field_values document)
  /\ List.map Models.expected_value (Models.extracted_fields res)
     = List.map snd (Models.field_values document)
  /\ Forall PipelineNotions.fresh (Models.extracted_fields res)
  /\ Models.overall_accuracy res
     = match Models.extracted_fields res with
       | [] => 0%Q
       | fs => Spec.mean (List.map Models.match_score fs)
       end
  /\ List.map OCR.region_id (OCR.regions (Models.ocr_results res))
     = List.map Layout.id (Layout.regions (Models.layout_results res))
  /\ Some (OCR.num_regions (Models.ocr_results res))
     = Layout.num_regions (Models.layout_results res).
Proof.
  rewrite process_document_outcome. unfold_result. intros H.
  destruct (Pipeline.download_file S _) as [image_bytes|]; [|discriminate].
  destruct (Pipeline.image_open S _) as [image|]; [|discriminate].
  destruct (LayoutRegistry.get_layout_detector _) as [d|]; [|discriminate].
  destruct (OCRRegistry.get_ocr_engine _) as [e|]; [|discriminate].
  destruct (LayoutRegistry.detect _ _ _) as [regions|]; [|discriminate].
  pose proof (extract_text_ids (Pipeline.ocr_backends S) e image regions) as Hx.
  destruct (OCRRegistry.extract_text _ _ _ _) as [rs|]; [|discriminate].
  destruct Hx as [Hx _].
  injection H as <-.
  cbn [Models.extracted_fields Models.overall_accuracy Models.ocr_results
       Models.layout_results OCR.to_dict Layout.to_dict OCR.regions Layout.regions
       OCR.num_regions Layout.num_regions].
  destruct (match_fields_shape (Models.field_values document) rs) as (H1 & H2 & H3).
  repeat split; try assumption.
  - unfold Pipeline._calculate_accuracy, Spec.mean.
    rewrite (filter_all_important _ H3).
    destruct (Pipeline._match_fields _ rs); [reflexivity|].
    cbn [truthy_list negb]. now rewrite len_map.
  - f_equal. f_equal. rewrite <- (length_map OCR.region_id rs), Hx.
    now rewrite length_map.
Qed.

Lemma process_document_result_shape_witness :
  exists res,
    Pipeline.outcome (Pipeline.process_document Fixtures.services Samples2.two_fields
                        "doctr" "easyocr") = Ok res
    /\ List.map Models.field_name (Models.extracted_fields res) = ["case_number"; "state"]
    /\ List.map Models.expected_value (Models.extracted_fields res)
       = ["2024-CV-001234"; "TX"]
    /\ Forall PipelineNotions.fresh (Models.extracted_fields res)
    /\ List.map OCR.region_id (OCR.regions (Models.ocr_results res)) = [1; 2].
Proof.
  destruct (Pipeline.outcome (Pipeline.process_document Fixtures.services
              Samples2.two_fields "doctr" "easyocr")) as [res|e] eqn:E;
    [|vm_compute in E; discriminate E].
  exists res.
  destruct (process_document_result_shape Fixtures.services Samples2.two_fields
              "doctr" "easyocr" res E) as (H1 & H2 & H3 & _ & H5 & _).
  repeat split; try assumption.
  rewrite H5. vm_compute in E. injection E as <-. reflexivity.
Defined.

Lemma extract_text_nil (B : OCRRegistry.Backends) (e : OCRRegistry.Engine)
    (image : PIL.Image) :
  OCRRegistry.extract_text B e image [] = Ok [].
Proof. now destruct e. Qed.

Lemma match_fields_nil (expected_values : list (string * string)) :
  Pipeline._match_fields expected_values []
  = List.map PipelineNotions.unmatched_field expected_values.
Proof.
  unfold Pipeline._match_fields. apply List.map_ext. now intros [n v].
Qed.

Lemma sum_unmatched (expected_values : list (string * string)) :
  forall acc,
    fold_left Qplus
      (List.map Models.match_score
         (List.map PipelineNotions.unmatched_field expected_values)) acc
    == acc.
Proof.
  induction expected_values as [|item evs IH]; intros acc; cbn [List.map fold_left].
  - reflexivity.
  - rewrite IH. cbn [PipelineNotions.unmatched_field Models.match_score].
    apply Qplus_0_r.
Qed.

(** X10: when the detector finds no region, the engine is called on the
    empty list and returns no result, every expected field comes out
    unmatched (empty extracted value, confidence 0.0, score 0.0) and the
    document's accuracy is 0.0. *)
Theorem process_document_without_regions
    (S : Pipeline.Services) (document : Models.SyntheticDocument)
    (layout_library ocr_library : string)
    (image_bytes : list Byte.byte) (image : PIL.Image)
    (d : LayoutRegistry.Detector) (e : OCRRegistry.Engine) :
  Pipeline.download_file S (Models.storage_path document) = Ok image_bytes ->
  Pipeline.image_open S image_bytes = Ok image ->
  LayoutRegistry.get_layout_detector layout_library = Ok d ->
  OCRRegistry.get_ocr_engine ocr_library = Ok e ->
  LayoutRegistry.detect (Pipeline.layout_backends S) d image = Ok [] ->
  let t := Pipeline.process_document S document layout_library ocr_library in
  Pipeline.calls t
  = [Pipeline.CallDownload (Models.storage_path document);
     Pipeline.CallDetect (LayoutRegistry.name d);
     Pipeline.CallExtract (OCRRegistry.name e) []]
  /\ exists res,
       Pipeline.outcome t = Ok res
       /\ OCR.regions (Models.ocr_results res) = []
       /\ Models.extracted_fields res
          = List.map PipelineNotions.unmatched_field (Models.field_values document)
       /\ Models.overall_accuracy res == 0.
Proof.
  intros Hd Hi Hl Ho Hdet t. subst t.
  unfold Pipeline.process_document, mbind, Pipeline.traced_bind,
    Pipeline.call, Pipeline.pure.
  cbn [Pipeline.outcome Pipeline.calls]. rewrite Hd.
  cbn [Pipeline.outcome Pipeline.calls]. rewrite Hi.
  cbn [Pipeline.outcome Pipeline.calls]. rewrite Hl.
  cbn [Pipeline.outcome Pipeline.calls]. rewrite Ho.
  cbn [Pipeline.outcome Pipeline.calls]. rewrite Hdet.
  cbn [Pipeline.outcome Pipeline.calls]. rewrite extract_text_nil.
  cbn [Pipeline.outcome Pipeline.calls app]. split; [reflexivity|].
  eexists. split; [reflexivity|].
  cbn [Models.ocr_results Models.extracted_fields Models.overall_accuracy
       OCR.to_dict OCR.regions].
  rewrite match_fields_nil. repeat split.
  unfold Pipeline._calculate_accuracy.
  destruct (Models.field_values document) as [|item evs]; [reflexivity|].
  set (fs := List.map PipelineNotions.unmatched_field (item :: evs)).
  assert (Hf : List.filter Models.is_important fs = fs).
  { unfold fs. clear. induction (item :: evs) as [|i l IH]; [reflexivity|].
    cbn [List.map List.filter PipelineNotions.unmatched_field Models.is_important].
    now rewrite IH. }
  replace (truthy_list fs) with true by reflexivity. cbn [negb].
  rewrite Hf. replace (truthy_list fs) with true by reflexivity. cbn [negb].
  unfold Py.sum, fs. rewrite sum_unmatched. unfold Qdiv. apply Qmult_0_l.
Qed.

Lemma process_document_without_regions_witness :
  let t := Pipeline.process_document Samples2.services_blind Samples2.two_fields
             "doctr" "tesseract" in
  Pipeline.calls t
  = [Pipeline.CallDownload "nine.png"; Pipeline.CallDetect "doctr";
     Pipeline.CallExtract "tesseract" []]
  /\ exists res,
       Pipeline.outcome t = Ok res
       /\ OCR.regions (Models.ocr_results res) = []
       /\ Models.extracted_fields res
          = List.map PipelineNotions.unmatched_field
              [("case_number", "2024-CV-001234"); ("state", "TX")]
       /\ Models.overall_accuracy res == 0.
Proof.
  exact (process_document_without_regions Samples2.services_blind Samples2.two_fields
           "doctr" "tesseract" (list_byte_of_string "nine.png")
           (PIL.mkImage "RGB" 8 200 (fun _ _ => (255, 255, 255)))
           LayoutRegistry.DocTRLayoutDetector OCRRegistry.TesseractEngine
           eq_refl eq_refl eq_refl eq_refl eq_refl).
Defined.

(** ** Runs that complete *)

Lemma update_status_exact (run_id : string) (status : Models.TestStatus)
    (processed : option Z) (message : option string)
    (st : Pipeline.State) (tr0 : Models.TestRun) :
  Firestore.test_runs (Pipeline.world st) !! run_id = Some tr0 ->
  exists w,
    TestsRouter.update_status run_id status processed message st
    = (Ok tt, {| Pipeline.world := w; Pipeline.trace := Pipeline.trace st |})
    /\ Firestore.results w = Firestore.results (Pipeline.world st)
    /\ Firestore.batches w = Firestore.batches (Pipeline.world st)
    /\ Firestore.test_runs w !! run_id
       = Some {| Models.status := status;
                 Models.processed_documents :=
                   default (Models.processed_documents tr0) processed;
                 Models.error_message :=
                   match message with
                   | Some m => Some m
                   | None => Models.error_message tr0
                   end;
                 Models.completed :=
                   match status with
                   | Models.COMPLETED | Models.FAILED => true
                   | _ => Models.completed tr0
                   end |}.
Proof.
  intros H. unfold TestsRouter.update_status, Firestore.update_test_run_status.
  rewrite H. eexists. split; [reflexivity|]. cbn. repeat split.
  apply lookup_insert_eq.
Qed.

Section Completion.

Context (S : Pipeline.Services) (layout_library ocr_library test_run_id : string).

Lemma batch_loop_completes (batch : Models.BatchInDB) (is_handwritten : bool)
    (progress_callback : option (Z -> Z -> Pipeline.M unit)) :
  (forall cb, progress_callback = Some cb -> Spec.status_only test_run_id cb) ->
  forall docs,
    Forall (fun d => exists r,
              Pipeline.outcome
                (Pipeline.process_one S is_handwritten layout_library ocr_library d)
              = Ok r) docs ->
    forall i results st,
    exists out st',
      Pipeline.batch_loop S batch layout_library ocr_library test_run_id
        progress_callback is_handwritten i docs results st = (Ok out, st')
      /\ List.map fst out = (List.map fst results ++ List.map Models.id docs)%list
      /\ Spec.persisted st' = (Spec.persisted st ++ List.map Models.id docs)%list
      /\ Pipeline.trace st'
         = (Pipeline.trace st
            ++ concat (List.map
                 (fun d => Pipeline.calls
                    (Pipeline.process_one S is_handwritten layout_library ocr_library d))
                 docs))%list
      /\ Firestore.batches (Pipeline.world st') = Firestore.batches (Pipeline.world st)
      /\ (is_Some (Firestore.test_runs (Pipeline.world st) !! test_run_id) ->
          is_Some (Firestore.test_runs (Pipeline.world st') !! test_run_id)).
Proof.
  intros Hcb docs Hdocs.
  induction Hdocs as [|p docs [r Hp] _ IH]; intros i results st.
  - cbn [Pipeline.batch_loop]. exists results, st. cbn [List.map concat].
    rewrite !app_nil_r. repeat split. auto.
  - cbn [Pipeline.batch_loop]. rewrite Hp.
    set (st1 := Pipeline.mkState
                  (Firestore.create_result test_run_id (Models.id p)
                     (Models.batch_id batch) r (Pipeline.world st))
                  (Pipeline.trace st ++ Pipeline.calls
                     (Pipeline.process_one S is_handwritten layout_library ocr_library p))).
    assert (Hst1 : Spec.persisted st1 = (Spec.persisted st ++ [Models.id p])%list).
    { unfold Spec.persisted, st1. cbn. now rewrite List.map_app. }
    destruct progress_callback as [cb|].
    + destruct (Hcb cb eq_refl (i + 1) (Z.of_nat (length (Models.documents batch))) st1)
        as (w & Hw & Hr & Hb & Ht).
      cbn [Pipeline.world Pipeline.trace]. fold st1. rewrite Hw.
      destruct (IH (i + 1) (results ++ [(Models.id p, r)])%list
                  {| Pipeline.world := w; Pipeline.trace := Pipeline.trace st1 |})
        as (out & st' & Hl & Hout & Hres & Htr & Hbt & Hrun).
      exists out, st'. split; [exact Hl|]. repeat split.
      * rewrite Hout, List.map_app. cbn [List.map fst]. now rewrite <- app_assoc.
      * rewrite Hres. unfold Spec.persisted in *. cbn [Pipeline.world] in *.
        rewrite Hr, Hst1. cbn [List.map]. now rewrite <- app_assoc.
      * rewrite Htr. cbn [Pipeline.trace st1 List.map concat].
        now rewrite <- !app_assoc.
      * rewrite Hbt. cbn [Pipeline.world]. now rewrite Hb.
      * intros Hsome. apply Hrun. cbn [Pipeline.world]. apply Ht. exact Hsome.
    + cbn [Pipeline.world Pipeline.trace]. fold st1.
      destruct (IH (i + 1) (results ++ [(Models.id p, r)])%list st1)
        as (out & st' & Hl & Hout & Hres & Htr & Hbt & Hrun).
      exists out, st'. split; [exact Hl|]. repeat split.
      * rewrite Hout, List.map_app. cbn [List.map fst]. now rewrite <- app_assoc.
      * rewrite Hres, Hst1. cbn [List.map]. now rewrite <- app_assoc.
      * rewrite Htr. cbn [Pipeline.trace st1 List.map concat].
        now rewrite <- !app_assoc.
      * exact Hbt.
      * exact Hrun.
Qed.

Local Abbreviation all_documents st batch_ids :=
  (concat (List.map Models.documents
     (BatchNotions.found_batches (Pipeline.world st) batch_ids))).

Lemma found_batches_frame (w1 w2 : Firestore.World) (batch_ids : list string) :
  Firestore.batches w1 = Firestore.batches w2 ->
  BatchNotions.found_batches w1 batch_ids = BatchNotions.found_batches w2 batch_ids.
Proof.
  intros H. unfold BatchNotions.found_batches, Firestore.get_batch_by_id.
  now rewrite H.
Qed.

Lemma batches_loop_completes (batch_ids : list string) :
  forall total_processed st,
    Forall (BatchNotions.batch_succeeds S layout_library ocr_library)
      (BatchNotions.found_batches (Pipeline.world st) batch_ids) ->
    exists st',
      TestsRouter.batches_loop S test_run_id layout_library ocr_library batch_ids
        total_processed st
      = (Ok (total_processed + Z.of_nat (length (all_documents st batch_ids))), st')
      /\ Spec.persisted st'
         = (Spec.persisted st ++ List.map Models.id (all_documents st batch_ids))%list
      /\ Pipeline.trace st'
         = (Pipeline.trace st
            ++ concat (List.map (BatchNotions.batch_calls S layout_library ocr_library)
                 (BatchNotions.found_batches (Pipeline.world st) batch_ids)))%list
      /\ Firestore.batches (Pipeline.world st') = Firestore.batches (Pipeline.world st)
      /\ (is_Some (Firestore.test_runs (Pipeline.world st) !! test_run_id) ->
          is_Some (Firestore.test_runs (Pipeline.world st') !! test_run_id)).
Proof.
  induction batch_ids as [|bid bids IH]; intros tp st Hok.
  - cbn. exists st. rewrite !app_nil_r, Z.add_0_r. repeat split. auto.
  - cbn [TestsRouter.batches_loop].
    unfold BatchNotions.found_batches in Hok |- *. cbn [omap list_omap] in Hok |- *.
    destruct (Firestore.get_batch_by_id (Pipeline.world st) bid) as [batch|] eqn:Eb.
    + cbn [mbind option_bind] in Hok |- *. 
      inversion Hok as [|? ? Hb Hrest]; subst.
      unfold Pipeline.process_batch.
      destruct (batch_loop_completes batch
                  (String.eqb (Models.batch_type batch) "handwritten")
                  (Some (fun curr (_ : Z) =>
                     TestsRouter.update_status test_run_id Models.RUNNING
                       (Some (tp + curr)) None))
                  ltac:(intros cb [= <-]; apply update_status_status_only)
                  (Models.documents batch) Hb 0 [] st)
        as (out & st1 & Hl & _ & Hres & Htr & Hbt & Hrun).
      rewrite Hl.
      assert (Hfound : omap (Firestore.get_batch_by_id (Pipeline.world st1)) bids
                       = omap (Firestore.get_batch_by_id (Pipeline.world st)) bids)
        by (apply found_batches_frame, Hbt).
      destruct (IH (tp + Z.of_nat (length (Models.documents batch))) st1)
        as (st' & Hl' & Hres' & Htr' & Hbt' & Hrun').
      { unfold BatchNotions.found_batches. now rewrite Hfound. }
      unfold BatchNotions.found_batches in Hl', Hres', Htr'.
      rewrite Hfound in Hl', Hres', Htr'.
      exists st'. repeat split.
      * rewrite Hl'. cbn [List.map concat].
        now rewrite length_app, Nat2Z.inj_add, Z.add_assoc.
      * rewrite Hres', Hres. cbn [List.map concat].
        now rewrite List.map_app, <- app_assoc.
      * rewrite Htr', Htr. cbn [List.map concat]. now rewrite <- app_assoc.
      * now rewrite Hbt'.
      * auto.
    + cbn [mbind option_bind] in Hok |- *. exact (IH tp st Hok).
Qed.

End Completion.

(** X11: when every document of every batch the run finds is processed
    without an exception, the background task ends with the run marked
    completed, its processed-documents count equal to the number of
    documents of those batches, one result stored per document in batch
    order, and the services called for exactly those documents; a batch id
    without a batch is skipped. *)
Theorem run_completes
    (S : Pipeline.Services) (layout_library ocr_library test_run_id : string)
    (batch_ids : list string) (tr0 : Models.TestRun) (st : Pipeline.State) :
  Firestore.test_runs (Pipeline.world st) !! test_run_id = Some tr0 ->
  Forall (BatchNotions.batch_succeeds S layout_library ocr_library)
    (BatchNotions.found_batches (Pipeline.world st) batch_ids) ->
  let st' := TestsRouter.run_test_background S test_run_id batch_ids
               layout_library ocr_library st in
  let found := BatchNotions.found_batches (Pipeline.world st) batch_ids in
  let documents := concat (List.map Models.documents found) in
  (exists tr,
     Firestore.test_runs (Pipeline.world st') !! test_run_id = Some tr
     /\ Models.status tr = Models.COMPLETED
     /\ Models.processed_documents tr = Z.of_nat (length documents)
     /\ Models.completed tr = true)
  /\ Spec.persisted st' = (Spec.persisted st ++ List.map Models.id documents)%list
  /\ Pipeline.trace st'
     = (Pipeline.trace st
        ++ concat (List.map (BatchNotions.batch_calls S layout_library ocr_library)
             found))%list.
Proof.
  intros Hrun Hok st' found documents. subst st' found documents.
  unfold TestsRouter.run_test_background, TestsRouter.try_body.
  destruct (update_status_exact test_run_id Models.RUNNING None None st tr0 Hrun)
    as (w1 & Hw1 & Hr1 & Hb1 & Ht1).
  rewrite Hw1.
  set (st1 := {| Pipeline.world := w1; Pipeline.trace := Pipeline.trace st |}).
  assert (Hfound : BatchNotions.found_batches (Pipeline.world st1) batch_ids
                   = BatchNotions.found_batches (Pipeline.world st) batch_ids)
    by (apply found_batches_frame, Hb1).
  destruct (batches_loop_completes S layout_library ocr_library test_run_id
              batch_ids 0 st1) as (st2 & Hl & Hres & Htr & _ & Hsome).
  { now rewrite Hfound. }
  rewrite Hfound in Hl, Hres, Htr. rewrite Hl.
  destruct (Hsome ltac:(cbn; eauto)) as [tr2 Htr2].
  destruct (update_status_exact test_run_id Models.COMPLETED
              (Some (0 + Z.of_nat (length (concat (List.map Models.documents
                 (BatchNotions.found_batches (Pipeline.world st) batch_ids))))))
              None st2 tr2 Htr2) as (w3 & Hw3 & Hr3 & Hb3 & Ht3).
  rewrite Hw3. cbn [Pipeline.world Pipeline.trace]. repeat split.
  - eexists. split; [exact Ht3|]. repeat split.
  - unfold Spec.persisted in *. cbn [Pipeline.world] in *.
    rewrite Hr3, Hres. cbn [st1 Pipeline.world]. now rewrite Hr1.
  - exact Htr.
Qed.

Lemma run_completes_witness :
  let st' := TestsRouter.run_test_background Fixtures.services "run-2"
               ["batch-2"; "no-such-batch"; "batch-3"] "doctr" "easyocr"
               Samples3.state in
  (exists tr,
     Firestore.test_runs (Pipeline.world st') !! "run-2" = Some tr
     /\ Models.status tr = Models.COMPLETED
     /\ Models.processed_documents tr = 3
     /\ Models.completed tr = true)
  /\ Spec.persisted st' = ["doc-1"; "doc-3"; "scan-1"]
  /\ Pipeline.trace st'
     = concat (List.map (BatchNotions.batch_calls Fixtures.services "doctr" "easyocr")
                 [Samples3.good_batch; Samples3.scans_batch]).
Proof.
  apply (run_completes Fixtures.services "doctr" "easyocr" "run-2"
           ["batch-2"; "no-such-batch"; "batch-3"] Fixtures.pending_run Samples3.state).
  - vm_compute. reflexivity.
  - assert (E : BatchNotions.found_batches (Pipeline.world Samples3.state)
                  ["batch-2"; "no-such-batch"; "batch-3"]
                = [Samples3.good_batch; Samples3.scans_batch])
      by (vm_compute; reflexivity).
    rewrite E. unfold BatchNotions.batch_succeeds.
    repeat constructor; eexists; vm_compute; reflexivity.
Defined.

(** ** Handwritten batches *)

Lemma batch_loop_handwritten_layout (S : Pipeline.Services) (batch : Models.BatchInDB)
    (l1 l2 ocr_library test_run_id : string)
    (progress_callback : option (Z -> Z -> Pipeline.M unit))
    (docs : list Models.SyntheticDocument) :
  forall i results st,
    Pipeline.batch_loop S batch l1 ocr_library test_run_id progress_callback true
      i docs results st
    = Pipeline.batch_loop S batch l2 ocr_library test_run_id progress_callback true
        i docs results st.
Proof.
  induction docs as [|d docs IH]; intros i results st; [reflexivity|].
  cbn [Pipeline.batch_loop]. unfold Pipeline.process_one.
  destruct (Pipeline.outcome (Pipeline.process_document_full_text S d ocr_library));
    [|reflexivity].
  destruct progress_callback as [cb|]; [|apply IH].
  destruct (cb _ _ _) as [[[]|e] st1]; [apply IH | reflexivity].
Qed.

Lemma batch_loop_trace (S : Pipeline.Services) (batch : Models.BatchInDB)
    (layout_library ocr_library test_run_id : string) (is_handwritten : bool)
    (docs : list Models.SyntheticDocument) :
  forall i results st,
  exists k,
    Pipeline.trace
      (snd (Pipeline.batch_loop S batch layout_library ocr_library test_run_id None
              is_handwritten i docs results st))
    = (Pipeline.trace st
       ++ concat (List.map
            (fun d => Pipeline.calls
               (Pipeline.process_one S is_handwritten layout_library ocr_library d))
            (take k docs)))%list.
Proof.
  induction docs as [|d docs IH]; intros i results st.
  - exists 0%nat. cbn. now rewrite app_nil_r.
  - cbn [Pipeline.batch_loop].
    destruct (Pipeline.outcome
                (Pipeline.process_one S is_handwritten layout_library ocr_library d))
      as [r|e].
    + match goal with
      | |- context [Pipeline.batch_loop _ _ _ _ _ _ _ ?i' _ ?res' ?st'] =>
          destruct (IH i' res' st') as [k Hk]
      end.
      exists (Datatypes.S k). rewrite Hk. cbn [Pipeline.trace take List.map concat].
      now rewrite <- app_assoc.
    + exists 1%nat. cbn [snd Pipeline.trace take List.map concat].
      now rewrite app_nil_r.
Qed.

(** X12: for a handwritten batch the layout library is never consulted:
    process_batch gives the same outcome and the same state whatever the
    layout library name, known or not, and (without a progress callback) the
    service calls it adds contain no call of a layout detector. *)
Theorem handwritten_batch_ignores_layout
    (S : Pipeline.Services) (batch : Models.BatchInDB)
    (l1 l2 ocr_library test_run_id : string)
    (progress_callback : option (Z -> Z -> Pipeline.M unit)) (st : Pipeline.State) :
  Models.batch_type batch = "handwritten" ->
  Pipeline.process_batch S batch l1 ocr_library test_run_id progress_callback st
  = Pipeline.process_batch S batch l2 ocr_library test_run_id progress_callback st
  /\ exists added,
       Pipeline.trace
         (snd (Pipeline.process_batch S batch l1 ocr_library test_run_id None st))
       = (Pipeline.trace st ++ added)%list
       /\ Forall (fun c => BatchNotions.is_detect c = false) added.
Proof.
  intros Hb. unfold Pipeline.process_batch. rewrite Hb. cbn [String.eqb].
  replace ("handwritten" =? "handwritten")%string with true by reflexivity.
  split; [apply batch_loop_handwritten_layout|].
  destruct (batch_loop_trace S batch l1 ocr_library test_run_id true
              (Models.documents batch) 0 [] st) as [k Hk].
  eexists. split; [exact Hk|].
  apply Forall_concat. apply List.Forall_map. apply List.Forall_forall.
  intros d _. unfold Pipeline.process_one.
  eapply List.Forall_impl;
    [|apply (full_text_mode_never_detects S d ocr_library)].
  intros c Hc. destruct c; try reflexivity. now contradiction (Hc library).
Qed.

Lemma handwritten_batch_ignores_layout_witness :
  Pipeline.process_batch Fixtures.services Samples3.scans_batch "doctr" "got_ocr"
    "run-2" None Samples3.state
  = Pipeline.process_batch Fixtures.services Samples3.scans_batch "" "got_ocr"
      "run-2" None Samples3.state
  /\ exists added,
       Pipeline.trace
         (snd (Pipeline.process_batch Fixtures.services Samples3.scans_batch "doctr"
                 "got_ocr" "run-2" None Samples3.state))
       = (Pipeline.trace Samples3.state ++ added)%list
       /\ Forall (fun c => BatchNotions.is_detect c = false) added.
Proof.
  exact (handwritten_batch_ignores_layout Fixtures.services Samples3.scans_batch
           "doctr" "" "got_ocr" "run-2" None Samples3.state eq_refl).
Defined.

(** ** The status store *)

(** X13: update_test_run_status never creates a run (for an unknown id
    it returns False and changes nothing), never touches another run, the
    batches or the results, and never clears the completion stamp of a run
    that has one. *)
Theorem update_test_run_status_frame
    (run_id : string) (status : Models.TestStatus)
    (processed : option Z) (message : option string) (w : Firestore.World) :
  let out := Firestore.update_test_run_status run_id status processed message w in
  fst out = bool_decide (is_Some (Firestore.test_runs w !! run_id))
  /\ (Firestore.test_runs w !! run_id = None -> snd out = w)
  /\ (forall other, other <> run_id ->
        Firestore.test_runs (snd out) !! other = Firestore.test_runs w !! other)
  /\ Firestore.batches (snd out) = Firestore.batches w
  /\ Firestore.results (snd out) = Firestore.results w
  /\ (forall tr0 tr,
        Firestore.test_runs w !! run_id = Some tr0 ->
        Firestore.test_runs (snd out) !! run_id = Some tr ->
        Models.completed tr0 = true -> Models.completed tr = true).
Proof.
  unfold Firestore.update_test_run_status.
  destruct (Firestore.test_runs w !! run_id) as [doc|] eqn:E; cbn [fst snd].
  - split_and!.
    + symmetry. apply bool_decide_eq_true. eauto.
    + discriminate.
    + intros other Hne. cbn. now apply lookup_insert_ne.
    + reflexivity.
    + reflexivity.
    + intros tr0 tr [= <-]. cbn. rewrite lookup_insert_eq. intros [= <-]. cbn.
      intros ->. now destruct status.
  - split_and!; try reflexivity. intros tr0 tr H. discriminate H.
Qed.

(** ** The scan simulator, pixel values *)

Lemma clip_u8_byte (v : Q) : GeneratorNotions.is_byte (PILFilters.clip_u8 v).
Proof.
  unfold PILFilters.clip_u8, GeneratorNotions.is_byte.
  destruct (Qle_bool v 0) eqn:E0; [lia|].
  destruct (Qle_bool 255 v) eqn:E1; [lia|].
  assert (H0 : (0 < v)%Q).
  { apply Qnot_le_lt. intros H. apply Qle_bool_iff in H. congruence. }
  assert (H1 : (v < 255)%Q).
  { apply Qnot_le_lt. intros H. apply Qle_bool_iff in H. congruence. }
  unfold int_of_float.
  replace (Qle_bool 0 v) with true
    by (symmetry; apply Qle_bool_iff; now apply Qlt_le_weak).
  split.
  - change 0 with (Qfloor (inject_Z 0)). apply Qfloor_resp_le.
    now apply Qlt_le_weak.
  - change 255 with (Qfloor (inject_Z 255)). apply Qfloor_resp_le.
    now apply Qlt_le_weak.
Qed.

Lemma presets_have_noise (preset : string) :
  gt (ScanSimulator.noise_amount
        (default ScanSimulator.medium (dict_get ScanSimulator.PRESETS preset))) 0
  = true.
Proof.
  unfold ScanSimulator.PRESETS. cbn [dict_get].
  destruct (String.eqb preset "light"); [reflexivity|].
  destruct (String.eqb preset "medium"); [reflexivity|].
  destruct (String.eqb preset "heavy"); reflexivity.
Qed.

(** X14: for every image that has pixels and that the library converts
    to RGB, whatever Pillow's kernels compute and whatever the random draws,
    apply_scan_effects returns an RGB image all of whose channel values lie
    in 0..255: every preset (and so every preset name) has a positive noise
    amount, and the noise step clips. *)
Theorem apply_scan_effects_pixels_are_bytes
    (K : PILFilters.Kernels) (D : ScanSimulator.Draws)
    (image : PIL.Image) (preset : string) :
  0 < PIL.width image -> 0 < PIL.height image ->
  PILFilters.converts K (PIL.mode image) "RGB" ->
  exists img,
    ScanSimulator.apply_scan_effects K D image preset = Ok img
    /\ PIL.mode img = "RGB"
    /\ forall x y, GeneratorNotions.pixel_ok (PIL.getpixel img x y).
Proof.
  intros Hw Hh Hc.
  destruct (apply_scan_effects_returns K D image preset Hw Hh Hc)
    as (img & Himg & _ & _ & Hnoise).
  destruct (Hnoise (presets_have_noise preset)) as [before ->].
  eexists. split; [exact Himg|]. split; [reflexivity|].
  intros x y. cbn [PILFilters.add_noise PIL.getpixel].
  repeat match goal with
         | |- context [match ?p with pair _ _ => _ end] => destruct p
         end.
  repeat split; apply clip_u8_byte.
Qed.

Lemma apply_scan_effects_pixels_are_bytes_witness :
  exists img,
    ScanSimulator.apply_scan_effects Fixtures.identity_kernels Fixtures.draws
      Fixtures.grey_page "heavy" = Ok img
    /\ PIL.mode img = "RGB"
    /\ forall x y, GeneratorNotions.pixel_ok (PIL.getpixel img x y).
Proof.
  apply (apply_scan_effects_pixels_are_bytes Fixtures.identity_kernels Fixtures.draws
           Fixtures.grey_page "heavy").
  - reflexivity.
  - reflexivity.
  - right. eexists. reflexivity.
Defined.

(** ** The values drawn for a form *)

Lemma field_type_has_pool (t : SyntheticGenerator.FieldType) :
  exists c s,
    SyntheticGenerator.value t = String c s
    /\ dict_get SyntheticGenerator.FIELD_TYPE_DATA (String c s)
       = Some (GeneratorNotions.pool_of_type t)
    /\ GeneratorNotions.pool_of_type t <> [].
Proof.
  destruct t; do 2 eexists;
    (split; [reflexivity | split; [reflexivity | discriminate]]).
Qed.

(** X15: the value generate_filled_form draws for a field mapping is
    always a member of the options the caller gave for that field name,
    when there are some, and otherwise of the pool of the mapping's field
    type: every FieldType has a pool, so the legacy name-substring fallback
    is never reached from a form, and the draw never fails. *)
Theorem field_value_from_options_or_type_pool
    (r : nat) (field : SyntheticGenerator.FieldMapping)
    (field_value_options : option (list (string * list string))) :
  exists v,
    SyntheticGenerator.field_value r field field_value_options = Ok v
    /\ In v (GeneratorNotions.candidate_values field field_value_options).
Proof.
  unfold SyntheticGenerator.field_value, GeneratorNotions.candidate_values.
  destruct (field_type_has_pool (SyntheticGenerator.field_type field))
    as (c & s & Hv & Hp & Hne).
  assert (Htype : forall custom,
            match custom with Some (_ :: _) => False | _ => True end ->
            exists v,
              SyntheticGenerator._get_synthetic_value r (SyntheticGenerator.name field)
                custom (Some (SyntheticGenerator.value (SyntheticGenerator.field_type field)))
              = Ok v
              /\ In v (GeneratorNotions.pool_of_type (SyntheticGenerator.field_type field))).
  { intros custom Hc. unfold SyntheticGenerator._get_synthetic_value.
    rewrite Hv, Hp.
    destruct custom as [[|o os]|]; try contradiction; now apply choice_In. }
  destruct field_value_options as [opts|]; [|now apply Htype].
  destruct opts as [|kv opts]; [cbn [truthy_list dict_get]; now apply Htype|].
  cbn [truthy_list].
  destruct (dict_get (kv :: opts) (SyntheticGenerator.name field)) as [[|o os]|];
    [now apply Htype | | now apply Htype].
  unfold SyntheticGenerator._get_synthetic_value. apply choice_In. discriminate.
Qed.

(** ** Starting a run *)

Lemma count_documents_cons (b : Models.BatchInDB) (l : list Models.BatchInDB) :
  RouteNotions.count_documents (b :: l)
  = Z.of_nat (length (Models.documents b)) + RouteNotions.count_documents l.
Proof.
  unfold RouteNotions.count_documents. cbn [List.map concat].
  now rewrite length_app, Nat2Z.inj_add.
Qed.

Lemma scan_batches_spec (w : Firestore.World) (batch_ids : list string) :
  forall hh hs total,
    match TestsRoutes.scan_batches w batch_ids hh hs total with
    | TestsRoutes.Return (hh', hs', total') =>
        Forall (fun b => is_Some (Firestore.get_batch_by_id w b)) batch_ids
        /\ hh' = hh || RouteNotions.has_handwritten (BatchNotions.found_batches w batch_ids)
        /\ hs' = hs || RouteNotions.has_synthetic (BatchNotions.found_batches w batch_ids)
        /\ total' = total
                    + RouteNotions.count_documents (BatchNotions.found_batches w batch_ids)
    | TestsRoutes.HTTPError e =>
        exists pre missing post,
          batch_ids = (pre ++ missing :: post)%list
          /\ Forall (fun b => is_Some (Firestore.get_batch_by_id w b)) pre
          /\ Firestore.get_batch_by_id w missing = None
          /\ e = TestsRoutes.mkHTTPException 404 ("Batch not found: " ++ missing)
    end.
Proof.
  induction batch_ids as [|bid bids IH]; intros hh hs total.
  - cbn. rewrite !orb_false_r. split_and!; [constructor|reflexivity|reflexivity|].
    unfold RouteNotions.count_documents. cbn. lia.
  - cbn [TestsRoutes.scan_batches].
    unfold BatchNotions.found_batches. cbn [omap list_omap].
    destruct (Firestore.get_batch_by_id w bid) as [batch|] eqn:Eb.
    + cbn [mbind option_bind]. fold (BatchNotions.found_batches w bids).
      rewrite count_documents_cons.
      cbn [RouteNotions.has_handwritten RouteNotions.has_synthetic existsb].
      fold (RouteNotions.has_handwritten (BatchNotions.found_batches w bids)).
      fold (RouteNotions.has_synthetic (BatchNotions.found_batches w bids)).
      destruct (String.eqb (Models.batch_type batch) "handwritten").
      * specialize (IH true hs (total + Z.of_nat (length (Models.documents batch)))).
        destruct (TestsRoutes.scan_batches w bids true hs _) as [[[hh' hs'] total']|e].
        -- destruct IH as (Hall & -> & -> & ->). split_and!.
           ++ constructor; [rewrite Eb; eauto | exact Hall].
           ++ cbn [negb orb]. now rewrite orb_true_r.
           ++ reflexivity.
           ++ lia.
        -- destruct IH as (pre & missing & post & -> & Hpre & Hmiss & ->).
           exists (bid :: pre), missing, post. split_and!; try reflexivity.
           ++ constructor; [rewrite Eb; eauto | exact Hpre].
           ++ exact Hmiss.
      * specialize (IH hh true (total + Z.of_nat (length (Models.documents batch)))).
        destruct (TestsRoutes.scan_batches w bids hh true _) as [[[hh' hs'] total']|e].
        -- destruct IH as (Hall & -> & -> & ->). split_and!.
           ++ constructor; [rewrite Eb; eauto | exact Hall].
           ++ reflexivity.
           ++ cbn [negb orb]. now rewrite orb_true_r.
           ++ lia.
        -- destruct IH as (pre & missing & post & -> & Hpre & Hmiss & ->).
           exists (bid :: pre), missing, post. split_and!; try reflexivity.
           ++ constructor; [rewrite Eb; eauto | exact Hpre].
           ++ exact Hmiss.
    + exists [], bid, bids. split_and!; try reflexivity; [constructor | exact Eb].
Qed.

Lemma missing_not_all_found (w : Firestore.World) (pre post : list string)
    (missing : string) :
  Firestore.get_batch_by_id w missing = None ->
  ~ Forall (fun b => is_Some (Firestore.get_batch_by_id w b))
      (pre ++ missing :: post)%list.
Proof.
  intros Hm Hall. apply Forall_app in Hall as [_ Hall].
  inversion Hall as [|? ? [b Hb] _]; subst. congruence.
Qed.

(** What [run_tests] answers to a valid request. *)
Lemma run_tests_valid (user_email : option string) (run_id : string)
    (request : TestsRoutes.RunTestsRequest) (current_user_id : string)
    (w : Firestore.World) :
  RouteNotions.valid_request w request ->
  let found := BatchNotions.found_batches w (TestsRoutes.batch_ids request) in
  let layout := RouteNotions.stored_layout_library request found in
  TestsRoutes.run_tests user_email run_id request current_user_id w
  = (TestsRoutes.Return
       ({| TestsRoutes.id := run_id;
           TestsRoutes.run_batch_ids := TestsRoutes.batch_ids request;
           TestsRoutes.run_layout_library := layout;
           TestsRoutes.run_ocr_library := TestsRoutes.ocr_library request;
           TestsRoutes.started_by := current_user_id;
           TestsRoutes.started_by_name := default "" user_email;
           TestsRoutes.total_documents := RouteNotions.count_documents found |},
        {| TestsRoutes.task_run_id := run_id;
           TestsRoutes.task_batch_ids := TestsRoutes.batch_ids request;
           TestsRoutes.task_layout_library := layout;
           TestsRoutes.task_ocr_library := TestsRoutes.ocr_library request |}),
     {| Firestore.test_runs :=
          <[run_id := {| Models.status := Models.PENDING;
                         Models.processed_documents := 0;
                         Models.error_message := None;
                         Models.completed := false |}]> (Firestore.test_runs w);
        Firestore.batches := Firestore.batches w;
        Firestore.results := Firestore.results w |}).
Proof.
  intros (Hall & Hlayout & Hocr & Hcount) found layout. subst found layout.
  unfold TestsRoutes.run_tests.
  pose proof (scan_batches_spec w (TestsRoutes.batch_ids request) false false 0) as H.
  destruct (TestsRoutes.scan_batches w (TestsRoutes.batch_ids request) false false 0)
    as [[[hh hs] total]|e].
  - destruct H as (_ & -> & -> & ->). cbn [orb]. rewrite Z.add_0_l.
    rewrite Hocr. cbn [negb].
    apply Z.eqb_neq in Hcount. rewrite Hcount.
    unfold RouteNotions.stored_layout_library, TestsRoutes.create_test_run.
    destruct (RouteNotions.has_synthetic _) eqn:Hs.
    + rewrite (Hlayout eq_refl). cbn [negb andb].
      rewrite !andb_false_r. reflexivity.
    + cbn [negb andb]. rewrite andb_true_r.
      destruct (RouteNotions.has_handwritten _) eqn:Hh.
      * rewrite andb_true_r. reflexivity.
      * exfalso. apply Z.eqb_neq in Hcount. apply Hcount.
        clear -Hs Hh.
        induction (BatchNotions.found_batches w (TestsRoutes.batch_ids request))
          as [|b l IH]; [reflexivity|].
        cbn [RouteNotions.has_synthetic RouteNotions.has_handwritten existsb] in Hs, Hh.
        apply orb_false_elim in Hs as [Hs _]. apply orb_false_elim in Hh as [Hh _].
        rewrite Hh in Hs. discriminate.
  - destruct H as (pre & missing & post & E & _ & Hm & _).
    rewrite E in Hall. now apply missing_not_all_found in Hall.
Qed.

(** What [run_tests] answers to a request that is not valid. *)
Lemma run_tests_invalid (user_email : option string) (run_id : string)
    (request : TestsRoutes.RunTestsRequest) (current_user_id : string)
    (w : Firestore.World) :
  ~ RouteNotions.valid_request w request ->
  exists e,
    TestsRoutes.run_tests user_email run_id request current_user_id w
    = (TestsRoutes.HTTPError e, w)
    /\ (TestsRoutes.status_code e = 404 \/ TestsRoutes.status_code e = 400).
Proof.
  intros Hinv. unfold TestsRoutes.run_tests.
  pose proof (scan_batches_spec w (TestsRoutes.batch_ids request) false false 0) as H.
  destruct (TestsRoutes.scan_batches w (TestsRoutes.batch_ids request) false false 0)
    as [[[hh hs] total]|e].
  - destruct H as (Hall & -> & -> & ->). cbn [orb]. rewrite Z.add_0_l.
    destruct (RouteNotions.has_synthetic _) eqn:Hs;
      destruct (RegistryNames.name_in (TestsRoutes.layout_library request) _) eqn:Hl;
      destruct (RegistryNames.name_in (TestsRoutes.ocr_library request) _) eqn:Ho;
      cbn [negb andb];
      try (eexists; split; [reflexivity | right; reflexivity]);
      destruct (RouteNotions.count_documents _ =? 0) eqn:Hc;
      try (eexists; split; [reflexivity | right; reflexivity]);
      exfalso; apply Hinv; unfold RouteNotions.valid_request;
      rewrite Hs, ?Hl, Ho; apply Z.eqb_neq in Hc;
      (split_and!; [exact Hall | try reflexivity; discriminate | reflexivity | exact Hc]).
  - destruct H as (pre & missing & post & _ & _ & _ & ->).
    eexists; split; [reflexivity | left; reflexivity].
Qed.

Lemma valid_request_dec (w : Firestore.World) (request : TestsRoutes.RunTestsRequest) :
  RouteNotions.valid_request w request \/ ~ RouteNotions.valid_request w request.
Proof.
  unfold RouteNotions.valid_request.
  destruct (decide (Forall (fun b => is_Some (Firestore.get_batch_by_id w b))
                      (TestsRoutes.batch_ids request))) as [Ha|Ha]; [|right; tauto].
  destruct (RegistryNames.name_in (TestsRoutes.ocr_library request)
              RegistryNames.list_ocr_engines); [|right; intros (_ & _ & H & _); discriminate].
  destruct (decide (RouteNotions.count_documents
                      (BatchNotions.found_batches w (TestsRoutes.batch_ids request)) = 0))
    as [Hc|Hc]; [right; tauto|].
  destruct (RouteNotions.has_synthetic _).
  - destruct (RegistryNames.name_in (TestsRoutes.layout_library request) _).
    + left. tauto.
    + right. intros (_ & H & _). specialize (H eq_refl). discriminate.
  - left. split_and!; auto. discriminate.
Qed.

(** X16: run_tests creates a run exactly for a valid request (every batch
    id names a batch, the OCR library is listed, the layout library is
    listed when some batch is not handwritten, and the batches hold at
    least one document); any other request is answered with status 404 or
    400 and leaves the store as it was. *)
Theorem run_tests_accepts_exactly_valid_requests
    (user_email : option string) (run_id : string)
    (request : TestsRoutes.RunTestsRequest) (current_user_id : string)
    (w : Firestore.World) :
  let answer := TestsRoutes.run_tests user_email run_id request current_user_id w in
  ((exists out, fst answer = TestsRoutes.Return out)
   <-> RouteNotions.valid_request w request)
  /\ ((exists e, fst answer = TestsRoutes.HTTPError e
                 /\ snd answer = w
                 /\ (TestsRoutes.status_code e = 404 \/ TestsRoutes.status_code e = 400))
      <-> ~ RouteNotions.valid_request w request).
Proof.
  intros answer. subst answer.
  destruct (valid_request_dec w request) as [Hv|Hv].
  - rewrite (run_tests_valid user_email run_id request current_user_id w Hv).
    cbn [fst snd]. split; split; try tauto.
    + intros _. eauto.
    + intros (e & He & _). discriminate.
  - destruct (run_tests_invalid user_email run_id request current_user_id w Hv)
      as (e & -> & Hcode).
    cbn [fst snd]. split; split; try tauto.
    + intros (out & Hout). discriminate.
    + intros _. exists e. auto.
Qed.

Lemma run_tests_return_valid (user_email : option string) (run_id : string)
    (request : TestsRoutes.RunTestsRequest) (current_user_id : string)
    (w : Firestore.World) (out : TestsRoutes.TestRunInDB * TestsRoutes.Task)
    (w' : Firestore.World) :
  TestsRoutes.run_tests user_email run_id request current_user_id w
  = (TestsRoutes.Return out, w') ->
  RouteNotions.valid_request w request.
Proof.
  intros H. destruct (valid_request_dec w request) as [Hv|Hv]; [exact Hv|].
  destruct (run_tests_invalid user_email run_id request current_user_id w Hv)
    as (e & He & _).
  rewrite He in H. discriminate.
Qed.

(** X17: the run that run_tests creates is stored pending, with no
    document processed and no error message, beside the runs, batches and
    results already there; the response counts the documents of the
    batches (at least one), a run over handwritten batches only with an
    empty layout library is recorded with the layout library none, and the
    background task is scheduled for this run with the request's batch ids
    and the recorded libraries. *)
Theorem run_tests_creates_pending_run
    (user_email : option string) (run_id : string)
    (request : TestsRoutes.RunTestsRequest) (current_user_id : string)
    (w w' : Firestore.World) (run : TestsRoutes.TestRunInDB) (task : TestsRoutes.Task) :
  TestsRoutes.run_tests user_email run_id request current_user_id w
  = (TestsRoutes.Return (run, task), w') ->
  let found := BatchNotions.found_batches w (TestsRoutes.batch_ids request) in
  Firestore.test_runs w' !! run_id
  = Some {| Models.status := Models.PENDING; Models.processed_documents := 0;
            Models.error_message := None; Models.completed := false |}
  /\ (forall other, other <> run_id ->
        Firestore.test_runs w' !! other = Firestore.test_runs w !! other)
  /\ Firestore.batches w' = Firestore.batches w
  /\ Firestore.results w' = Firestore.results w
  /\ TestsRoutes.id run = run_id
  /\ TestsRoutes.total_documents run = RouteNotions.count_documents found
  /\ 0 < RouteNotions.count_documents found
  /\ TestsRoutes.run_layout_library run
     = RouteNotions.stored_layout_library request found
  /\ task = {| TestsRoutes.task_run_id := run_id;
               TestsRoutes.task_batch_ids := TestsRoutes.batch_ids request;
               TestsRoutes.task_layout_library := TestsRoutes.run_layout_library run;
               TestsRoutes.task_ocr_library := TestsRoutes.ocr_library request |}.
Proof.
  intros H found. subst found.
  pose proof (run_tests_return_valid _ _ _ _ _ _ _ H) as Hv.
  rewrite (run_tests_valid user_email run_id request current_user_id w Hv) in H.
  injection H as <- <- <-. cbn.
  split_and!; try reflexivity.
  - apply lookup_insert_eq.
  - intros other Hne. now apply lookup_insert_ne.
  - destruct Hv as (_ & _ & _ & Hc). unfold RouteNotions.count_documents in *. lia.
Qed.

Lemma run_tests_creates_pending_run_witness :
  let answer :=
    TestsRoutes.run_tests (Some "clerk@court.example") "run-3" Samples4.request
      "user-1" Samples4.world in
  Firestore.test_runs (snd answer) !! "run-3"
  = Some {| Models.status := Models.PENDING; Models.processed_documents := 0;
            Models.error_message := None; Models.completed := false |}
  /\ Firestore.test_runs (snd answer) !! "run-2" = Some Fixtures.pending_run
  /\ fst answer
     = TestsRoutes.Return
         ({| TestsRoutes.id := "run-3";
             TestsRoutes.run_batch_ids := ["batch-2"; "batch-3"];
             TestsRoutes.run_layout_library := "doctr";
             TestsRoutes.run_ocr_library := "easyocr";
             TestsRoutes.started_by := "user-1";
             TestsRoutes.started_by_name := "clerk@court.example";
             TestsRoutes.total_documents := 3 |},
          {| TestsRoutes.task_run_id := "run-3";
             TestsRoutes.task_batch_ids := ["batch-2"; "batch-3"];
             TestsRoutes.task_layout_library := "doctr";
             TestsRoutes.task_ocr_library := "easyocr" |}).
Proof.
  intros answer.
  assert (E : answer
              = (TestsRoutes.Return
                   ({| TestsRoutes.id := "run-3";
                       TestsRoutes.run_batch_ids := ["batch-2"; "batch-3"];
                       TestsRoutes.run_layout_library := "doctr";
                       TestsRoutes.run_ocr_library := "easyocr";
                       TestsRoutes.started_by := "user-1";
                       TestsRoutes.started_by_name := "clerk@court.example";
                       TestsRoutes.total_documents := 3 |},
                    {| TestsRoutes.task_run_id := "run-3";
                       TestsRoutes.task_batch_ids := ["batch-2"; "batch-3"];
                       TestsRoutes.task_layout_library := "doctr";
                       TestsRoutes.task_ocr_library := "easyocr" |}),
                 snd answer))
    by (vm_compute; reflexivity).
  destruct (run_tests_creates_pending_run _ _ _ _ _ _ _ _ E)
    as (Hrun & Hother & _).
  split_and!.
  - exact Hrun.
  - rewrite Hother by discriminate. vm_compute. reflexivity.
  - rewrite E. reflexivity.
Defined.

(** X18: the validation of run_tests is enough for the registries: in a
    run it has accepted, every document whose image downloads and decodes
    gets past the registry look-ups to a model, the layout detector of the
    request for a document of a batch that is not handwritten, the OCR
    engine of the request on the whole page for a document of a handwritten
    batch. *)
Theorem accepted_run_documents_reach_the_models
    (user_email : option string) (run_id : string)
    (request : TestsRoutes.RunTestsRequest) (current_user_id : string)
    (w w' : Firestore.World) (run : TestsRoutes.TestRunInDB) (task : TestsRoutes.Task)
    (S : Pipeline.Services) (batch : Models.BatchInDB)
    (document : Models.SyntheticDocument)
    (image_bytes : list Byte.byte) (image : PIL.Image) :
  TestsRoutes.run_tests user_email run_id request current_user_id w
  = (TestsRoutes.Return (run, task), w') ->
  In batch (BatchNotions.found_batches w (TestsRoutes.batch_ids request)) ->
  Pipeline.download_file S (Models.storage_path document) = Ok image_bytes ->
  Pipeline.image_open S image_bytes = Ok image ->
  exists rest,
    Pipeline.calls
      (BatchNotions.run_document S (TestsRoutes.task_layout_library task)
         (TestsRoutes.task_ocr_library task) batch document)
    = Pipeline.CallDownload (Models.storage_path document)
      :: (if String.eqb (Models.batch_type batch) "handwritten"
          then Pipeline.CallExtract (TestsRoutes.ocr_library request)
                 [Pipeline.full_region image]
          else Pipeline.CallDetect (TestsRoutes.layout_library request))
      :: rest.
Proof.
  intros H Hin Hd Hi.
  pose proof (run_tests_return_valid _ _ _ _ _ _ _ H) as Hv.
  rewrite (run_tests_valid user_email run_id request current_user_id w Hv) in H.
  injection H as <- <- <-. cbn [TestsRoutes.task_layout_library
    TestsRoutes.task_ocr_library].
  destruct Hv as (_ & Hlayout & Hocr & _).
  pose proof (get_ocr_engine_listed (TestsRoutes.ocr_library request)) as Ho.
  pose proof (get_ocr_engine_name (TestsRoutes.ocr_library request)) as Hon.
  unfold BatchNotions.run_document, Pipeline.process_one.
  destruct (String.eqb (Models.batch_type batch) "handwritten") eqn:Eb.
  - unfold Pipeline.process_document_full_text, mbind, Pipeline.traced_bind,
      Pipeline.call, Pipeline.pure.
    cbn [Pipeline.outcome Pipeline.calls]. rewrite Hd.
    cbn [Pipeline.outcome Pipeline.calls]. rewrite Hi.
    cbn [Pipeline.outcome Pipeline.calls].
    destruct (OCRRegistry.get_ocr_engine (TestsRoutes.ocr_library request)) as [e|e];
      [|destruct Ho; congruence].
    rewrite <- (Hon e eq_refl).
    cbn [Pipeline.outcome Pipeline.calls].
    destruct (OCRRegistry.extract_text _ _ _ _);
      cbn [Pipeline.outcome Pipeline.calls app]; eauto.
  - assert (Hs : RouteNotions.has_synthetic
                   (BatchNotions.found_batches w (TestsRoutes.batch_ids request))
                 = true).
    { unfold RouteNotions.has_synthetic. apply existsb_exists. exists batch.
      split; [exact Hin | now rewrite Eb]. }
    specialize (Hlayout Hs).
    unfold RouteNotions.stored_layout_library. rewrite Hs, andb_false_r.
    pose proof (get_layout_detector_listed (TestsRoutes.layout_library request)) as Hl.
    pose proof (get_layout_detector_name (TestsRoutes.layout_library request)) as Hln.
    unfold Pipeline.process_document, mbind, Pipeline.traced_bind,
      Pipeline.call, Pipeline.pure.
    cbn [Pipeline.outcome Pipeline.calls]. rewrite Hd.
    cbn [Pipeline.outcome Pipeline.calls]. rewrite Hi.
    cbn [Pipeline.outcome Pipeline.calls].
    destruct (LayoutRegistry.get_layout_detector (TestsRoutes.layout_library request))
      as [d|e]; [|destruct Hl; congruence].
    rewrite <- (Hln d eq_refl).
    cbn [Pipeline.outcome Pipeline.calls].
    destruct (OCRRegistry.get_ocr_engine (TestsRoutes.ocr_library request)) as [e|e];
      [|destruct Ho; congruence].
    cbn [Pipeline.outcome Pipeline.calls].
    destruct (LayoutRegistry.detect _ _ _);
      cbn [Pipeline.outcome Pipeline.calls app]; eauto.
Qed.

Lemma accepted_run_documents_reach_the_models_witness :
  exists rest,
    Pipeline.calls
      (BatchNotions.run_document Fixtures.services "doctr" "easyocr"
         Samples3.good_batch Fixtures.doc1)
    = Pipeline.CallDownload "a1.png" :: Pipeline.CallDetect "doctr" :: rest.
Proof.
  exact (accepted_run_documents_reach_the_models (Some "clerk@court.example") "run-3"
           Samples4.request "user-1" Samples4.world _ _ _
           Fixtures.services Samples3.good_batch Fixtures.doc1
           (list_byte_of_string "a1.png")
           (PIL.mkImage "RGB" 6 200 (fun _ _ => (255, 255, 255)))
           eq_refl (or_introl eq_refl) eq_refl eq_refl).
Defined.

Lemma scan_batches_missing (w : Firestore.World) (missing : string)
    (post : list string) (pre : list string) :
  Forall (fun b => is_Some (Firestore.get_batch_by_id w b)) pre ->
  Firestore.get_batch_by_id w missing = None ->
  forall hh hs total,
    TestsRoutes.scan_batches w (pre ++ missing :: post) hh hs total
    = TestsRoutes.HTTPError
        (TestsRoutes.mkHTTPException 404 ("Batch not found: " ++ missing)).
Proof.
  intros Hpre Hm. induction Hpre as [|b pre [batch Hb] _ IH]; intros hh hs total.
  - cbn. now rewrite Hm.
  - cbn [app TestsRoutes.scan_batches]. rewrite Hb.
    destruct (String.eqb (Models.batch_type batch) "handwritten"); apply IH.
Qed.

(** X19: a request that names a batch the store does not hold is
    answered 404 with the first such id in the detail, whatever its
    libraries and its other batches are, and nothing is written. *)
Theorem run_tests_reports_first_missing_batch
    (user_email : option string) (run_id : string)
    (request : TestsRoutes.RunTestsRequest) (current_user_id : string)
    (w : Firestore.World) (pre post : list string) (missing : string) :
  TestsRoutes.batch_ids request = (pre ++ missing :: post)%list ->
  Forall (fun b => is_Some (Firestore.get_batch_by_id w b)) pre ->
  Firestore.get_batch_by_id w missing = None ->
  TestsRoutes.run_tests user_email run_id request current_user_id w
  = (TestsRoutes.HTTPError
       (TestsRoutes.mkHTTPException 404 ("Batch not found: " ++ missing)), w).
Proof.
  intros E Hpre Hm. unfold TestsRoutes.run_tests.
  now rewrite E, (scan_batches_missing w missing post pre Hpre Hm).
Qed.

Lemma run_tests_reports_first_missing_batch_witness :
  TestsRoutes.run_tests None "run-3"
    {| TestsRoutes.batch_ids := ["batch-2"; "batch-7"; "batch-8"];
       TestsRoutes.layout_library := "abbyy";
       TestsRoutes.ocr_library := "abbyy" |}
    "user-1" Samples4.world
  = (TestsRoutes.HTTPError (TestsRoutes.mkHTTPException 404 "Batch not found: batch-7"),
     Samples4.world).
Proof.
  apply (run_tests_reports_first_missing_batch None "run-3"
           {| TestsRoutes.batch_ids := ["batch-2"; "batch-7"; "batch-8"];
              TestsRoutes.layout_library := "abbyy";
              TestsRoutes.ocr_library := "abbyy" |}
           "user-1" Samples4.world ["batch-2"] ["batch-8"] "batch-7").
  - reflexivity.
  - repeat constructor. vm_compute. eauto.
  - vm_compute. reflexivity.
Defined.

(** ** Cancelling a run *)

Lemma cancel_unfinished (test_run_id : string) (w : Firestore.World)
    (tr0 : Models.TestRun) :
  Firestore.test_runs w !! test_run_id = Some tr0 ->
  Models.status tr0 = Models.RUNNING \/ Models.status tr0 = Models.PENDING ->
  TestsRoutes.cancel_test_run test_run_id w
  = (TestsRoutes.Return ("Test run cancelled", test_run_id),
     {| Firestore.test_runs :=
          <[test_run_id := {| Models.status := Models.FAILED;
                              Models.processed_documents := Models.processed_documents tr0;
                              Models.error_message := Some "Cancelled by user";
                              Models.completed := true |}]> (Firestore.test_runs w);
        Firestore.batches := Firestore.batches w;
        Firestore.results := Firestore.results w |}).
Proof.
  intros H Hs. unfold TestsRoutes.cancel_test_run, TestsRoutes.get_test_run_by_id,
    Firestore.update_test_run_status.
  rewrite H. destruct Hs as [-> | ->]; reflexivity.
Qed.

Lemma cancel_finished (test_run_id : string) (w : Firestore.World)
    (tr0 : Models.TestRun) :
  Firestore.test_runs w !! test_run_id = Some tr0 ->
  Models.status tr0 = Models.COMPLETED \/ Models.status tr0 = Models.FAILED ->
  TestsRoutes.cancel_test_run test_run_id w
  = (TestsRoutes.HTTPError
       (TestsRoutes.mkHTTPException 400
          ("Test run is already " ++ TestsRoutes.status_value (Models.status tr0))), w).
Proof.
  intros H Hs. unfold TestsRoutes.cancel_test_run, TestsRoutes.get_test_run_by_id.
  rewrite H. destruct Hs as [-> | ->]; reflexivity.
Qed.

Lemma cancel_missing (test_run_id : string) (w : Firestore.World) :
  Firestore.test_runs w !! test_run_id = None ->
  TestsRoutes.cancel_test_run test_run_id w
  = (TestsRoutes.HTTPError (TestsRoutes.mkHTTPException 404 "Test run not found"), w).
Proof.
  intros H. unfold TestsRoutes.cancel_test_run, TestsRoutes.get_test_run_by_id.
  now rewrite H.
Qed.

(** X20: cancel_test_run succeeds exactly for a run that is pending or
    running; a refused cancellation writes nothing; and a second
    cancellation of the same run is always refused and writes nothing,
    with 400 and the detail that the run is already failed when the first
    one succeeded. *)
Theorem cancel_test_run_twice (test_run_id : string) (w : Firestore.World) :
  let first := TestsRoutes.cancel_test_run test_run_id w in
  let second := TestsRoutes.cancel_test_run test_run_id (snd first) in
  (fst first = TestsRoutes.Return ("Test run cancelled", test_run_id)
   <-> exists tr0, Firestore.test_runs w !! test_run_id = Some tr0
                   /\ (Models.status tr0 = Models.RUNNING
                       \/ Models.status tr0 = Models.PENDING))
  /\ ((exists e, fst first = TestsRoutes.HTTPError e) -> snd first = w)
  /\ (exists e, second = (TestsRoutes.HTTPError e, snd first)
                /\ ((exists m, fst first = TestsRoutes.Return m) ->
                    e = TestsRoutes.mkHTTPException 400 "Test run is already failed")).
Proof.
  intros first second. subst first second.
  destruct (Firestore.test_runs w !! test_run_id) as [tr0|] eqn:E.
  - assert (Hcase : (Models.status tr0 = Models.RUNNING
                     \/ Models.status tr0 = Models.PENDING)
                    \/ (Models.status tr0 = Models.COMPLETED
                        \/ Models.status tr0 = Models.FAILED))
      by (destruct (Models.status tr0); auto).
    destruct Hcase as [Hs|Hs].
    + rewrite (cancel_unfinished test_run_id w tr0 E Hs). cbn [fst snd].
      split_and!.
      * split; [eauto | reflexivity].
      * intros (e & He). discriminate.
      * eexists. split; [|reflexivity].
        rewrite (cancel_finished test_run_id _
                   {| Models.status := Models.FAILED;
                      Models.processed_documents := Models.processed_documents tr0;
                      Models.error_message := Some "Cancelled by user";
                      Models.completed := true |});
          [reflexivity | cbn; apply lookup_insert_eq | cbn; auto].
    + rewrite (cancel_finished test_run_id w tr0 E Hs). cbn [fst snd].
      split_and!.
      * split; [discriminate|].
        intros (tr & [= <-] & Hr). destruct Hs as [Hs|Hs], Hr as [Hr|Hr]; congruence.
      * reflexivity.
      * eexists. rewrite (cancel_finished test_run_id w tr0 E Hs).
        split; [reflexivity|]. intros (m & Hm). discriminate.
  - rewrite (cancel_missing test_run_id w E). cbn [fst snd]. split_and!.
    + split; [discriminate|]. intros (tr & Htr & _). discriminate.
    + reflexivity.
    + eexists. rewrite (cancel_missing test_run_id w E).
      split; [reflexivity|]. intros (m & Hm). discriminate.
Qed.

(** ** The status of a run after its background task *)

Lemma keeps_message_refl (run_id : string) (w : Firestore.World) :
  RouteNotions.keeps_message run_id w w.
Proof. intros tr0 H. eauto. Qed.

Lemma keeps_message_trans (run_id : string) (w1 w2 w3 : Firestore.World) :
  RouteNotions.keeps_message run_id w1 w2 ->
  RouteNotions.keeps_message run_id w2 w3 ->
  RouteNotions.keeps_message run_id w1 w3.
Proof.
  intros H12 H23 tr0 H. destruct (H12 tr0 H) as (tr1 & H1 & E1).
  destruct (H23 tr1 H1) as (tr2 & H2 & E2). exists tr2. split; [exact H2|congruence].
Qed.

Lemma update_status_keeps_message (run_id other : string) (status : Models.TestStatus)
    (processed : option Z) (st : Pipeline.State) :
  RouteNotions.keeps_message run_id (Pipeline.world st)
    (Pipeline.world (snd (TestsRouter.update_status other status processed None st))).
Proof.
  intros tr0 H. unfold TestsRouter.update_status, Firestore.update_test_run_status.
  destruct (Firestore.test_runs (Pipeline.world st) !! other) as [doc|] eqn:E;
    cbn [snd Pipeline.world Firestore.test_runs]; [|eauto].
  destruct (decide (other = run_id)) as [->|Hne].
  - rewrite lookup_insert_eq. eexists. split; [reflexivity|]. cbn. congruence.
  - rewrite lookup_insert_ne by exact Hne. eauto.
Qed.

Section FinalStatus.

Context (S : Pipeline.Services) (layout_library ocr_library test_run_id : string).

Lemma batch_loop_keeps_message (batch : Models.BatchInDB) (is_handwritten : bool)
    (cb : Z -> Z -> Pipeline.M unit) :
  (forall a b st,
     RouteNotions.keeps_message test_run_id (Pipeline.world st)
       (Pipeline.world (snd (cb a b st)))) ->
  forall docs i results st,
    RouteNotions.keeps_message test_run_id (Pipeline.world st)
      (Pipeline.world
         (snd (Pipeline.batch_loop S batch layout_library ocr_library test_run_id
                 (Some cb) is_handwritten i docs results st))).
Proof.
  intros Hcb docs. induction docs as [|d docs IH]; intros i results st.
  - apply keeps_message_refl.
  - cbn [Pipeline.batch_loop].
    destruct (Pipeline.outcome
                (Pipeline.process_one S is_handwritten layout_library ocr_library d))
      as [r|e]; [|apply keeps_message_refl].
    cbn [Pipeline.world Pipeline.trace].
    match goal with
    | |- context [cb ?a ?b ?s] =>
        pose proof (Hcb a b s) as Hstep; destruct (cb a b s) as [[u|e] st2]
    end; cbn [snd] in Hstep |- *.
    + eapply keeps_message_trans; [|apply IH].
      eapply keeps_message_trans; [|exact Hstep].
      intros tr0 H. eauto.
    + eapply keeps_message_trans; [|exact Hstep].
      intros tr0 H. eauto.
Qed.

Lemma batches_loop_keeps_message (batch_ids : list string) :
  forall total_processed st,
    RouteNotions.keeps_message test_run_id (Pipeline.world st)
      (Pipeline.world
         (snd (TestsRouter.batches_loop S test_run_id layout_library ocr_library
                 batch_ids total_processed st))).
Proof.
  induction batch_ids as [|bid bids IH]; intros tp st.
  - apply keeps_message_refl.
  - cbn [TestsRouter.batches_loop].
    destruct (Firestore.get_batch_by_id (Pipeline.world st) bid) as [batch|];
      [|apply IH].
    unfold Pipeline.process_batch.
    pose proof (batch_loop_keeps_message batch
                  (String.eqb (Models.batch_type batch) "handwritten")
                  (fun curr (_ : Z) =>
                     TestsRouter.update_status test_run_id Models.RUNNING
                       (Some (tp + curr)) None)
                  ltac:(intros a b s; apply update_status_keeps_message)
                  (Models.documents batch) 0 [] st) as Hb.
    destruct (Pipeline.batch_loop _ _ _ _ _ _ _ _ _ _ _) as [[out|e] st1];
      cbn [snd] in Hb |- *; [|exact Hb].
    eapply keeps_message_trans; [exact Hb | apply IH].
Qed.

End FinalStatus.

(** X21: when the run's status document exists, the background task
    always leaves it in a final state with the completion stamp set:
    completed, with the error message it had before the task (the task
    never clears one), when the try block ends normally; failed, with the
    text of the exception as error message, when it raises. *)
Theorem run_test_background_ends_the_run
    (S : Pipeline.Services) (test_run_id : string) (batch_ids : list string)
    (layout_library ocr_library : string) (st : Pipeline.State) (tr0 : Models.TestRun) :
  Firestore.test_runs (Pipeline.world st) !! test_run_id = Some tr0 ->
  let st' := TestsRouter.run_test_background S test_run_id batch_ids
               layout_library ocr_library st in
  exists tr,
    Firestore.test_runs (Pipeline.world st') !! test_run_id = Some tr
    /\ Models.completed tr = true
    /\ match fst (TestsRouter.try_body S test_run_id batch_ids layout_library
                    ocr_library st) with
       | Ok _ =>
           Models.status tr = Models.COMPLETED
           /\ Models.error_message tr = Models.error_message tr0
       | Raise e =>
           Models.status tr = Models.FAILED
           /\ Models.error_message tr = Some (exc_str e)
       end.
Proof.
  intros Hrun st'. subst st'.
  unfold TestsRouter.run_test_background, TestsRouter.try_body.
  destruct (update_status_exact test_run_id Models.RUNNING None None st tr0 Hrun)
    as (w1 & Hw1 & _ & _ & Ht1).
  rewrite Hw1.
  set (st1 := {| Pipeline.world := w1; Pipeline.trace := Pipeline.trace st |}).
  pose proof (batches_loop_keeps_message S layout_library ocr_library test_run_id
                batch_ids 0 st1 _ Ht1) as (tr2 & Htr2 & Hm2).
  cbn [Models.error_message] in Hm2.
  destruct (TestsRouter.batches_loop S test_run_id layout_library ocr_library
              batch_ids 0 st1) as [[total|e] st2]; cbn [snd] in Htr2.
  - destruct (update_status_exact test_run_id Models.COMPLETED (Some total) None
                st2 tr2 Htr2) as (w3 & Hw3 & _ & _ & Ht3).
    rewrite Hw3. cbn [fst Pipeline.world].
    eexists. split; [exact Ht3|]. cbn. split_and!; [reflexivity..|exact Hm2].
  - cbn [fst].
    destruct (update_status_exact test_run_id Models.FAILED None (Some (exc_str e))
                st2 tr2 Htr2) as (w3 & Hw3 & _ & _ & Ht3).
    rewrite Hw3. cbn [snd Pipeline.world].
    eexists. split; [exact Ht3|]. cbn. split_and!; reflexivity.
Qed.

Lemma run_test_background_ends_the_run_witness :
  exists tr,
    Firestore.test_runs
      (Pipeline.world
         (TestsRouter.run_test_background Fixtures.services "run-2"
            ["batch-2"; "batch-3"] "doctr" "abbyy" Samples3.state))
    !! "run-2" = Some tr
    /\ Models.completed tr = true
    /\ Models.status tr = Models.FAILED
    /\ Models.error_message tr
       = Some "Unknown OCR engine: abbyy. Available: ['easyocr', 'surya', 'paddleocr', 'tesseract', 'trocr', 'got_ocr', 'mineru']".
Proof.
  destruct (run_test_background_ends_the_run Fixtures.services "run-2"
              ["batch-2"; "batch-3"] "doctr" "abbyy" Samples3.state
              Fixtures.pending_run) as (tr & Htr & Hc & H).
  - vm_compute. reflexivity.
  - exists tr. split; [exact Htr|]. split; [exact Hc|].
    assert (E : fst (TestsRouter.try_body Fixtures.services "run-2"
                       ["batch-2"; "batch-3"] "doctr" "abbyy" Samples3.state)
                = Raise (mkExc "ValueError"
                    "Unknown OCR engine: abbyy. Available: ['easyocr', 'surya', 'paddleocr', 'tesseract', 'trocr', 'got_ocr', 'mineru']"))
      by (vm_compute; reflexivity).
    rewrite E in H. exact H.
Defined.

(** X22: cancelling does not stop the background task. When a run that
    was cancelled while pending or running is then processed and every
    document of its batches succeeds, all the documents are processed and
    their results stored, and the run ends completed, with the count of
    the documents, while its error message still says that it was
    cancelled by the user. *)
Theorem cancelled_run_is_still_processed
    (S : Pipeline.Services) (layout_library ocr_library test_run_id : string)
    (batch_ids : list string) (tr0 : Models.TestRun) (st : Pipeline.State) :
  Firestore.test_runs (Pipeline.world st) !! test_run_id = Some tr0 ->
  Models.status tr0 = Models.RUNNING \/ Models.status tr0 = Models.PENDING ->
  Forall (BatchNotions.batch_succeeds S layout_library ocr_library)
    (BatchNotions.found_batches (Pipeline.world st) batch_ids) ->
  let cancelled :=
    {| Pipeline.world := snd (TestsRoutes.cancel_test_run test_run_id (Pipeline.world st));
       Pipeline.trace := Pipeline.trace st |} in
  let st' := TestsRouter.run_test_background S test_run_id batch_ids
               layout_library ocr_library cancelled in
  let documents :=
    concat (List.map Models.documents
              (BatchNotions.found_batches (Pipeline.world st) batch_ids)) in
  Firestore.test_runs (Pipeline.world cancelled) !! test_run_id
  = Some {| Models.status := Models.FAILED;
            Models.processed_documents := Models.processed_documents tr0;
            Models.error_message := Some "Cancelled by user";
            Models.completed := true |}
  /\ Firestore.test_runs (Pipeline.world st') !! test_run_id
     = Some {| Models.status := Models.COMPLETED;
               Models.processed_documents := Z.of_nat (length documents);
               Models.error_message := Some "Cancelled by user";
               Models.completed := true |}
  /\ Spec.persisted st' = (Spec.persisted st ++ List.map Models.id documents)%list.
Proof.
  intros Hrun Hs Hok cancelled st' documents. subst cancelled st' documents.
  rewrite (cancel_unfinished test_run_id (Pipeline.world st) tr0 Hrun Hs).
  cbn [snd].
  set (st0 := {| Pipeline.world := _; Pipeline.trace := Pipeline.trace st |}).
  assert (H0 : Firestore.test_runs (Pipeline.world st0) !! test_run_id
               = Some {| Models.status := Models.FAILED;
                         Models.processed_documents := Models.processed_documents tr0;
                         Models.error_message := Some "Cancelled by user";
                         Models.completed := true |})
    by (cbn; apply lookup_insert_eq).
  split; [exact H0|].
  unfold TestsRouter.run_test_background, TestsRouter.try_body.
  destruct (update_status_exact test_run_id Models.RUNNING None None st0 _ H0)
    as (w1 & Hw1 & Hr1 & Hb1 & Ht1).
  rewrite Hw1.
  set (st1 := {| Pipeline.world := w1; Pipeline.trace := Pipeline.trace st0 |}).
  assert (Hfound : BatchNotions.found_batches (Pipeline.world st1) batch_ids
                   = BatchNotions.found_batches (Pipeline.world st) batch_ids)
    by (apply found_batches_frame; cbn [st1 Pipeline.world]; rewrite Hb1; reflexivity).
  pose proof (batches_loop_keeps_message S layout_library ocr_library test_run_id
                batch_ids 0 st1 _ Ht1) as (tr2 & Htr2 & Hm2).
  cbn [Models.error_message] in Hm2.
  destruct (batches_loop_completes S layout_library ocr_library test_run_id
              batch_ids 0 st1) as (st2 & Hl & Hres & _).
  { now rewrite Hfound. }
  rewrite Hfound in Hl, Hres. rewrite Hl in Htr2 |- *. cbn [snd] in Htr2.
  destruct (update_status_exact test_run_id Models.COMPLETED
              (Some (0 + Z.of_nat (length (concat (List.map Models.documents
                 (BatchNotions.found_batches (Pipeline.world st) batch_ids))))))
              None st2 tr2 Htr2) as (w3 & Hw3 & Hr3 & _ & Ht3).
  rewrite Hw3. cbn [snd Pipeline.world]. split.
  - rewrite Ht3. cbn. rewrite Hm2. reflexivity.
  - unfold Spec.persisted in *. cbn [Pipeline.world] in *.
    rewrite Hr3, Hres. cbn [st1 Pipeline.world]. rewrite Hr1. reflexivity.
Qed.

Lemma cancelled_run_is_still_processed_witness :
  let cancelled :=
    {| Pipeline.world := snd (TestsRoutes.cancel_test_run "run-2"
                                (Pipeline.world Samples3.state));
       Pipeline.trace := [] |} in
  let st' := TestsRouter.run_test_background Fixtures.services "run-2"
               ["batch-2"; "batch-3"] "doctr" "easyocr" cancelled in
  Firestore.test_runs (Pipeline.world cancelled) !! "run-2"
  = Some {| Models.status := Models.FAILED; Models.processed_documents := 0;
            Models.error_message := Some "Cancelled by user";
            Models.completed := true |}
  /\ Firestore.test_runs (Pipeline.world st') !! "run-2"
     = Some {| Models.status := Models.COMPLETED; Models.processed_documents := 3;
               Models.error_message := Some "Cancelled by user";
               Models.completed := true |}
  /\ Spec.persisted st' = ["doc-1"; "doc-3"; "scan-1"].
Proof.
  apply (cancelled_run_is_still_processed Fixtures.services "doctr" "easyocr" "run-2"
           ["batch-2"; "batch-3"] Fixtures.pending_run Samples3.state).
  - vm_compute. reflexivity.
  - right. reflexivity.
  - assert (E : BatchNotions.found_batches (Pipeline.world Samples3.state)
                  ["batch-2"; "batch-3"]
                = [Samples3.good_batch; Samples3.scans_batch])
      by (vm_compute; reflexivity).
    rewrite E. unfold BatchNotions.batch_succeeds.
    repeat constructor; eexists; vm_compute; reflexivity.
Defined.

(** ** Verification *)

Lemma ratio_in_unit_interval (a b : nat) :
  (a <= b)%nat -> (0 < b)%nat ->
  (0 <= inject_Z (Z.of_nat a) / inject_Z (Z.of_nat b))%Q
  /\ (inject_Z (Z.of_nat a) / inject_Z (Z.of_nat b) <= 1)%Q.
Proof.
  intros Hab Hb.
  assert (Hb' : (0 < inject_Z (Z.of_nat b))%Q).
  { change 0%Q with (inject_Z 0). rewrite <- Zlt_Qlt. lia. }
  split.
  - apply Qle_shift_div_l; [exact Hb'|]. rewrite Qmult_0_l.
    change 0%Q with (inject_Z 0). rewrite <- Zle_Qle. lia.
  - apply Qle_shift_div_r; [exact Hb'|]. rewrite Qmult_1_l.
    rewrite <- Zle_Qle. lia.
Qed.

Lemma truthy_list_length {A} (l : list A) : truthy_list l = true -> (0 < length l)%nat.
Proof. destruct l; [discriminate|cbn; lia]. Qed.

Lemma regions_accuracy_bounds (l : list Verification.TextRegion) :
  (0 <= Verification.regions_accuracy l)%Q /\ (Verification.regions_accuracy l <= 1)%Q.
Proof.
  unfold Verification.regions_accuracy.
  destruct (truthy_list (List.filter Verification.region_is_important l)) eqn:E.
  - unfold Py.len. apply ratio_in_unit_interval.
    + apply List.filter_length_le.
    + now apply truthy_list_length.
  - split; [apply Qle_refl | discriminate].
Qed.

Lemma fields_accuracy_bounds (l : list Models.ExtractedField) :
  (0 <= Verification.fields_accuracy l)%Q /\ (Verification.fields_accuracy l <= 1)%Q.
Proof.
  unfold Verification.fields_accuracy.
  set (important := if negb (truthy_list (List.filter Models.is_important l))
                    then l else List.filter Models.is_important l).
  destruct (truthy_list important) eqn:E.
  - unfold Py.len. apply ratio_in_unit_interval.
    + apply List.filter_length_le.
    + now apply truthy_list_length.
  - split; [apply Qle_refl | discriminate].
Qed.

Lemma update_result_found (result : Verification.ResultInDB)
    (f : Verification.ResultInDB -> Verification.ResultInDB) (st : Verification.Store) :
  In result (Verification.results st) ->
  Verification.update_result (Verification.id result) f st
  = (true,
     {| Verification.test_runs := Verification.test_runs st;
        Verification.results :=
          List.map (fun r => if String.eqb (Verification.id r) (Verification.id result)
                             then f r else r)
            (Verification.results st) |}).
Proof.
  intros Hin. unfold Verification.update_result.
  replace (existsb _ (Verification.results st)) with true; [reflexivity|].
  symmetry. apply existsb_exists. exists result. split; [exact Hin|].
  apply String.eqb_refl.
Qed.

Lemma find_map_preserved {A} (p : A -> bool) (g : A -> A) (l : list A) :
  (forall x, p (g x) = p x) ->
  List.find p (List.map g l) = option_map g (List.find p l).
Proof.
  intros Hp. induction l as [|x l IH]; [reflexivity|].
  cbn [List.map List.find]. rewrite Hp. destruct (p x); [reflexivity | exact IH].
Qed.

Lemma updated_fields_keep_output (request_fields : list Verification.VerifyFieldRequest)
    (fs : list Models.ExtractedField) :
  List.map VerificationNotions.ocr_output (Verification.updated_fields request_fields fs)
  = List.map VerificationNotions.ocr_output fs.
Proof.
  unfold Verification.updated_fields. rewrite List.map_map.
  apply List.map_ext. intros f. now destruct (List.find _ request_fields).
Qed.

Lemma map_update_elsewhere (rid : string)
    (f : Verification.ResultInDB -> Verification.ResultInDB)
    (l : list Verification.ResultInDB) (r : Verification.ResultInDB) :
  In r l -> Verification.id r <> rid ->
  In r (List.map (fun r => if String.eqb (Verification.id r) rid then f r else r) l).
Proof.
  intros Hin Hne. apply in_map_iff. exists r. split; [|exact Hin].
  destruct (String.eqb (Verification.id r) rid) eqn:E; [|reflexivity].
  apply String.eqb_eq in E. contradiction.
Qed.

(** X23: when the result exists and the request carries no text regions,
    verify_document always succeeds (never 404 or 500) and changes, in that
    result alone, only the review of the fields: every extracted field
    keeps its name, expected value, extracted value, confidence and match
    score, in the same order, the OCR results and the overall accuracy
    stay, a field the request does not name is left as it was, and the
    verified accuracy returned, between 0 and 1, is the one stored with the
    verifier's id. *)
Theorem verify_document_keeps_ocr_output
    (user_email : option string) (test_run_id document_id : string)
    (request : Verification.VerifyDocumentRequest) (current_user_id : string)
    (st : Verification.Store) (result : Verification.ResultInDB) :
  Verification.get_result_by_document st test_run_id document_id = Some result ->
  Verification.request_text_regions request = None ->
  let answer := Verification.verify_document user_email test_run_id document_id
                  request current_user_id st in
  exists result' accuracy,
    fst answer
    = TestsRoutes.Return
        {| Verification.message := "Verification submitted successfully";
           Verification.response_verified_accuracy := accuracy;
           Verification.fields_verified :=
             Some (Z.of_nat (length (Verification.fields request)));
           Verification.regions_verified := None;
           Verification.regions_added := None |}
    /\ (0 <= accuracy)%Q /\ (accuracy <= 1)%Q
    /\ Verification.get_result_by_document (snd answer) test_run_id document_id
       = Some result'
    /\ List.map VerificationNotions.ocr_output (Verification.extracted_fields result')
       = List.map VerificationNotions.ocr_output (Verification.extracted_fields result)
    /\ (forall i f,
          Verification.extracted_fields result !! i = Some f ->
          ~ In (Models.field_name f)
              (List.map Verification.vf_field_name (Verification.fields request)) ->
          Verification.extracted_fields result' !! i = Some f)
    /\ Verification.ocr_results result' = Verification.ocr_results result
    /\ Verification.overall_accuracy result' = Verification.overall_accuracy result
    /\ Verification.verified_accuracy result' = Some accuracy
    /\ Verification.verified_by result' = Some current_user_id
    /\ Verification.test_runs (snd answer) = Verification.test_runs st
    /\ length (Verification.results (snd answer)) = length (Verification.results st)
    /\ (forall r, In r (Verification.results st) ->
                  Verification.id r <> Verification.id result ->
                  In r (Verification.results (snd answer))).
Proof.
  intros Hfind Hnone answer. subst answer.
  unfold Verification.verify_document. rewrite Hfind, Hnone.
  unfold Verification.get_result_by_document in Hfind.
  pose proof (List.find_some _ _ Hfind) as [Hin Hp].
  unfold Verification.update_result_verification.
  rewrite (update_result_found result _ st Hin). cbn [negb fst snd].
  eexists. eexists. split; [reflexivity|].
  destruct (fields_accuracy_bounds
              (Verification.updated_fields (Verification.fields request)
                 (Verification.extracted_fields result))) as [H0 H1].
  split; [exact H0|]. split; [exact H1|]. split.
  - unfold Verification.get_result_by_document. cbn [Verification.results].
    rewrite find_map_preserved.
    + rewrite Hfind. cbn [option_map]. rewrite String.eqb_refl. reflexivity.
    + intros x. now destruct (String.eqb (Verification.id x) (Verification.id result)).
  - cbn. split_and!; try reflexivity.
    + apply updated_fields_keep_output.
    + intros i f Hi Hnot. unfold Verification.updated_fields.
      change (List.map ?g ?l) with (g <$> l). rewrite list_lookup_fmap, Hi. cbn.
      destruct (List.find _ (Verification.fields request)) as [v|] eqn:Ev; [|reflexivity].
      exfalso. apply Hnot. apply List.find_some in Ev as [Hv Hn].
      apply String.eqb_eq in Hn. rewrite <- Hn. now apply List.in_map.
    + now rewrite length_map.
    + intros r Hr Hne. now apply map_update_elsewhere.
Qed.

Lemma verify_document_keeps_ocr_output_witness :
  let answer := Verification.verify_document (Some "clerk@court.example") "run-1" "doc-1"
                  VerificationSamples.fields_request "user-1"
                  VerificationSamples.store in
  exists result' accuracy,
    fst answer
    = TestsRoutes.Return
        {| Verification.message := "Verification submitted successfully";
           Verification.response_verified_accuracy := accuracy;
           Verification.fields_verified := Some 3;
           Verification.regions_verified := None;
           Verification.regions_added := None |}
    /\ (0 <= accuracy)%Q /\ (accuracy <= 1)%Q
    /\ Verification.get_result_by_document (snd answer) "run-1" "doc-1" = Some result'
    /\ List.map VerificationNotions.ocr_output (Verification.extracted_fields result')
       = List.map VerificationNotions.ocr_output
           (Verification.extracted_fields VerificationSamples.synthetic_result).
Proof.
  destruct (verify_document_keeps_ocr_output (Some "clerk@court.example") "run-1"
              "doc-1" VerificationSamples.fields_request "user-1"
              VerificationSamples.store VerificationSamples.synthetic_result
              eq_refl eq_refl)
    as (result' & accuracy & H1 & H2 & H3 & H4 & H5 & _).
  exists result', accuracy. split_and!; assumption.
Defined.

Lemma update_region_keeps_output (l : list Verification.TextRegion)
    (tr : Verification.TextRegionVerification) :
  List.map VerificationNotions.region_output (Verification.update_region l tr)
  = List.map VerificationNotions.region_output l.
Proof.
  unfold Verification.update_region.
  destruct ((0 <=? Verification.region_index tr)
            && (Verification.region_index tr <? Z.of_nat (length l))); [|reflexivity].
  generalize (Z.to_nat (Verification.region_index tr)) as i.
  induction l as [|r l IH]; intros [|i]; cbn; try reflexivity.
  f_equal. apply IH.
Qed.

Lemma update_region_lookup (l : list Verification.TextRegion)
    (tr : Verification.TextRegionVerification) (i : nat) (r : Verification.TextRegion) :
  l !! i = Some r ->
  Verification.update_region l tr !! i
  = Some (if Verification.region_index tr =? Z.of_nat i
          then VerificationNotions.reviewed r tr else r).
Proof.
  intros Hi. unfold Verification.update_region.
  pose proof (lookup_lt_Some _ _ _ Hi) as Hlt.
  destruct ((0 <=? Verification.region_index tr)
            && (Verification.region_index tr <? Z.of_nat (length l))) eqn:Hrange.
  - apply andb_true_iff in Hrange as [H0 H1].
    apply Z.leb_le in H0. apply Z.ltb_lt in H1.
    destruct (Verification.region_index tr =? Z.of_nat i) eqn:E.
    + apply Z.eqb_eq in E. rewrite E, Nat2Z.id.
      rewrite list_lookup_alter, Hi. now rewrite decide_True.
    + apply Z.eqb_neq in E. rewrite list_lookup_alter_ne by lia. exact Hi.
  - replace (Verification.region_index tr =? Z.of_nat i) with false; [exact Hi|].
    symmetry. apply Z.eqb_neq. intros E.
    apply andb_false_iff in Hrange as [H|H].
    + apply Z.leb_gt in H. lia.
    + apply Z.ltb_ge in H. lia.
Qed.

Lemma fold_update_region_spec (request_regions : list Verification.TextRegionVerification)
    (old : list Verification.TextRegion) :
  List.map VerificationNotions.region_output
    (fold_left Verification.update_region request_regions old)
  = List.map VerificationNotions.region_output old
  /\ forall i r,
       old !! i = Some r ->
       fold_left Verification.update_region request_regions old !! i
       = Some (match VerificationNotions.last_entry_for request_regions i with
               | Some tr => VerificationNotions.reviewed r tr
               | None => r
               end).
Proof.
  induction request_regions as [|tr rr [IHo IHl]] using rev_ind.
  - split; [reflexivity|]. intros i r Hi. exact Hi.
  - rewrite fold_left_app. cbn [fold_left]. split.
    + now rewrite update_region_keeps_output.
    + intros i r Hi. unfold VerificationNotions.last_entry_for.
      rewrite rev_app_distr. cbn [rev app List.find].
      rewrite (update_region_lookup _ tr i _ (IHl i r Hi)).
      destruct (Verification.region_index tr =? Z.of_nat i); [|reflexivity].
      unfold VerificationNotions.last_entry_for.
      now destruct (List.find _ (rev rr)).
Qed.

Lemma verified_regions_split (request : Verification.VerifyDocumentRequest)
    (request_regions : list Verification.TextRegionVerification)
    (old : list Verification.TextRegion) :
  Verification.verified_regions request_regions (Verification.added_regions request) old
  = (fold_left Verification.update_region request_regions old
     ++ VerificationNotions.appended request)%list.
Proof.
  unfold Verification.verified_regions, VerificationNotions.appended.
  destruct (Verification.added_regions request) as [[|a l]|]; cbn [default List.map];
    now rewrite ?app_nil_r.
Qed.

(** X24: when the result exists and the request carries text regions,
    verify_document always succeeds and, in that result alone, only
    reviews and appends text regions: no stored region is dropped, moved
    or has its text or confidence changed; a region gets the review of the
    last request entry with its index and stays as it was without one,
    entries whose index is out of range being ignored; the added regions
    follow the stored ones, each verified, important and marked as added
    by the user; the extracted fields, the full text and the overall
    accuracy stay. *)
Theorem verify_document_reviews_text_regions
    (user_email : option string) (test_run_id document_id : string)
    (request : Verification.VerifyDocumentRequest) (current_user_id : string)
    (st : Verification.Store) (result : Verification.ResultInDB)
    (request_regions : list Verification.TextRegionVerification) :
  Verification.get_result_by_document st test_run_id document_id = Some result ->
  Verification.request_text_regions request = Some request_regions ->
  let answer := Verification.verify_document user_email test_run_id document_id
                  request current_user_id st in
  let old := default [] (Verification.text_regions (Verification.ocr_results result)) in
  exists result' kept accuracy,
    fst answer
    = TestsRoutes.Return
        {| Verification.message := "Verification submitted successfully";
           Verification.response_verified_accuracy := accuracy;
           Verification.fields_verified := None;
           Verification.regions_verified := Some (Z.of_nat (length request_regions));
           Verification.regions_added :=
             Some (Z.of_nat (length (VerificationNotions.appended request))) |}
    /\ (0 <= accuracy)%Q /\ (accuracy <= 1)%Q
    /\ Verification.get_result_by_document (snd answer) test_run_id document_id
       = Some result'
    /\ Verification.text_regions (Verification.ocr_results result')
       = Some (kept ++ VerificationNotions.appended request)%list
    /\ List.map VerificationNotions.region_output kept
       = List.map VerificationNotions.region_output old
    /\ (forall i r,
          old !! i = Some r ->
          kept !! i
          = Some (match VerificationNotions.last_entry_for request_regions i with
                  | Some tr => VerificationNotions.reviewed r tr
                  | None => r
                  end))
    /\ Verification.full_text (Verification.ocr_results result')
       = Verification.full_text (Verification.ocr_results result)
    /\ Verification.regions (Verification.ocr_results result')
       = Verification.regions (Verification.ocr_results result)
    /\ Verification.extracted_fields result' = Verification.extracted_fields result
    /\ Verification.overall_accuracy result' = Verification.overall_accuracy result
    /\ Verification.verified_accuracy result' = Some accuracy
    /\ Verification.verified_by result' = Some current_user_id
    /\ Verification.test_runs (snd answer) = Verification.test_runs st
    /\ length (Verification.results (snd answer)) = length (Verification.results st)
    /\ (forall r, In r (Verification.results st) ->
                  Verification.id r <> Verification.id result ->
                  In r (Verification.results (snd answer))).
Proof.
  intros Hfind Hsome answer old. subst answer old.
  unfold Verification.verify_document. rewrite Hfind, Hsome.
  unfold Verification.get_result_by_document in Hfind.
  pose proof (List.find_some _ _ Hfind) as [Hin Hp].
  unfold Verification.update_result_verification_handwritten.
  rewrite (update_result_found result _ st Hin). cbn [negb fst snd].
  destruct (fold_update_region_spec request_regions
              (default [] (Verification.text_regions (Verification.ocr_results result))))
    as [Hout Hlook].
  eexists. exists (fold_left Verification.update_region request_regions
                     (default [] (Verification.text_regions
                                    (Verification.ocr_results result)))).
  eexists. split.
  { f_equal. f_equal. f_equal. f_equal.
    unfold VerificationNotions.appended.
    destruct (Verification.added_regions request) as [[|a l]|]; cbn [default];
      now rewrite ?length_map. }
  destruct (regions_accuracy_bounds
              (Verification.verified_regions request_regions
                 (Verification.added_regions request)
                 (default [] (Verification.text_regions
                                (Verification.ocr_results result))))) as [H0 H1].
  split; [exact H0|]. split; [exact H1|]. split.
  - unfold Verification.get_result_by_document. cbn [Verification.results].
    rewrite find_map_preserved.
    + rewrite Hfind. cbn [option_map]. rewrite String.eqb_refl. reflexivity.
    + intros x. now destruct (String.eqb (Verification.id x) (Verification.id result)).
  - cbn. split_and!; try reflexivity.
    + f_equal. apply verified_regions_split.
    + exact Hout.
    + exact Hlook.
    + now rewrite length_map.
    + intros r Hr Hne. now apply map_update_elsewhere.
Qed.

Lemma verify_document_reviews_text_regions_witness :
  let answer := Verification.verify_document (Some "clerk@court.example") "run-1" "scan-1"
                  VerificationSamples.regions_request "user-1"
                  VerificationSamples.store in
  exists result' kept accuracy,
    fst answer
    = TestsRoutes.Return
        {| Verification.message := "Verification submitted successfully";
           Verification.response_verified_accuracy := accuracy;
           Verification.fields_verified := None;
           Verification.regions_verified := Some 2;
           Verification.regions_added := Some 1 |}
    /\ Verification.get_result_by_document (snd answer) "run-1" "scan-1" = Some result'
    /\ Verification.text_regions (Verification.ocr_results result')
       = Some (kept ++ [Verification.added_region (Some "Sincerely")])%list
    /\ List.map VerificationNotions.region_output kept
       = [("Dear", 0.8%Q, false); ("Judge", 0.8%Q, false)].
Proof.
  destruct (verify_document_reviews_text_regions (Some "clerk@court.example") "run-1"
              "scan-1" VerificationSamples.regions_request "user-1"
              VerificationSamples.store VerificationSamples.handwritten_result
              _ eq_refl eq_refl)
    as (result' & kept & accuracy & H1 & _ & _ & H4 & H5 & H6 & _).
  exists result', kept, accuracy. split_and!; assumption.
Defined.

Lemma share_in_unit_interval (a b : Z) :
  0 <= a <= b -> 0 < b ->
  (0 <= inject_Z a / inject_Z b * 100)%Q /\ (inject_Z a / inject_Z b * 100 <= 100)%Q.
Proof.
  intros Hab Hb.
  assert (Hb' : (0 < inject_Z b)%Q).
  { change 0%Q with (inject_Z 0). now rewrite <- Zlt_Qlt. }
  assert (H0 : (0 <= inject_Z a / inject_Z b)%Q).
  { apply Qle_shift_div_l; [exact Hb'|]. rewrite Qmult_0_l.
    change 0%Q with (inject_Z 0). rewrite <- Zle_Qle. lia. }
  assert (H1 : (inject_Z a / inject_Z b <= 1)%Q).
  { apply Qle_shift_div_r; [exact Hb'|]. rewrite Qmult_1_l.
    rewrite <- Zle_Qle. lia. }
  split.
  - apply Qmult_le_0_compat; [exact H0 | discriminate].
  - apply Qle_trans with (1 * 100)%Q; [|discriminate].
    apply Qmult_le_compat_r; [exact H1 | discriminate].
Qed.

(** The counters of the summary after the results [rs]. *)
Lemma summary_counters (rs : list Verification.ResultInDB) :
  forall v c u,
  exists v' c' u',
    fold_left Verification.summary_step rs (v, c, u) = (v', c', u')
    /\ v <= v' /\ c <= c' /\ u <= u'
    /\ v' + c' + u' = v + c + u + Z.of_nat (length rs)
    /\ v' + c'
       = v + c
         + Z.of_nat (length (List.filter
             (fun r => negb (String.eqb (Verification.doc_status r) "unverified")) rs))
         + Z.of_nat (length (List.filter VerificationNotions.fieldless_verified rs)).
Proof.
  induction rs as [|r rs IH]; intros v c u.
  - exists v, c, u. cbn. split; [reflexivity|]. lia.
  - cbn [fold_left List.filter length].
    assert (Hstep :
      exists dv dc du dl df,
        Verification.summary_step (v, c, u) r = (v + dv, c + dc, u + du)
        /\ 0 <= dv /\ 0 <= dc /\ 0 <= du /\ dv + dc + du = 1
        /\ (if negb (String.eqb (Verification.doc_status r) "unverified")
            then dl = 1 else dl = 0)
        /\ (if VerificationNotions.fieldless_verified r then df = 1 else df = 0)
        /\ dv + dc = dl + df).
    { unfold Verification.summary_step, Verification.doc_status,
        VerificationNotions.fieldless_verified, Verification.handwritten_status,
        Verification.fields_status.
      destruct (Verification.is_handwritten r);
        destruct (Verification.truthy_opt (Verification.verified_by r));
        destruct (truthy_list (Verification.extracted_fields r));
        cbn [negb andb];
        repeat match goal with
               | |- context [if ?b then _ else _] =>
                   lazymatch b with
                   | negb _ => fail
                   | _ => destruct b
                   end
               end;
        cbn;
        first
          [ exists 1, 0, 0, 1, 0; rewrite ?Z.add_0_r; repeat split; lia
          | exists 0, 1, 0, 1, 0; rewrite ?Z.add_0_r; repeat split; lia
          | exists 0, 0, 1, 0, 0; rewrite ?Z.add_0_r; repeat split; lia
          | exists 1, 0, 0, 0, 1; rewrite ?Z.add_0_r; repeat split; lia ]. }
    destruct Hstep as (dv & dc & du & dl & df & Hs & Hv & Hc & Hu & Hsum & Hl & Hf & Hvc).
    rewrite Hs.
    destruct (IH (v + dv) (c + dc) (u + du))
      as (v' & c' & u' & Hfold & Hv' & Hc' & Hu' & Htot & Hdone).
    exists v', c', u'. split; [exact Hfold|].
    destruct (negb (String.eqb (Verification.doc_status r) "unverified"));
      destruct (VerificationNotions.fieldless_verified r);
      cbn [length]; lia.
Qed.

(** X25: the summary of a run sorts every result of the run into
    exactly one of verified, corrected and unverified: the three counts
    are not negative and add up to the total, the number of results of the
    run, and the progress is between 0 and 100 per cent (0 for a run
    without results). *)
Theorem summary_partitions_the_results
    (test_run_id : string) (st : Verification.Store) (s : Verification.Summary) :
  Verification.get_verification_summary test_run_id st = TestsRoutes.Return s ->
  Verification.total s
  = Z.of_nat (length (Verification.get_results_by_test_run st test_run_id))
  /\ 0 <= Verification.verified s
  /\ 0 <= Verification.corrected s
  /\ 0 <= Verification.unverified s
  /\ Verification.verified s + Verification.corrected s + Verification.unverified s
     = Verification.total s
  /\ (0 <= Verification.progress_percent s)%Q
  /\ (Verification.progress_percent s <= 100)%Q
  /\ (Verification.total s = 0 -> Verification.progress_percent s = 0%Q).
Proof.
  unfold Verification.get_verification_summary.
  destruct (Verification.test_runs st !! test_run_id) as [tr|]; [|discriminate].
  destruct (summary_counters (Verification.get_results_by_test_run st test_run_id) 0 0 0)
    as (v & c & u & Hfold & Hv & Hc & Hu & Htot & _).
  rewrite Hfold. intros [= <-]. cbn.
  split_and!; try lia.
  - destruct (Z.of_nat (length _) >? 0) eqn:E.
    + apply share_in_unit_interval; lia.
    + apply Qle_refl.
  - destruct (Z.of_nat (length _) >? 0) eqn:E.
    + apply share_in_unit_interval; lia.
    + discriminate.
  - intros ->. reflexivity.
Qed.

Lemma summary_partitions_the_results_witness :
  exists s,
    Verification.get_verification_summary "run-1" VerificationSamples.store
    = TestsRoutes.Return s
    /\ Verification.total s = 3
    /\ Verification.verified s + Verification.corrected s + Verification.unverified s
       = Verification.total s.
Proof.
  eexists. split; [vm_compute; reflexivity|].
  match goal with
  | |- Verification.total ?s = 3 /\ _ =>
      destruct (summary_partitions_the_results "run-1" VerificationSamples.store s
                  ltac:(vm_compute; reflexivity)) as (Ht & _ & _ & _ & Hsum & _)
  end.
  split; [rewrite Ht; vm_compute; reflexivity | exact Hsum].
Defined.

(** X26: the listing and the summary of a run count the same results,
    but not the same way: the documents the listing shows as verified or
    corrected, plus the results without extracted fields that are not
    handwritten and have a verifier, are the verified and corrected
    results of the summary. The two routes agree on a run exactly when it
    has no such result. *)
Theorem listing_and_summary_counts
    (test_run_id : string) (st : Verification.Store)
    (l : Verification.Listing) (s : Verification.Summary) :
  Verification.list_documents_for_verification test_run_id st = TestsRoutes.Return l ->
  Verification.get_verification_summary test_run_id st = TestsRoutes.Return s ->
  let fieldless :=
    Z.of_nat (length (List.filter VerificationNotions.fieldless_verified
                        (Verification.get_results_by_test_run st test_run_id))) in
  Verification.listing_total l = Verification.total s
  /\ Verification.listing_verified l + fieldless
     = Verification.verified s + Verification.corrected s
  /\ (Verification.listing_verified l
      = Verification.verified s + Verification.corrected s
      <-> Forall (fun r => VerificationNotions.fieldless_verified r = false)
            (Verification.get_results_by_test_run st test_run_id)).
Proof.
  unfold Verification.list_documents_for_verification,
    Verification.get_verification_summary.
  destruct (Verification.test_runs st !! test_run_id) as [tr|]; [|discriminate].
  set (rs := Verification.get_results_by_test_run st test_run_id).
  destruct (summary_counters rs 0 0 0)
    as (v & c & u & Hfold & _ & _ & _ & _ & Hdone).
  rewrite Hfold. intros [= <-] [= <-]. cbn.
  assert (Hl : length (List.filter
                 (fun d => negb (String.eqb (Verification.entry_verification_status d)
                                   "unverified"))
                 (List.map (fun result =>
                    {| Verification.entry_result_id := Verification.id result;
                       Verification.entry_document_id := Verification.document_id result;
                       Verification.entry_batch_id := Verification.batch_id result;
                       Verification.entry_overall_accuracy :=
                         Verification.overall_accuracy result;
                       Verification.entry_verified_accuracy :=
                         Verification.verified_accuracy result;
                       Verification.entry_verification_status :=
                         Verification.doc_status result;
                       Verification.entry_is_handwritten :=
                         Verification.is_handwritten result |}) rs))
               = length (List.filter
                   (fun r => negb (String.eqb (Verification.doc_status r) "unverified"))
                   rs)).
  { clear. induction rs as [|r rs IH]; [reflexivity|].
    cbn [List.map List.filter Verification.entry_verification_status].
    destruct (negb (String.eqb (Verification.doc_status r) "unverified"));
      cbn [length]; now rewrite IH. }
  rewrite Hl, length_map. split_and!; [reflexivity | lia |].
  assert (Hz : length (List.filter VerificationNotions.fieldless_verified rs) = 0%nat
               <-> Forall (fun r => VerificationNotions.fieldless_verified r = false) rs).
  { clear. induction rs as [|r rs IH]; [split; [constructor|reflexivity]|].
    cbn [List.filter]. destruct (VerificationNotions.fieldless_verified r) eqn:E.
    - split; [discriminate|]. intros H. inversion H; subst. congruence.
    - rewrite IH. split; [now constructor|]. intros H. now inversion H. }
  rewrite <- Hz. lia.
Qed.

Lemma listing_and_summary_counts_witness :
  exists l s,
    Verification.list_documents_for_verification "run-1" VerificationSamples.store
    = TestsRoutes.Return l
    /\ Verification.get_verification_summary "run-1" VerificationSamples.store
       = TestsRoutes.Return s
    /\ Verification.listing_verified l + 1
       = Verification.verified s + Verification.corrected s.
Proof.
  eexists. eexists. split; [vm_compute; reflexivity|].
  split; [vm_compute; reflexivity|].
  match goal with
  | |- Verification.listing_verified ?l + 1 = Verification.verified ?s + _ =>
      destruct (listing_and_summary_counts "run-1" VerificationSamples.store l s
                  ltac:(vm_compute; reflexivity) ltac:(vm_compute; reflexivity))
        as (_ & H & _)
  end.
  exact H.
Defined.

Lemma full_text_outcome_shape (S : Pipeline.Services)
    (document : Models.SyntheticDocument) (ocr_library : string) (r : Models.DocResults) :
  Pipeline.outcome (Pipeline.process_document_full_text S document ocr_library) = Ok r ->
  Models.extracted_fields r = []
  /\ is_Some (OCR.dict_full_text (Models.ocr_results r)).
Proof.
  unfold Pipeline.process_document_full_text, mbind, Pipeline.traced_bind,
    Pipeline.call, Pipeline.pure, mret, Pipeline.traced_ret.
  cbn [Pipeline.outcome Pipeline.calls].
  repeat match goal with
         | |- context [match ?m with Ok _ => _ | Raise _ => _ end] =>
             destruct m; cbn [Pipeline.outcome Pipeline.calls]
         end; try discriminate.
  intros [= <-]. cbn. split; [reflexivity | eauto].
Qed.

Lemma field_mapped_outcome_shape (S : Pipeline.Services)
    (document : Models.SyntheticDocument) (layout_library ocr_library : string)
    (r : Models.DocResults) :
  Pipeline.outcome (Pipeline.process_document S document layout_library ocr_library)
  = Ok r ->
  OCR.dict_full_text (Models.ocr_results r) = None
  /\ Forall PipelineNotions.fresh (Models.extracted_fields r).
Proof.
  rewrite process_document_outcome.
  unfold mbind, result_bind, Py.bind, mret, result_ret.
  repeat match goal with
         | |- context [match ?m with Ok _ => _ | Raise _ => _ end] =>
             destruct m
         end; try discriminate.
  intros [= <-]. cbn. split; [reflexivity | apply match_fields_shape].
Qed.

Lemma fresh_fields_status (result : Verification.ResultInDB) :
  Verification.extracted_fields result <> [] ->
  Forall PipelineNotions.fresh (Verification.extracted_fields result) ->
  Verification.fields_status result = "unverified".
Proof.
  unfold Verification.fields_status.
  destruct (Verification.extracted_fields result) as [|f fs]; [congruence|].
  intros _ H. inversion H as [|? ? (_ & Hf & _) _]; subst.
  cbn [forallb]. rewrite Hf. reflexivity.
Qed.

(** X27: every result a batch run stores starts unverified in both
    verification routes, and the routes tell the two modes apart: a result
    of the full-text mode is taken for a handwritten one, a result of the
    field-mapped mode is not, even when its document has no field. *)
Theorem stored_results_start_unverified
    (S : Pipeline.Services) (is_handwritten : bool)
    (layout_library ocr_library : string) (document : Models.SyntheticDocument)
    (r : Models.DocResults) (result_id test_run_id batch_id : string) (v c u : Z) :
  Pipeline.outcome
    (Pipeline.process_one S is_handwritten layout_library ocr_library document) = Ok r ->
  let result :=
    Verification.created_result result_id
      {| Models.test_run_id := test_run_id; Models.document_id := Models.id document;
         Models.result_batch_id := batch_id; Models.stored := r |} in
  Verification.is_handwritten result = is_handwritten
  /\ Verification.doc_status result = "unverified"
  /\ Verification.summary_step (v, c, u) result = (v, c, u + 1).
Proof.
  intros H result. subst result. unfold Pipeline.process_one in H.
  unfold Verification.doc_status, Verification.summary_step,
    Verification.is_handwritten, Verification.handwritten_status,
    Verification.created_result.
  cbn [Verification.extracted_fields Verification.ocr_results Verification.full_text
       Verification.verified_by Verification.truthy_opt Models.stored].
  destruct is_handwritten.
  - apply full_text_outcome_shape in H as [Hf [t Ht]].
    rewrite Hf, Ht. cbn [truthy_list negb andb].
    rewrite bool_decide_eq_true_2 by eauto. now split_and!.
  - apply field_mapped_outcome_shape in H as [Ht Hfresh].
    rewrite Ht. rewrite bool_decide_eq_false_2 by (intros [? ?]; discriminate).
    rewrite andb_false_r.
    destruct (Models.extracted_fields r) as [|f fs] eqn:Ef;
      cbn [truthy_list negb]; [now split_and!|].
    inversion Hfresh as [|? ? (_ & Hs & _) _]; subst.
    unfold Verification.fields_status.
    cbn [Verification.extracted_fields forallb]. rewrite Hs. now split_and!.
Qed.

Lemma stored_results_start_unverified_witness :
  exists r,
    Pipeline.outcome
      (Pipeline.process_one Fixtures.services true "doctr" "easyocr"
         Fixtures.scan_document) = Ok r
    /\ Verification.is_handwritten
         (Verification.created_result "result-1"
            {| Models.test_run_id := "run-2"; Models.document_id := "scan-1";
               Models.result_batch_id := "batch-3"; Models.stored := r |}) = true
    /\ Verification.doc_status
         (Verification.created_result "result-1"
            {| Models.test_run_id := "run-2"; Models.document_id := "scan-1";
               Models.result_batch_id := "batch-3"; Models.stored := r |})
       = "unverified".
Proof.
  eexists. split; [vm_compute; reflexivity|].
  match goal with
  | |- Verification.is_handwritten (Verification.created_result _ ?x) = _ /\ _ =>
      destruct (stored_results_start_unverified Fixtures.services true "doctr" "easyocr"
                  Fixtures.scan_document (Models.stored x) "result-1" "run-2" "batch-3"
                  0 0 0 ltac:(vm_compute; reflexivity)) as (H1 & H2 & _)
  end.
  split; [exact H1 | exact H2].
Defined.

Lemma updated_fields_status (request_fields : list Verification.VerifyFieldRequest)
    (fs : list Models.ExtractedField) (P : Models.VerificationStatus -> Prop) :
  Forall (fun f => In (Models.field_name f)
                     (List.map Verification.vf_field_name request_fields)) fs ->
  Forall (fun vf => P (Verification.vf_verification_status vf)) request_fields ->
  Forall (fun f => P (Models.verification_status f))
    (Verification.updated_fields request_fields fs).
Proof.
  intros Hnamed Hreq. unfold Verification.updated_fields.
  apply List.Forall_map. eapply List.Forall_impl; [|exact Hnamed].
  intros f Hin. cbn beta.
  destruct (List.find _ request_fields) as [v|] eqn:Ev.
  - apply List.find_some in Ev as [Hv _]. cbn.
    rewrite List.Forall_forall in Hreq. now apply Hreq.
  - exfalso. apply in_map_iff in Hin as (vf & Hn & Hvf).
    apply (List.find_none _ _ Ev) in Hvf. cbn beta in Hvf.
    rewrite Hn, String.eqb_refl in Hvf. discriminate.
Qed.

(** X28: once a request that names every extracted field of a result,
    with no entry left unverified, has been submitted, the listing no
    longer shows the document as unverified; when all the entries say
    verified, it shows it as verified. *)
Theorem verified_document_is_listed_as_reviewed
    (user_email : option string) (test_run_id document_id : string)
    (request : Verification.VerifyDocumentRequest) (current_user_id : string)
    (st : Verification.Store) (result : Verification.ResultInDB) :
  Verification.get_result_by_document st test_run_id document_id = Some result ->
  Verification.request_text_regions request = None ->
  Verification.extracted_fields result <> [] ->
  Forall (fun f => In (Models.field_name f)
                     (List.map Verification.vf_field_name (Verification.fields request)))
    (Verification.extracted_fields result) ->
  Forall (fun vf => Verification.vf_verification_status vf <> Models.UNVERIFIED)
    (Verification.fields request) ->
  let st' := snd (Verification.verify_document user_email test_run_id document_id
                    request current_user_id st) in
  exists result',
    Verification.get_result_by_document st' test_run_id document_id = Some result'
    /\ (Verification.doc_status result' = "verified"
        \/ Verification.doc_status result' = "corrected")
    /\ (Forall (fun vf => Verification.vf_verification_status vf = Models.VERIFIED)
          (Verification.fields request) ->
        Verification.doc_status result' = "verified").
Proof.
  intros Hfind Hnone Hne Hnamed Hdone st'. subst st'.
  unfold Verification.verify_document. rewrite Hfind, Hnone.
  unfold Verification.get_result_by_document in Hfind.
  pose proof (List.find_some _ _ Hfind) as [Hin Hp].
  unfold Verification.update_result_verification.
  rewrite (update_result_found result _ st Hin). cbn [negb fst snd].
  eexists. split.
  { unfold Verification.get_result_by_document. cbn [Verification.results].
    rewrite find_map_preserved.
    + rewrite Hfind. cbn [option_map]. rewrite String.eqb_refl. reflexivity.
    + intros x. now destruct (String.eqb (Verification.id x) (Verification.id result)). }
  set (fs := Verification.updated_fields (Verification.fields request)
               (Verification.extracted_fields result)).
  assert (Hfs : truthy_list fs = true).
  { unfold fs, Verification.updated_fields.
    destruct (Verification.extracted_fields result); [congruence|reflexivity]. }
  unfold Verification.doc_status, Verification.is_handwritten, Verification.fields_status.
  cbn [Verification.extracted_fields]. fold fs. rewrite Hfs. cbn [negb andb].
  assert (Hall : forallb (fun ef => negb (Verification.status_eqb
                                            (Models.verification_status ef)
                                            Models.UNVERIFIED)) fs = true).
  { apply forallb_forall. intros f Hf.
    pose proof (updated_fields_status (Verification.fields request)
                  (Verification.extracted_fields result)
                  (fun s => s <> Models.UNVERIFIED) Hnamed Hdone) as H.
    rewrite List.Forall_forall in H. specialize (H f Hf). cbn beta in H.
    now destruct (Models.verification_status f). }
  rewrite Hall. split.
  - destruct (existsb _ fs); auto.
  - intros Hver.
    replace (existsb _ fs) with false; [reflexivity|].
    symmetry. apply not_true_is_false. intros Hex.
    apply existsb_exists in Hex as (f & Hf & Hc).
    pose proof (updated_fields_status (Verification.fields request)
                  (Verification.extracted_fields result)
                  (fun s => s = Models.VERIFIED) Hnamed Hver) as H.
    rewrite List.Forall_forall in H. specialize (H f Hf). cbn beta in H.
    rewrite H in Hc. discriminate.
Qed.

Lemma verified_document_is_listed_as_reviewed_witness :
  exists result',
    Verification.get_result_by_document
      (snd (Verification.verify_document None "run-1" "doc-1"
              VerificationSamples.fields_request "user-1" VerificationSamples.store))
      "run-1" "doc-1" = Some result'
    /\ (Verification.doc_status result' = "verified"
        \/ Verification.doc_status result' = "corrected").
Proof.
  assert (Hne : Verification.extracted_fields VerificationSamples.synthetic_result <> [])
    by discriminate.
  assert (Hnamed :
    Forall (fun f => In (Models.field_name f)
                       (List.map Verification.vf_field_name
                          (Verification.fields VerificationSamples.fields_request)))
      (Verification.extracted_fields VerificationSamples.synthetic_result))
    by (repeat constructor; cbn; auto).
  assert (Hdone :
    Forall (fun vf => Verification.vf_verification_status vf <> Models.UNVERIFIED)
      (Verification.fields VerificationSamples.fields_request))
    by (repeat constructor; discriminate).
  destruct (verified_document_is_listed_as_reviewed None "run-1" "doc-1"
              VerificationSamples.fields_request "user-1" VerificationSamples.store
              VerificationSamples.synthetic_result eq_refl eq_refl Hne Hnamed Hdone)
    as (result' & H1 & H2 & _).
  exists result'. split; assumption.
Defined.

(** X29: the two routes disagree after the verification of a result of
    the field-mapped mode that has no extracted field (the form had no
    field mapping): whatever the request, the listing goes on showing the
    document as unverified, while the summary counts it as verified. *)
Theorem fieldless_result_verified_in_summary_only
    (user_email : option string) (test_run_id document_id : string)
    (request : Verification.VerifyDocumentRequest) (current_user_id : string)
    (st : Verification.Store) (result : Verification.ResultInDB) (v c u : Z) :
  Verification.get_result_by_document st test_run_id document_id = Some result ->
  Verification.extracted_fields result = [] ->
  Verification.full_text (Verification.ocr_results result) = None ->
  current_user_id <> "" ->
  let st' := snd (Verification.verify_document user_email test_run_id document_id
                    request current_user_id st) in
  exists result',
    Verification.get_result_by_document st' test_run_id document_id = Some result'
    /\ Verification.doc_status result' = "unverified"
    /\ Verification.summary_step (v, c, u) result' = (v + 1, c, u).
Proof.
  intros Hfind Hnil Hfull Huser st'. subst st'.
  unfold Verification.verify_document. rewrite Hfind.
  unfold Verification.get_result_by_document in Hfind.
  pose proof (List.find_some _ _ Hfind) as [Hin Hp].
  assert (Htruthy : truthy_str current_user_id = true)
    by (destruct current_user_id; [congruence|reflexivity]).
  destruct (Verification.request_text_regions request) as [rr|].
  - unfold Verification.update_result_verification_handwritten.
    rewrite (update_result_found result _ st Hin). cbn [negb fst snd].
    eexists. split.
    { unfold Verification.get_result_by_document. cbn [Verification.results].
      rewrite find_map_preserved.
      + rewrite Hfind. cbn [option_map]. rewrite String.eqb_refl. reflexivity.
      + intros x. now destruct (String.eqb (Verification.id x) (Verification.id result)). }
    unfold Verification.doc_status, Verification.summary_step,
      Verification.is_handwritten.
    cbn [Verification.extracted_fields Verification.ocr_results Verification.full_text
         Verification.verified_by Verification.truthy_opt].
    rewrite Hnil, Hfull, Htruthy. cbn [truthy_list negb andb].
    rewrite bool_decide_eq_false_2 by (intros [? ?]; discriminate).
    now split.
  - unfold Verification.update_result_verification.
    rewrite (update_result_found result _ st Hin). cbn [negb fst snd].
    eexists. split.
    { unfold Verification.get_result_by_document. cbn [Verification.results].
      rewrite find_map_preserved.
      + rewrite Hfind. cbn [option_map]. rewrite String.eqb_refl. reflexivity.
      + intros x. now destruct (String.eqb (Verification.id x) (Verification.id result)). }
    unfold Verification.doc_status, Verification.summary_step,
      Verification.is_handwritten.
    cbn [Verification.extracted_fields Verification.ocr_results Verification.full_text
         Verification.verified_by Verification.truthy_opt].
    rewrite Hnil, Hfull, Htruthy. cbn [Verification.updated_fields List.map
      truthy_list negb andb].
    rewrite bool_decide_eq_false_2 by (intros [? ?]; discriminate).
    now split.
Qed.

Lemma fieldless_result_verified_in_summary_only_witness :
  exists result',
    Verification.get_result_by_document
      (snd (Verification.verify_document None "run-1" "doc-9"
              VerificationSamples.fields_request "user-7" VerificationSamples.store))
      "run-1" "doc-9" = Some result'
    /\ Verification.doc_status result' = "unverified"
    /\ Verification.summary_step (0, 0, 0) result' = (0 + 1, 0, 0).
Proof.
  apply (fieldless_result_verified_in_summary_only None "run-1" "doc-9"
           VerificationSamples.fields_request "user-7" VerificationSamples.store
           VerificationSamples.fieldless_result 0 0 0).
  - reflexivity.
  - reflexivity.
  - reflexivity.
  - discriminate.
Defined.
